(** * pymqi.mq_pcf: PCF structures, bags and command execution

    A shallow embedding of [pymqi/mq_pcf.py]: the encoding-aware option
    structures ([MQOptsWithEncoding] and the CF* classes built on it), the
    bag builder and parser of [PCFCommand], its constructor and helper
    methods, the receive loop of [execute_command] and the classification
    done by [PCFCommandResponse].

    Conventions of the embedding.
    - A Python object of class [MQOpts] is a record holding its member list,
      its [struct] format and its instance attributes; methods are functions
      from the object to the updated object.
    - A raised exception is the [Raise] branch of [result]; statements that
      can raise are sequenced with the bind of that monad.
    - The module is read with the semantics it was written for: [str] is a
      byte string, a quoted literal is a byte string, [decode] yields a
      unicode string.  The host is little-endian, as the native encoding
      value 546 of the module's documentation says.
    - [print] and [binascii.hexlify] only write to the console and are left
      out. *)

From Stdlib Require Import ZArith Lia.
From Stdlib Require Import Init.Byte.
From Stdlib Require DecimalString.
From stdpp Require Import base gmap strings list.

Local Open Scope Z_scope.

(** ** Python values and exceptions *)

Abbreviation bytes := (list byte).

(** The values the module handles.  [PFloat] stands for any float object:
    the module only ever tests its type. *)
#[warnings="-register-all"]
Inductive pyval :=
| PNone
| PInt (z : Z)
| PBool (b : bool)
| PFloat
| PStr (s : bytes)
| PUnicode (u : list N)
| PList (l : list pyval)
| PTuple (l : list pyval).

(** The messages of the [pymqi.PYIFError] exceptions raised by the module. *)
Inductive pyif_msg :=
| UnsupportedParameterType (parm_type : pyval)
| ConvertedLengthMismatch (len : Z) (expected : pyval)
| TupleLengthZero
| UnknownParameterType
| UnknownStructType
| StructureListEmpty.

Inductive exn :=
| PYIFError (msg : pyif_msg)
| MQMIError (comp reason : Z)
| StructError
| TypeError
| AttributeError (name : string)
| IndexError
| UnicodeError.

Inductive result (A : Type) :=
| Ok (a : A)
| Raise (e : exn).
Arguments Ok {A} a.
Arguments Raise {A} e.

#[global] Instance result_ret : MRet result := λ A a, Ok a.
#[global] Instance result_bind : MBind result :=
  λ A B f m, match m with Ok a => f a | Raise e => Raise e end.

Definition is_ok {A} (r : result A) : bool :=
  match r with Ok _ => true | Raise _ => false end.

(** ** Sequences: [len] and slices *)

Definition len {A} (l : list A) : Z := Z.of_nat (length l).

(** Python's clamping of a slice bound: a negative bound counts from the
    end, and every bound is cut to the range of the sequence. *)
Definition clamp (n i : Z) : Z :=
  if i <? 0 then Z.max 0 (n + i) else Z.min i n.

(** [l[lo:hi]], a missing bound being [None]. *)
Definition slice {A} (l : list A) (lo hi : option Z) : list A :=
  let n := len l in
  let a := match lo with Some i => clamp n i | None => 0 end in
  let b := match hi with Some i => clamp n i | None => n end in
  take (Z.to_nat (b - a)) (drop (Z.to_nat a) l).

Definition slice_to {A} (l : list A) (hi : Z) : list A := slice l None (Some hi).
Definition slice_from {A} (l : list A) (lo : Z) : list A := slice l (Some lo) None.
Definition slice_between {A} (l : list A) (lo hi : Z) : list A :=
  slice l (Some lo) (Some hi).

(** [len(v)] on a Python value. *)
Definition py_len (v : pyval) : result Z :=
  match v with
  | PStr s => Ok (len s)
  | PUnicode u => Ok (len u)
  | PList l | PTuple l => Ok (len l)
  | _ => Raise TypeError
  end.

(** [isinstance(v, int)]: [bool] is a subclass of [int]. *)
Definition is_int (v : pyval) : bool :=
  match v with PInt _ | PBool _ => true | _ => false end.

(** [isinstance(v, str) or isinstance(v, bytes)]. *)
Definition is_str (v : pyval) : bool :=
  match v with PStr _ => true | _ => false end.

Definition is_list (v : pyval) : bool :=
  match v with PList _ => true | _ => false end.

(** The integer an [int] or [bool] object denotes. *)
Definition int_value (v : pyval) : option Z :=
  match v with
  | PInt z => Some z
  | PBool b => Some (if b then 1 else 0)
  | _ => None
  end.

(** [v == z] for an integer constant [z]. *)
Definition eq_int (v : pyval) (z : Z) : bool :=
  match int_value v with Some x => x =? z | None => false end.

(** ** The [struct] module

    A format string is kept as its list of tokens: the byte-order mark
    [>], the code [i] and a counted [<n>s]. *)

Inductive fchar :=
| FGt
| FLong
| FChars (n : Z).

Abbreviation fmt := (list fchar).

Definition byte_of_Z (z : Z) : byte :=
  default x00 (Byte.of_N (Z.to_N (z mod 256))).
Definition Z_of_byte (b : byte) : Z := Z.of_N (Byte.to_N b).

(** The four bytes of a 32-bit two's complement integer. *)
Definition encode_long (big : bool) (z : Z) : bytes :=
  let le := [byte_of_Z z; byte_of_Z (z / 256);
             byte_of_Z (z / 65536); byte_of_Z (z / 16777216)] in
  if big then reverse le else le.

Definition decode_long (big : bool) (b : bytes) : Z :=
  let le := if big then reverse b else b in
  let u := foldr (λ x acc, Z_of_byte x + 256 * acc) 0 le in
  if u <? 2147483648 then u else u - 4294967296.

(** A leading [>] selects big-endian, standard size, no alignment; without
    it the format is native. *)
Definition byte_order (f : fmt) : bool * fmt :=
  match f with
  | FGt :: items => (true, items)
  | _ => (false, f)
  end.

(** After the byte-order mark only [i] and [<n>s] with a count that is not
    negative are format characters. *)
Definition item_ok (c : fchar) : bool :=
  match c with
  | FGt => false
  | FLong => true
  | FChars n => 0 <=? n
  end.

(** Native mode aligns an [i] on a multiple of four. *)
Definition padding (big : bool) (off : Z) : Z :=
  if big then 0 else (4 - off mod 4) mod 4.

Fixpoint size_from (big : bool) (off : Z) (items : fmt) : Z :=
  match items with
  | [] => off
  | FLong :: r => size_from big (off + padding big off + 4) r
  | FChars n :: r => size_from big (off + n) r
  | FGt :: r => size_from big off r
  end.

(** [struct.calcsize]. *)
Definition calcsize (f : fmt) : result Z :=
  let '(big, items) := byte_order f in
  if forallb item_ok items then Ok (size_from big 0 items) else Raise StructError.

(** The bytes of a [<n>s] item: the argument cut or NUL-padded to [n]. *)
Definition chars_field (n : Z) (s : bytes) : bytes :=
  take (Z.to_nat n) s ++ replicate (Z.to_nat n - length s)%nat x00.

Fixpoint pack_items (big : bool) (items : fmt) (args : list pyval)
    (acc : bytes) : result bytes :=
  match items, args with
  | [], [] => Ok acc
  | FLong :: r, v :: args' =>
      match int_value v with
      | Some z =>
          if (-2147483648 <=? z) && (z <? 2147483648)
          then pack_items big r args'
                 (acc ++ replicate (Z.to_nat (padding big (len acc))) x00
                      ++ encode_long big z)
          else Raise StructError
      | None => Raise StructError
      end
  | FChars n :: r, PStr s :: args' =>
      pack_items big r args' (acc ++ chars_field n s)
  | _, _ => Raise StructError
  end.

(** [struct.pack(f, *args)]. *)
Definition struct_pack (f : fmt) (args : list pyval) : result bytes :=
  let '(big, items) := byte_order f in
  if forallb item_ok items then pack_items big items args [] else Raise StructError.

Fixpoint unpack_items (big : bool) (items : fmt) (off : Z) (buff : bytes)
    : list pyval :=
  match items with
  | [] => []
  | FLong :: r =>
      let o := off + padding big off in
      PInt (decode_long big (slice_between buff o (o + 4)))
        :: unpack_items big r (o + 4) buff
  | FChars n :: r =>
      PStr (slice_between buff off (off + n)) :: unpack_items big r (off + n) buff
  | FGt :: r => unpack_items big r off buff
  end.

(** [struct.unpack(f, buff)]: the buffer must have exactly the size of the
    format. *)
Definition struct_unpack (f : fmt) (buff : bytes) : result (list pyval) :=
  let '(big, items) := byte_order f in
  if forallb item_ok items then
    if len buff =? size_from big 0 items
    then Ok (unpack_items big items 0 buff)
    else Raise StructError
  else Raise StructError.

(** [pymqi.MQLONG_TYPE]. *)
Definition MQLONG_TYPE : fmt := [FLong].

(** ** Constants of [pymqi.CMQC] and [pymqi.CMQCFC]

    Modelled from the spec: the constant modules [pymqi.CMQC] and
    [pymqi.CMQCFC] are not part of the source file.  The values are those of
    the MQ headers the two modules transcribe; the numeric encodings are the
    ones the comments of [big_endian_encodings] spell out, and each fixed
    structure length is four bytes per [MQLONG] member of the structure it
    belongs to (the wire format table of the specification). *)

Definition MQCFT_COMMAND : Z := 1.
Definition MQCFT_RESPONSE : Z := 2.
Definition MQCFT_INTEGER : Z := 3.
Definition MQCFT_STRING : Z := 4.
Definition MQCFT_INTEGER_LIST : Z := 5.
Definition MQCFT_STRING_LIST : Z := 6.
Definition MQCFT_BYTE_STRING : Z := 9.
Definition MQCFT_INTEGER_FILTER : Z := 13.
Definition MQCFT_BYTE_STRING_FILTER : Z := 15.
Definition MQCFT_COMMAND_XR : Z := 16.
Definition MQCFT_XR_MSG : Z := 17.
Definition MQCFT_XR_ITEM : Z := 18.
Definition MQCFT_XR_SUMMARY : Z := 19.
Definition MQCFT_GROUP : Z := 20.

Definition MQCFH_STRUC_LENGTH : Z := 36.
Definition MQCFBS_STRUC_LENGTH_FIXED : Z := 16.
Definition MQCFBF_STRUC_LENGTH_FIXED : Z := 20.
Definition MQCFGR_STRUC_LENGTH : Z := 16.
Definition MQCFIN_STRUC_LENGTH : Z := 16.
Definition MQCFIL_STRUC_LENGTH_FIXED : Z := 16.
Definition MQCFST_STRUC_LENGTH_FIXED : Z := 20.
Definition MQCFSL_STRUC_LENGTH_FIXED : Z := 24.

Definition MQCFH_CURRENT_VERSION : Z := 3.
Definition MQCFH_VERSION_3 : Z := 3.
Definition MQCMD_NONE : Z := 0.
Definition MQCMD_INQUIRE_Q_MGR : Z := 2.
Definition MQCFC_LAST : Z := 1.
Definition MQCC_OK : Z := 0.
Definition MQRC_NONE : Z := 0.
Definition MQRC_NO_MSG_AVAILABLE : Z := 2033.
Definition MQCCSI_DEFAULT : Z := 0.

Definition MQENC_NATIVE : Z := 546.
Definition MQENC_INTEGER_NORMAL : Z := 1.
Definition MQENC_DECIMAL_NORMAL : Z := 16.
Definition MQENC_FLOAT_IEEE_NORMAL : Z := 256.
Definition MQENC_FLOAT_S390 : Z := 768.

(** ** The base class [pymqi.MQOpts]

    Modelled from the spec: the base class [pymqi.MQOpts] is not part of the
    source file.  It is the plain option structure the source is written
    against: the constructor keeps the member list, sets every member to its
    default and concatenates the member formats; [pack] hands the member
    values to [struct.pack]; [unpack] hands the buffer to [struct.unpack],
    which wants a buffer of exactly the size of the format, and stores the
    fields in member order; [get], [set] and the item access read and write
    the attributes.  The fixed fields are [MQLONG]s of four bytes in the
    configured byte order and the payload follows them unchanged, as the
    wire format of the specification has it. *)

(** One entry [[name, default, format]] of a member list. *)
Record member := Member {
  m_name : string;
  m_default : pyval;
  m_fmt : fmt
}.

(** The attribute dictionary of an instance: the names with their values,
    in the order in which they were first set. *)
Abbreviation attr_dict := (list (string * pyval)).

Fixpoint attr_get (a : attr_dict) (key : string) : option pyval :=
  match a with
  | [] => None
  | (k, v) :: r => if String.eqb k key then Some v else attr_get r key
  end.

Fixpoint attr_set (a : attr_dict) (key : string) (v : pyval) : attr_dict :=
  match a with
  | [] => [(key, v)]
  | (k, x) :: r =>
      if String.eqb k key then (k, v) :: r else (k, x) :: attr_set r key v
  end.

(** An instance: the private [__list] and [__format] of [MQOpts], the
    instance attributes, and the [integer_list] and [string_list] that [CFIL]
    and [CFSL] keep beside them. *)
Record MQOpts := mkMQOpts {
  MQOpts__list : list member;
  MQOpts__format : fmt;
  attrs : attr_dict;
  integer_list : list pyval;
  string_list : list pyval
}.

Definition new_object : MQOpts :=
  {| MQOpts__list := []; MQOpts__format := []; attrs := [];
     integer_list := []; string_list := [] |}.

Definition getattr (self : MQOpts) (key : string) : result pyval :=
  match attr_get (attrs self) key with
  | Some v => Ok v
  | None => Raise (AttributeError key)
  end.

Definition setattr (self : MQOpts) (key : string) (v : pyval) : MQOpts :=
  {| MQOpts__list := MQOpts__list self; MQOpts__format := MQOpts__format self;
     attrs := attr_set (attrs self) key v;
     integer_list := integer_list self; string_list := string_list self |}.

Definition hasattr (self : MQOpts) (key : string) : bool :=
  match attr_get (attrs self) key with Some _ => true | None => false end.

(** [self[key]]. *)
Definition getitem (self : MQOpts) (key : string) : result pyval :=
  getattr self key.

(** [self[key] = v]: only an attribute that exists is set. *)
Definition setitem (self : MQOpts) (key : string) (v : pyval) : result MQOpts :=
  _ ← getattr self key;
  Ok (setattr self key v).

(** [self.set] with keyword arguments. *)
Fixpoint MQOpts_set (self : MQOpts) (kw : list (string * pyval)) : result MQOpts :=
  match kw with
  | [] => Ok self
  | (k, v) :: kw' =>
      _ ← getattr self k;
      MQOpts_set (setattr self k v) kw'
  end.

(** [self.get()]: the member values, in member order. *)
Fixpoint get_members (self : MQOpts) (l : list member)
    : result (list (string * pyval)) :=
  match l with
  | [] => Ok []
  | m :: l' =>
      v ← getattr self (m_name m);
      d ← get_members self l';
      Ok ((m_name m, v) :: d)
  end.

Definition MQOpts_get (self : MQOpts) : result (list (string * pyval)) :=
  get_members self (MQOpts__list self).

(** [MQOpts.__init__(self, memlist, **kw)].  Called on an existing instance it
    resets the members to their defaults and leaves every other attribute. *)
Definition MQOpts_init (self : MQOpts) (memlist : list member)
    (kw : list (string * pyval)) : result MQOpts :=
  MQOpts_set
    {| MQOpts__list := memlist;
       MQOpts__format := concat (m_fmt <$> memlist);
       attrs := foldl (λ a m, attr_set a (m_name m) (m_default m)) (attrs self) memlist;
       integer_list := integer_list self;
       string_list := string_list self |}
    kw.

(** An attribute holding a list is flattened into the arguments of
    [struct.pack]. *)
Definition flatten_arg (v : pyval) : list pyval :=
  match v with PList l => l | _ => [v] end.

(** [MQOpts.pack(self)]. *)
Definition MQOpts_pack (self : MQOpts) : result bytes :=
  d ← MQOpts_get self;
  struct_pack (MQOpts__format self) (concat (flatten_arg <$> d.*2)).

Fixpoint assign_fields (self : MQOpts) (l : list member) (r : list pyval)
    : result MQOpts :=
  match l, r with
  | [], _ => Ok self
  | m :: l', v :: r' => assign_fields (setattr self (m_name m) v) l' r'
  | _ :: _, [] => Raise IndexError
  end.

(** [MQOpts.unpack(self, buff)]. *)
Definition MQOpts_unpack (self : MQOpts) (buff : bytes) : result MQOpts :=
  r ← struct_unpack (MQOpts__format self) buff;
  assign_fields self (MQOpts__list self) r.

(** ** Operators on Python values *)

Definition as_int (v : pyval) : result Z :=
  match int_value v with Some z => Ok z | None => Raise TypeError end.

(** A byte string read as ASCII text, the implicit coercion of a [str]
    that meets a unicode string. *)
Definition ascii_text (s : bytes) : result (list N) :=
  if forallb (λ b, (Byte.to_N b <? 128)%N) s
  then Ok (Byte.to_N <$> s) else Raise UnicodeError.

(** [a + b]. *)
Definition py_add (a b : pyval) : result pyval :=
  match a, b with
  | PStr x, PStr y => Ok (PStr (x ++ y))
  | PUnicode x, PUnicode y => Ok (PUnicode (x ++ y))
  | PStr x, PUnicode y => x' ← ascii_text x; Ok (PUnicode (x' ++ y))
  | PUnicode x, PStr y => y' ← ascii_text y; Ok (PUnicode (x ++ y'))
  | PList x, PList y => Ok (PList (x ++ y))
  | PTuple x, PTuple y => Ok (PTuple (x ++ y))
  | _, _ =>
      match int_value a, int_value b with
      | Some x, Some y => Ok (PInt (x + y))
      | _, _ => Raise TypeError
      end
  end.

(** [a - b]: defined on numbers only. *)
Definition py_sub (a b : pyval) : result pyval :=
  match int_value a, int_value b with
  | Some x, Some y => Ok (PInt (x - y))
  | _, _ => Raise TypeError
  end.

(** [a * b]: a product of numbers or a repeated sequence. *)
Definition py_mul (a b : pyval) : result pyval :=
  match a, int_value b with
  | PStr x, Some n => Ok (PStr (concat (replicate (Z.to_nat n) x)))
  | PUnicode x, Some n => Ok (PUnicode (concat (replicate (Z.to_nat n) x)))
  | _, _ =>
      match int_value a, int_value b with
      | Some x, Some y => Ok (PInt (x * y))
      | _, _ => Raise TypeError
      end
  end.

(** [a[:hi]] on a sequence value. *)
Definition py_slice_to (a : pyval) (hi : pyval) : result pyval :=
  h ← as_int hi;
  match a with
  | PStr x => Ok (PStr (slice_to x h))
  | PUnicode x => Ok (PUnicode (slice_to x h))
  | PList x => Ok (PList (slice_to x h))
  | PTuple x => Ok (PTuple (slice_to x h))
  | _ => Raise TypeError
  end.

(** ["%is" % v]. *)
Definition fmt_is (v : pyval) : result fmt :=
  n ← as_int v; Ok [FChars n].

(** The byte string [" "]. *)
Definition space : bytes := [x20].

(** ** [MQOptsWithEncoding] *)

Definition big_endian_encodings : list Z :=
  [ MQENC_INTEGER_NORMAL;
    MQENC_DECIMAL_NORMAL;
    MQENC_FLOAT_IEEE_NORMAL;
    MQENC_FLOAT_S390;
    MQENC_INTEGER_NORMAL + MQENC_DECIMAL_NORMAL;
    MQENC_INTEGER_NORMAL + MQENC_FLOAT_IEEE_NORMAL;
    MQENC_DECIMAL_NORMAL + MQENC_FLOAT_IEEE_NORMAL;
    MQENC_INTEGER_NORMAL + MQENC_DECIMAL_NORMAL + MQENC_FLOAT_IEEE_NORMAL;
    MQENC_INTEGER_NORMAL + MQENC_DECIMAL_NORMAL + MQENC_FLOAT_S390 ].

(** [encoding in self.big_endian_encodings]; [None] is in no list. *)
Definition is_big_endian (encoding : option Z) : bool :=
  match encoding with
  | Some e => bool_decide (e ∈ big_endian_encodings)
  | None => false
  end.

(** [self._MQOpts__list[0][2] = ">" + self._MQOpts__list[0][2]]: the format
    of the first member gets the byte-order mark in front. *)
Definition mark_big_endian (self : MQOpts) : result MQOpts :=
  match MQOpts__list self with
  | [] => Raise IndexError
  | m :: l =>
      Ok {| MQOpts__list := Member (m_name m) (m_default m) (FGt :: m_fmt m) :: l;
            MQOpts__format := MQOpts__format self;
            attrs := attrs self;
            integer_list := integer_list self;
            string_list := string_list self |}
  end.

(** [self._MQOpts__list[0][2].startswith(">")]. *)
Definition starts_with_mark (self : MQOpts) : result bool :=
  match MQOpts__list self with
  | [] => Raise IndexError
  | m :: _ => Ok (match m_fmt m with FGt :: _ => true | _ => false end)
  end.

(** The three closing statements shared by the methods below: save the
    member values, run the base constructor on the new member list, set the
    saved values again. *)
Definition apply_opts (self : MQOpts) (opts : list member) : result MQOpts :=
  saved_values ← MQOpts_get self;
  self ← MQOpts_init self opts [];
  MQOpts_set self saved_values.

(** [MQOptsWithEncoding.pack(self, encoding)], with the object as the call
    leaves it. *)
Definition pack (self : MQOpts) (encoding : option Z) : result (MQOpts * bytes) :=
  self ← (if is_big_endian encoding
          then self ← mark_big_endian self; apply_opts self (MQOpts__list self)
          else Ok self);
  buff ← MQOpts_pack self;
  Ok (self, buff).

(** [MQOptsWithEncoding.unpack(self, buff, encoding)]. *)
Definition unpack (self : MQOpts) (buff : bytes) (encoding : option Z)
    : result MQOpts :=
  self ← (if is_big_endian encoding then mark_big_endian self else Ok self);
  self ← MQOpts_init self (MQOpts__list self) [];
  MQOpts_unpack self buff.

(** The first two statements of every overriding [unpack], followed by the
    base [unpack] of the fixed part. *)
Definition unpack_fixed (self : MQOpts) (buff : bytes) (encoding : option Z)
    (fixed : Z) : result MQOpts :=
  unpack self (slice_to buff fixed) encoding.

(** ** The structures *)

Definition long (name : string) (default : Z) : member :=
  Member name (PInt default) MQLONG_TYPE.

Definition CFH (kw : list (string * pyval)) : result MQOpts :=
  MQOpts_init new_object
    [ long "Type" MQCFT_COMMAND;
      long "StrucLength" MQCFH_STRUC_LENGTH;
      long "Version" MQCFH_CURRENT_VERSION;
      long "Command" MQCMD_NONE;
      long "MsgSeqNumber" 1;
      long "Control" MQCFC_LAST;
      long "CompCode" MQCC_OK;
      long "Reason" MQRC_NONE;
      long "ParameterCount" 0 ] kw.

Definition CFBS (kw : list (string * pyval)) : result MQOpts :=
  MQOpts_init new_object
    [ long "Type" MQCFT_BYTE_STRING;
      long "StrucLength" MQCFBS_STRUC_LENGTH_FIXED;
      long "Parameter" 0;
      long "StringLength" 0 ] kw.

Definition CFBF (kw : list (string * pyval)) : result MQOpts :=
  MQOpts_init new_object
    [ long "Type" MQCFT_BYTE_STRING_FILTER;
      long "StrucLength" MQCFBF_STRUC_LENGTH_FIXED;
      long "Parameter" 0;
      long "Operator" 0;
      long "FilterValueLength" 0 ] kw.

Definition CFGR (kw : list (string * pyval)) : result MQOpts :=
  MQOpts_init new_object
    [ long "Type" MQCFT_GROUP;
      long "StrucLength" MQCFGR_STRUC_LENGTH;
      long "Parameter" 0;
      long "ParameterCount" 0 ] kw.

Definition CFIF (kw : list (string * pyval)) : result MQOpts :=
  MQOpts_init new_object
    [ long "Type" MQCFT_INTEGER_FILTER;
      long "StrucLength" MQCFBF_STRUC_LENGTH_FIXED;
      long "Parameter" 0;
      long "Operator" 0;
      long "FilterValue" 0 ] kw.

Definition CFIN (kw : list (string * pyval)) : result MQOpts :=
  MQOpts_init new_object
    [ long "Type" MQCFT_INTEGER;
      long "StrucLength" MQCFIN_STRUC_LENGTH;
      long "Parameter" 0;
      long "Value" 0 ] kw.

Definition CFIL (kw : list (string * pyval)) : result MQOpts :=
  MQOpts_init new_object
    [ long "Type" MQCFT_INTEGER_LIST;
      long "StrucLength" MQCFIL_STRUC_LENGTH_FIXED;
      long "Parameter" 0;
      long "Count" 0 ] kw.


Definition CFST (kw : list (string * pyval)) : result MQOpts :=
  MQOpts_init new_object
    [ long "Type" MQCFT_STRING;
      long "StrucLength" MQCFST_STRUC_LENGTH_FIXED;
      long "Parameter" 0;
      long "CodedCharSetId" MQCCSI_DEFAULT;
      long "StringLength" 0 ] kw.

Definition CFSL (kw : list (string * pyval)) : result MQOpts :=
  MQOpts_init new_object
    [ long "Type" MQCFT_STRING_LIST;
      long "StrucLength" MQCFSL_STRUC_LENGTH_FIXED;
      long "Parameter" 0;
      long "CodedCharSetId" MQCCSI_DEFAULT;
      long "Count" 0;
      long "StringLength" 0 ] kw.

(** *** CFBS *)

(** The declared-length choice shared by [CFBS], [CFST] and [CFSL]: a
    [StringLength] of zero is replaced by the length of what follows the
    fixed part, any other one cuts the payload. *)
Definition declared_payload (self : MQOpts) (buff : bytes) (fixed : Z)
    : result (MQOpts * bytes) :=
  let string_value := slice_from buff fixed in
  sl ← getitem self "StringLength";
  if eq_int sl 0 then
    self ← setitem self "StringLength" (PInt (len string_value));
    Ok (self, string_value)
  else
    n ← as_int sl;
    Ok (self, slice_between buff fixed (fixed + n)).

(** [CFBS.unpack(self, buff, encoding)]. *)
Definition CFBS_unpack (self : MQOpts) (buff : bytes) (encoding : option Z)
    : result MQOpts :=
  self ← unpack_fixed self buff encoding MQCFBS_STRUC_LENGTH_FIXED;
  '(self, string_value) ← declared_payload self buff MQCFBS_STRUC_LENGTH_FIXED;
  let opts := MQOpts__list self
              ++ [Member "String" (PStr string_value) [FChars (len string_value)]] in
  self ← setitem self "StrucLength"
           (PInt (MQCFBS_STRUC_LENGTH_FIXED + len string_value));
  apply_opts self opts.

(** *** CFIL *)

Definition append_integer (self : MQOpts) (value : pyval) : MQOpts :=
  {| MQOpts__list := MQOpts__list self; MQOpts__format := MQOpts__format self;
     attrs := attrs self;
     integer_list := integer_list self ++ [value];
     string_list := string_list self |}.

(** The branch on [hasattr] that closes [add_integer] and [add_string]: the
    payload member is replaced when the attribute exists and appended
    otherwise. *)
Definition replace_payload (self : MQOpts) (name : string) (string_value : pyval)
    (f : fmt) : result MQOpts :=
  if hasattr self name then
    self ← setitem self name string_value;
    apply_opts self (slice_to (MQOpts__list self) (-1) ++ [Member name string_value f])
  else
    apply_opts self (MQOpts__list self ++ [Member name string_value f]).

(** [CFIL.add_integer(self, value, encoding)]. *)
Definition add_integer (self : MQOpts) (value : pyval) (encoding : option Z)
    : result MQOpts :=
  let self := append_integer self value in
  c ← getitem self "Count";
  c1 ← py_add c (PInt 1);
  self ← setitem self "Count" c1;
  sz ← calcsize MQLONG_TYPE;
  c ← getitem self "Count";
  n ← py_mul (PInt sz) c;
  sl ← py_add (PInt MQCFIL_STRUC_LENGTH_FIXED) n;
  self ← setitem self "StrucLength" sl;
  let format_str := replicate (length (integer_list self)) FLong in
  big ← (if is_big_endian encoding
         then marked ← starts_with_mark self; Ok (negb marked)
         else Ok false);
  string_value ← (if big : bool
                  then struct_pack (FGt :: format_str) (integer_list self)
                  else struct_pack format_str (integer_list self));
  replace_payload self "IntegerList" (PStr string_value) [FChars (len string_value)].

(** The loop over [range(self["Count"])] of [CFIL.unpack]: each round
    appends the tuple [struct.unpack] returns for the next four bytes. *)
Fixpoint read_integers (count : nat) (int_buf : bytes) (acc : list pyval)
    : result (list pyval) :=
  match count with
  | O => Ok acc
  | S k =>
      t ← struct_unpack MQLONG_TYPE (slice_to int_buf 4);
      read_integers k (slice_from int_buf 4) (acc ++ [PTuple t])
  end.

Definition set_integer_list (self : MQOpts) (l : list pyval) : MQOpts :=
  {| MQOpts__list := MQOpts__list self; MQOpts__format := MQOpts__format self;
     attrs := attrs self; integer_list := l; string_list := string_list self |}.

(** [CFIL.unpack(self, buff, encoding)]. *)
Definition CFIL_unpack (self : MQOpts) (buff : bytes) (encoding : option Z)
    : result MQOpts :=
  self ← unpack_fixed self buff encoding MQCFIL_STRUC_LENGTH_FIXED;
  let string_value := slice_from buff MQCFIL_STRUC_LENGTH_FIXED in
  let opts := MQOpts__list self
              ++ [Member "IntegerList" (PStr string_value) [FChars (len string_value)]] in
  sl ← getitem self "StrucLength";
  self ← (if eq_int sl MQCFST_STRUC_LENGTH_FIXED || eq_int sl 0
          then setitem self "StrucLength"
                 (PInt (MQCFST_STRUC_LENGTH_FIXED + len string_value))
          else Ok self);
  c ← getitem self "Count";
  count ← as_int c;
  ints ← read_integers (Z.to_nat count) string_value (integer_list self);
  apply_opts (set_integer_list self ints) opts.

(** *** CFSF *)


(** *** CFST *)

(** [CFST.set_string(self, string_value)]. *)
Definition set_string (self : MQOpts) (string_value : pyval) : result MQOpts :=
  n ← py_len string_value;
  self ← setitem self "StringLength" (PInt n);
  sl ← getitem self "StringLength";
  f ← fmt_is sl;
  let opts := MQOpts__list self ++ [Member "String" string_value f] in
  sl ← getitem self "StrucLength";
  self ← (if eq_int sl MQCFST_STRUC_LENGTH_FIXED || eq_int sl 0
          then setitem self "StrucLength" (PInt (MQCFST_STRUC_LENGTH_FIXED + n))
          else Ok self);
  apply_opts self opts.

(** [CFST.unpack(self, buff, encoding)]. *)
Definition CFST_unpack (self : MQOpts) (buff : bytes) (encoding : option Z)
    : result MQOpts :=
  self ← unpack_fixed self buff encoding MQCFST_STRUC_LENGTH_FIXED;
  '(self, string_value) ← declared_payload self buff MQCFST_STRUC_LENGTH_FIXED;
  sl ← getitem self "StringLength";
  f ← fmt_is sl;
  let opts := MQOpts__list self ++ [Member "String" (PStr string_value) f] in
  sl ← getitem self "StrucLength";
  self ← (if eq_int sl MQCFST_STRUC_LENGTH_FIXED || eq_int sl 0
          then setitem self "StrucLength"
                 (PInt (MQCFST_STRUC_LENGTH_FIXED + len string_value))
          else Ok self);
  apply_opts self opts.

(** *** CFSL *)

Definition append_string (self : MQOpts) (value : pyval) : MQOpts :=
  {| MQOpts__list := MQOpts__list self; MQOpts__format := MQOpts__format self;
     attrs := attrs self; integer_list := integer_list self;
     string_list := string_list self ++ [value] |}.

(** One round of the loop of [add_string] over [self.string_list].  The
    padding statement is [s = s + " " * self["StringLength"] - len(s)], a
    difference whose left operand is the padded string; the cutting
    statement is [s = s[:self["StringLength" - 1]]], whose key is the
    difference of a string and a number. *)
Definition add_slot (self : MQOpts) (string_value s : pyval) : result pyval :=
  n ← py_len s;
  sl ← getitem self "StringLength";
  w ← as_int sl;
  s ← (if n <? w then
         sl ← getitem self "StringLength";
         pad ← py_mul (PStr space) sl;
         padded ← py_add s pad;
         n ← py_len s;
         py_sub padded (PInt n)
       else Ok s);
  n ← py_len s;
  sl ← getitem self "StringLength";
  w ← as_int sl;
  s ← (if w <? n then
         key ← py_sub (PStr (String.list_byte_of_string "StringLength")) (PInt 1);
         match key with
         | PStr k => hi ← getitem self (String.string_of_list_byte k); py_slice_to s hi
         | _ => Raise TypeError
         end
       else Ok s);
  py_add string_value s.

Fixpoint join_slots (self : MQOpts) (l : list pyval) (string_value : pyval)
    : result pyval :=
  match l with
  | [] => Ok string_value
  | s :: l' =>
      string_value ← add_slot self string_value s;
      join_slots self l' string_value
  end.

(** [CFSL.add_string(self, value)]. *)
Definition add_string (self : MQOpts) (value : pyval) : result MQOpts :=
  let self := append_string self value in
  sl ← getitem self "StringLength";
  self ← (if eq_int sl 0
          then n ← py_len value; setitem self "StringLength" (PInt n)
          else Ok self);
  c ← getitem self "Count";
  c1 ← py_add c (PInt 1);
  self ← setitem self "Count" c1;
  sl ← getitem self "StringLength";
  c ← getitem self "Count";
  n ← py_mul sl c;
  total ← py_add (PInt MQCFSL_STRUC_LENGTH_FIXED) n;
  self ← setitem self "StrucLength" total;
  string_value ← join_slots self (string_list self) (PStr []);
  n ← py_len string_value;
  replace_payload self "StringList" string_value [FChars n].

(** [CFSL.unpack(self, buff, encoding)]. *)
Definition CFSL_unpack (self : MQOpts) (buff : bytes) (encoding : option Z)
    : result MQOpts :=
  self ← unpack_fixed self buff encoding MQCFSL_STRUC_LENGTH_FIXED;
  '(self, string_value) ← declared_payload self buff MQCFSL_STRUC_LENGTH_FIXED;
  sl ← getitem self "StringLength";
  f ← fmt_is sl;
  let opts := MQOpts__list self ++ [Member "StringList" (PStr string_value) f] in
  sl ← getitem self "StrucLength";
  self ← (if eq_int sl MQCFSL_STRUC_LENGTH_FIXED || eq_int sl 0
          then setitem self "StrucLength"
                 (PInt (MQCFSL_STRUC_LENGTH_FIXED + len string_value))
          else Ok self);
  apply_opts self opts.

(** ** [PCFCommand] *)

(** The attributes a [PCFCommand] is left with by its constructor. *)
Record PCFCommand := mkPCFCommand {
  ccsid : Z;
  encoding : Z;
  convert : bool;
  ccsid_str : string
}.

(** One element of a [parm_list]: a dict (its items in order), a tuple, an
    instance of [MQOpts], or any other object. *)
Inductive directive :=
| DDict (items : list (pyval * pyval))
| DTuple (elems : list pyval)
| DStruct (o : MQOpts)
| DOther (v : pyval).

(** A dictionary from parameter ids to values.  The ids are [MQLONG]s, so
    the keys are integers: a key that is no [int] is refused. *)
Definition dict_set (d : gmap Z pyval) (key v : pyval) : result (gmap Z pyval) :=
  k ← as_int key; Ok (<[k := v]> d).

Section Codecs.

(** The codecs of the Python library, looked up by name:
    [bytes.decode(name)] and [unicode.encode(name)]. *)
Variable codec_decode : string → bytes → result (list N).
Variable codec_encode : string → list N → result bytes.

(** [v.encode(name)].  A byte string is first read as ASCII text. *)
Definition py_encode (name : string) (v : pyval) : result pyval :=
  match v with
  | PUnicode u => b ← codec_encode name u; Ok (PStr b)
  | PStr s => u ← ascii_text s; b ← codec_encode name u; Ok (PStr b)
  | _ => Raise (AttributeError "encode")
  end.

(** [v.decode(name)]. *)
Definition py_decode (name : string) (v : pyval) : result pyval :=
  match v with
  | PStr s => u ← codec_decode name s; Ok (PUnicode u)
  | _ => Raise (AttributeError "decode")
  end.

Fixpoint add_integers (cf_p : MQOpts) (parm_vals : list pyval) (encoding : option Z)
    : result MQOpts :=
  match parm_vals with
  | [] => Ok cf_p
  | p :: r => cf_p ← add_integer cf_p p encoding; add_integers cf_p r encoding
  end.

Fixpoint add_strings (cf_p : MQOpts) (parm_vals : list pyval)
    (conv : option string) : result MQOpts :=
  match parm_vals with
  | [] => Ok cf_p
  | p :: r =>
      p ← (match conv with Some name => py_encode name p | None => Ok p end);
      cf_p ← add_string cf_p p;
      add_strings cf_p r conv
  end.

(** The structure built for one id and value.  The dict branch and the
    tuple branch of [pack_bag] repeat the same statements, except that only
    the dict branch encodes strings when [self.convert] is set: [conv] is
    the codec name there and [None] in the tuple branch.  The result is the
    final value of [cf_p], which stays [None] for an empty list. *)
Definition make_parameter (self : PCFCommand) (conv : option string)
    (parm parm_vals : pyval) : result (option MQOpts) :=
  match parm_vals with
  | PList l =>
      match l with
      | v0 :: _ =>
          if is_int v0 then
            cf_p ← CFIL [];
            cf_p ← setitem cf_p "Parameter" parm;
            cf_p ← add_integers cf_p l (Some (encoding self));
            Ok (Some cf_p)
          else if is_str v0 then
            cf_p ← CFSL [];
            cf_p ← setitem cf_p "CodedCharSetId" (PInt (ccsid self));
            cf_p ← setitem cf_p "Parameter" parm;
            cf_p ← add_strings cf_p l conv;
            Ok (Some cf_p)
          else Raise (PYIFError UnknownParameterType)
      | [] => Ok None
      end
  | _ =>
      if is_int parm_vals then
        cf_p ← CFIN [];
        cf_p ← setitem cf_p "Parameter" parm;
        cf_p ← setitem cf_p "Value" parm_vals;
        Ok (Some cf_p)
      else if is_str parm_vals then
        cf_p ← CFST [];
        cf_p ← setitem cf_p "CodedCharSetId" (PInt (ccsid self));
        cf_p ← setitem cf_p "Parameter" parm;
        s ← (match conv with
             | Some name => py_encode name parm_vals
             | None => Ok parm_vals
             end);
        cf_p ← set_string cf_p s;
        Ok (Some cf_p)
      else Raise (PYIFError UnknownParameterType)
  end.

(** [out_buf + cf_p.pack(encoding=self.encoding)]; [None] has no [pack]. *)
Definition append_packed (self : PCFCommand) (out_buf : bytes)
    (cf_p : option MQOpts) : result bytes :=
  match cf_p with
  | Some o => '(_, b) ← pack o (Some (encoding self)); Ok (out_buf ++ b)
  | None => Raise (AttributeError "pack")
  end.

(** The body of the loop of [pack_bag] over [parm_list]. *)
Definition pack_parameter (self : PCFCommand) (out_buf : bytes)
    (parm_tpl : directive) : result bytes :=
  match parm_tpl with
  | DDict items =>
      match items with
      | [] => Raise (PYIFError TupleLengthZero)
      | (parm, parm_vals) :: _ =>
          cf_p ← make_parameter self
                   (if convert self then Some (ccsid_str self) else None)
                   parm parm_vals;
          append_packed self out_buf cf_p
      end
  | DTuple elems =>
      match elems with
      | [] => Raise (PYIFError TupleLengthZero)
      | [_] => Raise IndexError
      | parm :: parm_vals :: _ =>
          cf_p ← make_parameter self None parm parm_vals;
          append_packed self out_buf cf_p
      end
  | DStruct _ => Ok out_buf
  | DOther _ => Raise (PYIFError UnknownStructType)
  end.

Fixpoint pack_parameters (self : PCFCommand) (out_buf : bytes)
    (parm_list : list directive) : result bytes :=
  match parm_list with
  | [] => Ok out_buf
  | parm_tpl :: r =>
      out_buf ← pack_parameter self out_buf parm_tpl;
      pack_parameters self out_buf r
  end.

(** [PCFCommand.pack_bag(self, command, parm_list)]. *)
Definition pack_bag (self : PCFCommand) (command : pyval)
    (parm_list : list directive) : result bytes :=
  pcf_header ← CFH [];
  pcf_header ← setitem pcf_header "Type" (PInt MQCFT_COMMAND_XR);
  pcf_header ← setitem pcf_header "Command" command;
  pcf_header ← setitem pcf_header "Version" (PInt MQCFH_VERSION_3);
  pcf_header ← setitem pcf_header "ParameterCount" (PInt (len parm_list));
  '(_, out_buf) ← pack pcf_header (Some (encoding self));
  pack_parameters self out_buf parm_list.

(** *** [unpack_bag] *)

(** The two locals the loop of [unpack_bag] builds up. *)
Record bag_state := mkBag {
  pcf_dict : gmap Z pyval;
  pcf_structs : list MQOpts
}.

(** [struct.unpack(long_format, b)[0]]. *)
Definition unpack_long (self : PCFCommand) (b : bytes) : result pyval :=
  let long_format :=
    if is_big_endian (Some (encoding self)) then FGt :: MQLONG_TYPE else MQLONG_TYPE in
  t ← struct_unpack long_format b;
  match t with
  | v :: _ => Ok v
  | [] => Raise IndexError
  end.

(** [pcf_structs.append(resp); pcf_dict[resp["Parameter"]] = resp[name]]. *)
Definition record_parameter (st : bag_state) (resp : MQOpts) (name : string)
    : result bag_state :=
  v ← getitem resp name;
  k ← getitem resp "Parameter";
  d ← dict_set (pcf_dict st) k v;
  Ok (mkBag d (pcf_structs st ++ [resp])).

(** The conversion of a decoded string member and the check of its
    length against [expected]. *)
Definition convert_member (self : PCFCommand) (resp : MQOpts) (name : string)
    (expected : MQOpts → result pyval) : result MQOpts :=
  s ← getitem resp name;
  u ← py_decode (ccsid_str self) s;
  resp ← setitem resp name u;
  s ← getitem resp name;
  n ← py_len s;
  e ← expected resp;
  if eq_int e n then Ok resp
  else Raise (PYIFError (ConvertedLengthMismatch n e)).

(** One round of the [while not done] loop: the state after the round and
    the rest of the buffer. *)
Definition unpack_parameter (self : PCFCommand) (convert : bool)
    (st : bag_state) (new_buff : bytes) : result (bag_state * bytes) :=
  let enc := Some (encoding self) in
  parm_type ← unpack_long self (slice_to new_buff 4);
  struc_len ← unpack_long self (slice_between new_buff 4 8);
  n ← as_int struc_len;
  st ←
    (if eq_int parm_type MQCFT_INTEGER then
       resp_cfin ← CFIN [];
       resp_cfin ← unpack resp_cfin (slice_to new_buff n) enc;
       record_parameter st resp_cfin "Value"
     else if eq_int parm_type MQCFT_STRING then
       resp_cfst ← CFST [];
       resp_cfst ← CFST_unpack resp_cfst (slice_to new_buff n) enc;
       resp_cfst ←
         (if convert
          then convert_member self resp_cfst "String"
                 (λ r, getitem r "StringLength")
          else Ok resp_cfst);
       record_parameter st resp_cfst "String"
     else if eq_int parm_type MQCFT_INTEGER_LIST then
       resp_cfil ← CFIL [];
       resp_cfil ← CFIL_unpack resp_cfil (slice_to new_buff n) enc;
       record_parameter st resp_cfil "IntegerList"
     else if eq_int parm_type MQCFT_STRING_LIST then
       resp_cfsl ← CFSL [];
       resp_cfsl ← CFSL_unpack resp_cfsl (slice_to new_buff n) enc;
       resp_cfsl ←
         (if convert
          then convert_member self resp_cfsl "StringList"
                 (λ r, sl ← getitem r "StringLength";
                       c ← getitem r "Count";
                       py_mul sl c)
          else Ok resp_cfsl);
       record_parameter st resp_cfsl "StringList"
     else if eq_int parm_type MQCFT_BYTE_STRING then
       resp_cfbs ← CFBS [];
       resp_cfbs ← CFBS_unpack resp_cfbs (slice_to new_buff n) enc;
       record_parameter st resp_cfbs "String"
     else Raise (PYIFError (UnsupportedParameterType parm_type)));
  Ok (st, slice_from new_buff n).

(** The loop, with a bound on the number of rounds: [None] when the bound
    is reached before the loop is done. *)
Fixpoint unpack_loop (fuel : nat) (self : PCFCommand) (convert : bool)
    (st : bag_state) (new_buff : bytes) : option (result bag_state) :=
  match fuel with
  | O => None
  | S fuel' =>
      match unpack_parameter self convert st new_buff with
      | Raise e => Some (Raise e)
      | Ok (st', new_buff') =>
          if len new_buff' =? 0 then Some (Ok st')
          else unpack_loop fuel' self convert st' new_buff'
      end
  end.

(** [unpack_bag] up to its [return], with both locals.  The outer [None] is
    a loop that is not done within [fuel] rounds, the inner one the value
    [None] the method returns for a missing or empty buffer. *)
Definition unpack_bag_run (fuel : nat) (self : PCFCommand) (buff : option bytes)
    (convert : bool) : option (result (option bag_state)) :=
  match buff with
  | None => Some (Ok None)
  | Some buff =>
      if len buff =? 0 then Some (Ok None)
      else
        match (resp_cfh ← CFH [];
               unpack resp_cfh (slice_to buff 36) (Some (encoding self))) with
        | Raise e => Some (Raise e)
        | Ok resp_cfh =>
            let st := mkBag ∅ [resp_cfh] in
            let new_buff := slice_from buff 36 in
            if len new_buff =? 0 then Some (Ok (Some st))
            else
              match unpack_loop fuel self convert st new_buff with
              | None => None
              | Some (Raise e) => Some (Raise e)
              | Some (Ok st) => Some (Ok (Some st))
              end
        end
  end.

(** The number of rounds a buffer can need: every round that does not
    raise consumes at least one byte. *)
Definition rounds (buff : option bytes) : nat :=
  match buff with Some b => length b | None => O end.

(** [PCFCommand.unpack_bag(self, buff, convert)]: it returns [pcf_structs]. *)
Definition unpack_bag (self : PCFCommand) (buff : option bytes) (convert : bool)
    : option (result (option (list MQOpts))) :=
  match unpack_bag_run (rounds buff) self buff convert with
  | None => None
  | Some (Raise e) => Some (Raise e)
  | Some (Ok None) => Some (Ok None)
  | Some (Ok (Some st)) => Some (Ok (Some (pcf_structs st)))
  end.

(** ** [PCFCommandResponse] *)

Record PCFCommandResponse := mkResponse {
  struct_list : list (list MQOpts);
  headers : list MQOpts;
  header : option MQOpts;
  parms : list (gmap Z pyval)
}.

(** [parm_type] is one of the four header types. *)
Definition is_header_type (parm_type : pyval) : bool :=
  eq_int parm_type MQCFT_RESPONSE || eq_int parm_type MQCFT_XR_ITEM
  || eq_int parm_type MQCFT_XR_MSG || eq_int parm_type MQCFT_XR_SUMMARY.

(** The name of the member that holds the value of a parameter structure
    of type [parm_type]. *)
Definition value_member (parm_type : pyval) : option string :=
  if eq_int parm_type MQCFT_INTEGER then Some "Value"
  else if eq_int parm_type MQCFT_STRING then Some "String"
  else if eq_int parm_type MQCFT_INTEGER_LIST then Some "IntegerList"
  else if eq_int parm_type MQCFT_STRING_LIST then Some "StringList"
  else if eq_int parm_type MQCFT_BYTE_STRING then Some "String"
  else None.

(** The inner loop [for pcf_st in pcf_s] of the constructor, on the
    headers collected so far, the canonical header and the dictionary of
    the bag.  A summary header leaves the loop. *)
Fixpoint classify (hs : list MQOpts) (h : option MQOpts) (d : gmap Z pyval)
    (pcf_s : list MQOpts)
    : result (list MQOpts * option MQOpts * gmap Z pyval) :=
  match pcf_s with
  | [] => Ok (hs, h, d)
  | pcf_st :: r =>
      parm_type ← getitem pcf_st "Type";
      if is_header_type parm_type then
        let hs := hs ++ [pcf_st] in
        let h := match h with None => Some pcf_st | Some _ => h end in
        if eq_int parm_type MQCFT_XR_SUMMARY then Ok (hs, h, d)
        else classify hs h d r
      else
        match value_member parm_type with
        | Some name =>
            v ← getitem pcf_st name;
            k ← getitem pcf_st "Parameter";
            d ← dict_set d k v;
            classify hs h d r
        | None => Raise (PYIFError (UnsupportedParameterType parm_type))
        end
  end.

(** The outer loop [for pcf_s in self._struct_list]: a dictionary that is
    not empty is appended to the parameter maps. *)
Fixpoint classify_all (hs : list MQOpts) (h : option MQOpts)
    (ps : list (gmap Z pyval)) (l : list (list MQOpts))
    : result (list MQOpts * option MQOpts * list (gmap Z pyval)) :=
  match l with
  | [] => Ok (hs, h, ps)
  | pcf_s :: l' =>
      '(hs, h, d) ← classify hs h ∅ pcf_s;
      classify_all hs h (if 0 <? Z.of_nat (size d) then ps ++ [d] else ps) l'
  end.

(** [PCFCommandResponse(struct_list)]. *)
Definition new_PCFCommandResponse (struct_list : list (list MQOpts))
    : result PCFCommandResponse :=
  if 0 <? len struct_list then
    '(hs, h, ps) ← classify_all [] None [] struct_list;
    Ok (mkResponse struct_list hs h ps)
  else Raise (PYIFError StructureListEmpty).

(** The properties [reason_code] and [comp_code]. *)
Definition reason_code (r : PCFCommandResponse) : result (option pyval) :=
  match header r with
  | Some h => v ← getitem h "Reason"; Ok (Some v)
  | None => Ok None
  end.

Definition comp_code (r : PCFCommandResponse) : result (option pyval) :=
  match header r with
  | Some h => v ← getitem h "CompCode"; Ok (Some v)
  | None => Ok None
  end.

(** ** [execute_command] *)

(** What one call of [dyn_queue.get] does: it returns the message data and
    leaves the code page of the sender in the descriptor, or it raises. *)
Inductive get_outcome :=
| Delivered (message_data : bytes) (CodedCharSetId : Z)
| GetRaises (e : exn).

(** The transport as one invocation sees it: the outcome of opening the
    reply queue, of [put1], and of the successive calls of [get]. *)
Record transport := mkTransport {
  open_outcome : result unit;
  put1_outcome : bytes → result unit;
  get_outcomes : list get_outcome
}.

(** The body of the [try] of the receive loop up to the test of the
    control flag: the flag [MQCFC_LAST] was seen, and the decoded bag.
    [None] is a decoding that does not return. *)
Definition receive (self : PCFCommand) (g : get_outcome)
    : option (result (bool * list MQOpts)) :=
  match g with
  | GetRaises e => Some (Raise e)
  | Delivered message_data cc =>
      let conv := if bool_decide (cc ≠ ccsid self) then false else convert self in
      match unpack_bag self (Some message_data) conv with
      | None => None
      | Some (Raise e) => Some (Raise e)
      | Some (Ok None) => Some (Raise TypeError)
      | Some (Ok (Some rep_structs)) =>
          Some (match rep_structs with
                | [] => Raise IndexError
                | first :: _ =>
                    control ← getitem first "Control";
                    Ok (eq_int control MQCFC_LAST, rep_structs)
                end)
      end
  end.

(** The loop [while not done] of [execute_command] with its handler of
    [MQMIError].  [None] is a loop still waiting when the outcomes of [get]
    are used up. *)
Fixpoint receive_loop (self : PCFCommand) (gets : list get_outcome)
    (out_structs : list (list MQOpts)) : option (result (list (list MQOpts))) :=
  match gets with
  | [] => None
  | g :: gets' =>
      match receive self g with
      | None => None
      | Some (Ok (last, rep_structs)) =>
          if last : bool then Some (Ok (out_structs ++ [rep_structs]))
          else receive_loop self gets' (out_structs ++ [rep_structs])
      | Some (Raise (MQMIError comp reason)) =>
          if reason =? MQRC_NO_MSG_AVAILABLE then Some (Ok out_structs)
          else Some (Raise (MQMIError comp reason))
      | Some (Raise e) => Some (Raise e)
      end
  end.

(** [PCFCommand.execute_command(self, command, parm_list)]. *)
Definition execute_command (self : PCFCommand) (command : pyval)
    (parm_list : list directive) (t : transport)
    : option (result PCFCommandResponse) :=
  match (_ ← open_outcome t;
         msg_body ← pack_bag self command parm_list;
         put1_outcome t msg_body) with
  | Raise e => Some (Raise e)
  | Ok _ =>
      match receive_loop self (get_outcomes t) [] with
      | None => None
      | Some (Raise e) => Some (Raise e)
      | Some (Ok out_structs) => Some (new_PCFCommandResponse out_structs)
      end
  end.

End Codecs.

(** ** Concrete objects used in the examples below *)

(** The codec [latin-1]: the byte [n] is the code point [n]. *)
Definition latin1_decode (name : string) (b : bytes) : result (list N) :=
  Ok (Byte.to_N <$> b).

Definition latin1_encode (name : string) (u : list N) : result bytes :=
  if forallb (λ n, (n <? 256)%N) u
  then Ok ((λ n, byte_of_Z (Z.of_N n)) <$> u)
  else Raise UnicodeError.

(** A byte-string literal. *)
Definition b (s : string) : pyval := PStr (String.list_byte_of_string s).

(** A command object for a little-endian and one for a big-endian queue
    manager, without and with conversion. *)
Definition native_cmd : PCFCommand := mkPCFCommand 819 MQENC_NATIVE false "819".
Definition big_cmd : PCFCommand := mkPCFCommand 819 785 false "819".
Definition converting_cmd : PCFCommand := mkPCFCommand 819 MQENC_NATIVE true "819".

(** Packing a structure and unpacking the bytes into a fresh structure of
    the same class, both under [encoding]. *)
Definition roundtrip (fresh : result MQOpts)
    (unpack_it : MQOpts → bytes → option Z → result MQOpts)
    (x : MQOpts) (encoding : option Z) : result MQOpts :=
  '(_, buff) ← pack x encoding;
  y ← fresh;
  unpack_it y buff encoding.

(** The member values of a structure before and after a round trip. *)
Definition before_and_after (fresh : result MQOpts)
    (unpack_it : MQOpts → bytes → option Z → result MQOpts)
    (x : result MQOpts) (encoding : option Z)
    : result (list (string * pyval) * list (string * pyval)) :=
  x ← x;
  y ← roundtrip fresh unpack_it x encoding;
  dx ← MQOpts_get x;
  dy ← MQOpts_get y;
  Ok (dx, dy).

(** [CFIL] with parameter id 1 and the single integer 7. *)
Definition one_integer (encoding : option Z) : result MQOpts :=
  o ← CFIL [];
  o ← setitem o "Parameter" (PInt 1);
  add_integer o (PInt 7) encoding.

(** [CFSL] with the two strings [ab] and [cd]. *)
Definition two_strings : result MQOpts :=
  o ← CFSL [];
  o ← add_string o (b "ab");
  add_string o (b "cd").

(** The bytes of a sequence of longs, little-endian or big-endian. *)
Definition longs (big : bool) (l : list Z) : bytes :=
  concat (encode_long big <$> l).

(** A reply header of type [MQCFT_RESPONSE]: version 1, command
    [MQCMD_INQUIRE_Q_MGR], completion and reason code zero. *)
Definition reply_header (big : bool) (seq control count : Z) : bytes :=
  longs big [MQCFT_RESPONSE; MQCFH_STRUC_LENGTH; 1; MQCMD_INQUIRE_Q_MGR;
             seq; control; MQCC_OK; MQRC_NONE; count].

(** The bytes of an integer parameter with the given declared length. *)
Definition integer_parameter (big : bool) (struc_len id value : Z) : bytes :=
  longs big [MQCFT_INTEGER; struc_len; id; value].

(** A reply whose only parameter declares the length zero. *)
Definition zero_length_reply : bytes :=
  reply_header false 1 MQCFC_LAST 1 ++ integer_parameter false 0 5 9.

(** The state of [unpack_bag] when it enters its loop on a reply. *)
Definition loop_entry (self : PCFCommand) (buff : bytes)
    : result (bag_state * bytes) :=
  resp_cfh ← CFH [];
  resp_cfh ← unpack resp_cfh (slice_to buff 36) (Some (encoding self));
  Ok (mkBag ∅ [resp_cfh], slice_from buff 36).


(** A reply that ends after the type tag of its only parameter. *)
Definition cut_reply : bytes :=
  reply_header false 1 MQCFC_LAST 1 ++ longs false [99].

(** A reply with an integer parameter followed by a structure of the
    unknown type 99. *)
Definition unknown_type_reply : bytes :=
  reply_header false 1 MQCFC_LAST 2 ++ integer_parameter false 16 5 9
    ++ longs false [99; 8].

(** [parm_type] is one of the five types [unpack_bag] decodes. *)
Definition is_parameter_type (parm_type : pyval) : bool :=
  eq_int parm_type MQCFT_INTEGER || eq_int parm_type MQCFT_STRING
  || eq_int parm_type MQCFT_INTEGER_LIST || eq_int parm_type MQCFT_STRING_LIST
  || eq_int parm_type MQCFT_BYTE_STRING.

(** The loop of [unpack_bag] gets from the start of one round to the start
    of a later one: every round in between returns and leaves bytes. *)
Inductive reaches (codec_decode : string → bytes → result (list N))
    (self : PCFCommand) (conv : bool)
    : bag_state → bytes → bag_state → bytes → Prop :=
| reaches_here st new_buff : reaches codec_decode self conv st new_buff st new_buff
| reaches_next st new_buff st1 rest1 st2 rest2 :
    unpack_parameter codec_decode self conv st new_buff = Ok (st1, rest1) →
    rest1 ≠ [] →
    reaches codec_decode self conv st1 rest1 st2 rest2 →
    reaches codec_decode self conv st new_buff st2 rest2.

(** A reply with one string list: parameter id 8, two slots of two bytes,
    the payload [abcd]. *)
Definition string_list_reply : bytes :=
  reply_header false 1 MQCFC_LAST 1
    ++ longs false [MQCFT_STRING_LIST; 28; 8; 819; 2; 2]
    ++ String.list_byte_of_string "abcd".

(** The same reply with a single slot [ab]. *)
Definition one_slot_reply : bytes :=
  reply_header false 1 MQCFC_LAST 1
    ++ longs false [MQCFT_STRING_LIST; 26; 8; 819; 1; 2]
    ++ String.list_byte_of_string "ab".

(** The parameter map and the number of structures [unpack_bag] has when
    it returns. *)
Definition decoded (r : option (result (option bag_state)))
    : option (result (option (gmap Z pyval * nat))) :=
  match r with
  | None => None
  | Some (Raise e) => Some (Raise e)
  | Some (Ok None) => Some (Ok None)
  | Some (Ok (Some st)) => Some (Ok (Some (pcf_dict st, length (pcf_structs st))))
  end.

(** Two replies of a sequence: the first announces more, the second is the
    last. *)
Definition more_reply : bytes :=
  reply_header false 1 0 1 ++ integer_parameter false 16 5 9.

Definition last_reply : bytes :=
  reply_header false 2 MQCFC_LAST 1 ++ integer_parameter false 16 5 10.

(** A transport on which the reply queue opens and the request is put. *)
Definition delivering (gets : list get_outcome) : transport :=
  mkTransport (Ok ()) (λ _, Ok ()) gets.

(** The error of a [get] whose wait interval has run out. *)
Definition no_message : exn := MQMIError 2 MQRC_NO_MSG_AVAILABLE.

(** ** What a bag contributes to a response, said directly

    The definitions of this part restate the classification of
    [PCFCommandResponse] on the list of structures of a bag; the theorems
    below compare them with the loops of the source. *)

(** The structure is one of the four header types. *)
Definition is_header (s : MQOpts) : bool :=
  match attr_get (attrs s) "Type" with
  | Some t => is_header_type t
  | None => false
  end.

(** The structure is a summary header. *)
Definition is_summary (s : MQOpts) : bool :=
  match attr_get (attrs s) "Type" with
  | Some t => eq_int t MQCFT_XR_SUMMARY
  | None => false
  end.

(** The structures of a bag that are classified: those up to the first
    summary header, that header included. *)
Fixpoint classified_part (pcf_s : list MQOpts) : list MQOpts :=
  match pcf_s with
  | [] => []
  | s :: r => if is_summary s then [s] else s :: classified_part r
  end.

(** The id and the value a parameter structure stands for: the member
    [Parameter] and the value member of its type. *)
Definition recorded (s : MQOpts) : option (Z * pyval) :=
  t ← attr_get (attrs s) "Type";
  name ← value_member t;
  v ← attr_get (attrs s) name;
  p ← attr_get (attrs s) "Parameter";
  k ← int_value p;
  Some (k, v).

Definition record (d : gmap Z pyval) (s : MQOpts) : gmap Z pyval :=
  match recorded s with
  | Some (k, v) => <[k := v]> d
  | None => d
  end.

(** The parameter map of a list of parameter structures in wire order. *)
Definition bag_map (params : list MQOpts) : gmap Z pyval :=
  foldl record ∅ params.

(** The headers and the parameter map of a bag. *)
Definition bag_headers (pcf_s : list MQOpts) : list MQOpts :=
  List.filter is_header (classified_part pcf_s).

Definition bag_parameters (pcf_s : list MQOpts) : list MQOpts :=
  List.filter (λ s, negb (is_header s)) (classified_part pcf_s).

(** The maps of a batch that are kept: those that are not empty. *)
Definition kept_maps (l : list (list MQOpts)) : list (gmap Z pyval) :=
  List.filter (λ d, 0 <? Z.of_nat (size d)) (bag_map ∘ bag_parameters <$> l).

(** Three replies that consist of a header each, the third with the control
    flag LAST. *)
Definition header_only_replies : list get_outcome :=
  [ Delivered (reply_header false 1 0 0) 819;
    Delivered (reply_header false 2 0 0) 819;
    Delivered (reply_header false 3 MQCFC_LAST 0) 819 ].

(** The sizes of the parts of a response. *)
Definition shape (r : option (result PCFCommandResponse))
    : option (result (nat * nat * nat)) :=
  match r with
  | None => None
  | Some (Raise e) => Some (Raise e)
  | Some (Ok r) =>
      Some (Ok (length (struct_list r), length (headers r), length (parms r)))
  end.

(** The long at index [i] of a buffer of longs. *)
Definition long_at (big : bool) (buff : bytes) (i : nat) : pyval :=
  PInt (decode_long big (slice_between buff (4 * Z.of_nat i) (4 * Z.of_nat i + 4))).

(** What every decoded parameter structure has: its type and its
    parameter id are the first and the third long of its fixed part, and
    the member [name] holds its value. *)
Definition parameter_fields (s : MQOpts) (big : bool) (fixed : bytes)
    (name : string) : Prop :=
  attr_get (attrs s) "Type" = Some (long_at big fixed 0)
  ∧ attr_get (attrs s) "Parameter" = Some (long_at big fixed 2)
  ∧ ∃ v, attr_get (attrs s) name = Some v.

(** A reply in which the parameter id 5 occurs twice, with the values 1
    and 2. *)
Definition duplicate_reply : bytes :=
  reply_header false 1 MQCFC_LAST 2 ++ integer_parameter false 16 5 1
    ++ integer_parameter false 16 5 2.

(** The bags the receive loop collects from a sequence of outcomes of
    [get], decoded for [native_cmd]. *)
Definition collected (gets : list get_outcome) : list (list MQOpts) :=
  match receive_loop latin1_decode native_cmd gets [] with
  | Some (Ok l) => l
  | _ => []
  end.

(** Three bags with one integer parameter each, the third from the reply
    with the control flag LAST. *)
Definition three_bags : list (list MQOpts) :=
  collected [Delivered more_reply 819; Delivered more_reply 819;
             Delivered last_reply 819].

(** ** Structure lengths

    What the claims on [StrucLength] are stated with. *)

(** The byte length of the variable payload a structure holds under the
    attribute [name], zero when it holds none. *)
Definition payload_length (o : MQOpts) (name : string) : Z :=
  match attr_get (attrs o) name with
  | Some (PStr bs) => len bs
  | _ => 0
  end.

(** [StrucLength] is the fixed width plus the byte length of the payload. *)
Definition length_invariant (o : MQOpts) (fixed : Z) (name : string) : Prop :=
  attr_get (attrs o) "StrucLength" = Some (PInt (fixed + payload_length o name)).

(** The values [struct.pack] takes for the code [i]. *)
Definition is_long (v : pyval) : Prop :=
  ∃ z, int_value v = Some z ∧ -2147483648 ≤ z < 2147483648.

(** The payload [add_integer] packs from [self.integer_list]. *)
Definition pack_integers (encoding : option Z) (ints : list pyval) : result bytes :=
  struct_pack ((if is_big_endian encoding then [FGt] else [])
                 ++ replicate (length ints) FLong) ints.

(** The member list of a [CFIL] that has its payload [bs]. *)
Definition CFIL_list (bs : bytes) : list member :=
  [ long "Type" MQCFT_INTEGER_LIST;
    long "StrucLength" MQCFIL_STRUC_LENGTH_FIXED;
    long "Parameter" 0;
    long "Count" 0;
    Member "IntegerList" (PStr bs) [FChars (len bs)] ].

(** A [CFIL] after [n] calls of [add_integer]: the integers [ints] and
    their packed bytes [bs]. *)
Definition CFIL_object (p : pyval) (n : Z) (bs : bytes) (ints : list pyval) : MQOpts :=
  {| MQOpts__list := CFIL_list bs;
     MQOpts__format := concat (m_fmt <$> CFIL_list bs);
     attrs := [("Type", PInt MQCFT_INTEGER_LIST);
               ("StrucLength", PInt (MQCFIL_STRUC_LENGTH_FIXED + 4 * n));
               ("Parameter", p); ("Count", PInt n); ("IntegerList", PStr bs)];
     integer_list := ints;
     string_list := [] |}.

(** The member list of a [CFSL] that has its payload [bs]. *)
Definition CFSL_list (bs : bytes) : list member :=
  [ long "Type" MQCFT_STRING_LIST;
    long "StrucLength" MQCFSL_STRUC_LENGTH_FIXED;
    long "Parameter" 0;
    long "CodedCharSetId" MQCCSI_DEFAULT;
    long "Count" 0;
    long "StringLength" 0;
    Member "StringList" (PStr bs) [FChars (len bs)] ].

(** A [CFSL] after [n] calls of [add_string] with the strings [strs], all
    of the length [w]. *)
Definition CFSL_object (p c : pyval) (w n : Z) (strs : list bytes) : MQOpts :=
  {| MQOpts__list := CFSL_list (concat strs);
     MQOpts__format := concat (m_fmt <$> CFSL_list (concat strs));
     attrs := [("Type", PInt MQCFT_STRING_LIST);
               ("StrucLength", PInt (MQCFSL_STRUC_LENGTH_FIXED + w * n));
               ("Parameter", p); ("CodedCharSetId", c);
               ("Count", PInt n); ("StringLength", PInt w);
               ("StringList", PStr (concat strs))];
     integer_list := [];
     string_list := PStr <$> strs |}.

(** [set_string] called twice on a new [CFST], which is then packed: the
    [StrucLength], the [StringLength] and the number of bytes packed. *)
Definition set_string_twice (first second : pyval) (encoding : option Z)
    : result (pyval * pyval * Z) :=
  o ← CFST [];
  o ← set_string o first;
  o ← set_string o second;
  '(o, buff) ← pack o encoding;
  sl ← getitem o "StrucLength";
  n ← getitem o "StringLength";
  Ok (sl, n, len buff).

(** A string parameter of 23 bytes that declares a [StrucLength] of 100. *)
Definition mismatched_parameter : bytes :=
  longs false [MQCFT_STRING; 100; 7; 819; 3] ++ String.list_byte_of_string "abc".

Definition mismatched_reply : bytes :=
  reply_header false 1 MQCFC_LAST 1 ++ mismatched_parameter.

(** The [StrucLength] of each structure of a decoded bag. *)
Definition struc_lengths (r : option (result (option (list MQOpts))))
    : list (option pyval) :=
  match r with
  | Some (Ok (Some l)) => (λ o, attr_get (attrs o) "StrucLength") <$> l
  | _ => []
  end.


(** ** Messages on the wire

    The bytes the properties of [pack_bag] and [unpack_bag] are stated
    with. *)

(** The integers [struct] packs with the code [i]. *)
Definition in_range (z : Z) : Prop := -2147483648 ≤ z < 2147483648.

(** The values [vals] are the integers [zs], all in the range of [i]. *)
Definition long_values (vals : list pyval) (zs : list Z) : Prop :=
  Forall2 (λ v z, int_value v = Some z ∧ in_range z) vals zs.

(** The header [pack_bag] writes: type [MQCFT_COMMAND_XR], version 3. *)
Definition command_header (big : bool) (command count : Z) : bytes :=
  longs big [MQCFT_COMMAND_XR; MQCFH_STRUC_LENGTH; MQCFH_VERSION_3; command;
             1; MQCFC_LAST; MQCC_OK; MQRC_NONE; count].

(** A string parameter: five longs and the bytes of the string. *)
Definition string_parameter (big : bool) (struc_len id ccsid : Z) (s : bytes) : bytes :=
  longs big [MQCFT_STRING; struc_len; id; ccsid; len s] ++ s.

(** An integer or a byte string with its parameter id, as an element of a
    [parm_list] gives it. *)
Inductive parameter :=
| IntegerParameter (id value : Z)
| StringParameter (id : Z) (value : bytes).

Definition parameter_id (p : parameter) : Z :=
  match p with IntegerParameter k _ | StringParameter k _ => k end.

Definition parameter_value (p : parameter) : pyval :=
  match p with
  | IntegerParameter _ v => PInt v
  | StringParameter _ s => PStr s
  end.

(** The tuple [(id, value)]. *)
Definition as_tuple (p : parameter) : directive :=
  DTuple [PInt (parameter_id p); parameter_value p].

(** The dict [{id: value}]. *)
Definition as_dict (p : parameter) : directive :=
  DDict [(PInt (parameter_id p), parameter_value p)].

(** The element [d] of a [parm_list] is the parameter [p] as a tuple or,
    for a command object that does not convert, as a dict. *)
Definition denotes (conv : bool) (d : directive) (p : parameter) : Prop :=
  d = as_tuple p ∨ (conv = false ∧ d = as_dict p).

(** The ids and values are longs, and so is the length of the structure
    of a string. *)
Definition packable (ccsid : Z) (p : parameter) : Prop :=
  in_range (parameter_id p) ∧
  match p with
  | IntegerParameter _ v => in_range v
  | StringParameter _ s => in_range ccsid ∧ in_range (MQCFST_STRUC_LENGTH_FIXED + len s)
  end.

(** The bytes of one parameter. *)
Definition wire (big : bool) (ccsid : Z) (p : parameter) : bytes :=
  match p with
  | IntegerParameter k v => integer_parameter big MQCFIN_STRUC_LENGTH k v
  | StringParameter k s =>
      string_parameter big (MQCFST_STRUC_LENGTH_FIXED + len s) k ccsid s
  end.

(** The [StrucLength] of the structure of one parameter. *)
Definition wire_length (p : parameter) : Z :=
  match p with
  | IntegerParameter _ _ => MQCFIN_STRUC_LENGTH
  | StringParameter _ s => MQCFST_STRUC_LENGTH_FIXED + len s
  end.

(** The message of a command with the parameters [ps]. *)
Definition message (big : bool) (ccsid command : Z) (ps : list parameter) : bytes :=
  command_header big command (len ps) ++ concat (wire big ccsid <$> ps).


(** The members of [l] are all attributes of the object. *)
Definition has_members (a : attr_dict) (l : list member) : Prop :=
  Forall (λ m, is_Some (attr_get a (m_name m))) l.



(** ** The constructor of [PCFCommand]

    The attributes the constructor sets.  [ccsid] and [encoding] are
    integers or [None]; [ccsid_str] is [None] when the attribute was never
    set.  The queue manager object is kept as it is and left out. *)
Record PCFCommand_attributes := mkAttributes {
  attr_zos : bool;
  attr_ccsid : Z;
  attr_encoding : Z;
  attr_convert : bool;
  attr_ccsid_str : option string;
  attr_command_queue : bytes
}.

(** The decimal digits of a natural number. *)
Definition decimal (n : N) : string :=
  DecimalString.NilZero.string_of_uint (N.to_uint n).

(** ["{:03d}".format(n)]: the sign, then zeros up to a width of three,
    then the digits. *)
Definition format_03d (n : Z) : string :=
  let digits := decimal (Z.abs_N n) in
  let sign := if n <? 0 then "-"%string else ""%string in
  let zeros := (3 - String.length sign - String.length digits)%nat in
  (sign +:+ String.concat "" (replicate zeros "0") +:+ digits)%string.

(** [PCFCommand.__init__(self, qmgr, ccsid, encoding, ccsid_str, convert,
    zos, command_queue)]. *)
Definition PCFCommand_init (ccsid encoding : option Z) (ccsid_str : option string)
    (convert zos : bool) (command_queue : option bytes) : PCFCommand_attributes :=
  let queue :=
    match command_queue with
    | None => String.list_byte_of_string "SYSTEM.ADMIN.COMMAND.QUEUE"
    | Some q => q
    end in
  match ccsid, encoding, zos with
  | None, None, true => mkAttributes zos 37 785 true None queue
  | _, _, _ =>
      let c :=
        match ccsid with
        | None => if zos then 37 else MQCCSI_DEFAULT
        | Some c => if c =? 0 then (if zos then 37 else MQCCSI_DEFAULT) else c
        end in
      let e :=
        match encoding with
        | None => if zos then 785 else MQENC_NATIVE
        | Some e => if e =? 0 then (if zos then 785 else MQENC_NATIVE) else e
        end in
      let conv := if zos then true else convert in
      let s :=
        match ccsid_str with
        | None => format_03d c
        | Some s => s
        end in
      mkAttributes zos c e conv (Some s) queue
  end.

(** The command object of the attributes, for the methods that read
    [ccsid_str]: they raise [AttributeError] when it was never set. *)
Definition command_object (a : PCFCommand_attributes) : result PCFCommand :=
  match attr_ccsid_str a with
  | Some s => Ok (mkPCFCommand (attr_ccsid a) (attr_encoding a) (attr_convert a) s)
  | None => Raise (AttributeError "ccsid_str")
  end.

(** The value of a string of decimal digits. *)
Definition decimal_value (s : string) : option Z :=
  (λ u, Z.of_N (N.of_uint u)) <$> DecimalString.NilZero.uint_of_string s.

(** ** Methods of byte strings and unicode strings *)

(** [l] starts with [sub]. *)
Fixpoint starts_with {A} (eqb : A → A → bool) (sub l : list A) : bool :=
  match sub, l with
  | [], _ => true
  | x :: sub', y :: l' => eqb x y && starts_with eqb sub' l'
  | _ :: _, [] => false
  end.

(** [l.find(sub)], counted from [i]: the lowest index at which [sub]
    occurs, or [-1]. *)
Fixpoint find_from {A} (eqb : A → A → bool) (sub l : list A) (i : Z) : Z :=
  if starts_with eqb sub l then i
  else match l with
       | [] => -1
       | _ :: r => find_from eqb sub r (i + 1)
       end.

(** [l.replace(old, new)] for an [old] that is not empty: the occurrences
    are replaced from the left and do not overlap; [skip] elements of an
    occurrence are still to be passed over. *)
Fixpoint replace_from {A} (eqb : A → A → bool) (old new l : list A) (skip : nat)
    : list A :=
  match l with
  | [] => []
  | x :: r =>
      match skip with
      | S k => replace_from eqb old new r k
      | O =>
          if starts_with eqb old l
          then new ++ replace_from eqb old new r (length old - 1)
          else x :: replace_from eqb old new r 0
      end
  end.

Fixpoint lstrip {A} (isspace : A → bool) (l : list A) : list A :=
  match l with
  | [] => []
  | x :: r => if isspace x then lstrip isspace r else l
  end.

(** [l.strip()]. *)
Definition strip {A} (isspace : A → bool) (l : list A) : list A :=
  reverse (lstrip isspace (reverse (lstrip isspace l))).

(** The white space of byte strings: space, tab, newline, return, vertical
    tab and form feed. *)
Definition is_space (c : byte) : bool :=
  let n := Byte.to_N c in
  ((9 <=? n) && (n <=? 13) || (n =? 32))%N.

(** The byte string of a newline. *)
Definition newline : bytes := [x0a].

(** ** The helper methods of [PCFCommand]

    Modelled from the spec: the constants below belong to the modules
    [pymqi.CMQC] and [pymqi.CMQCFC], which are not part of the source file;
    the values are those of the MQ headers. *)

Definition MQCC_FAILED : Z := 2.
Definition MQCMD_INQUIRE_Q : Z := 13.
Definition MQCMD_ESCAPE : Z := 38.
Definition MQCA_Q_NAME : Z := 2016.
Definition MQIACF_Q_MGR_ATTRS : Z := 1001.
Definition MQIACF_Q_ATTRS : Z := 1002.
Definition MQIACF_ESCAPE_TYPE : Z := 1017.
Definition MQCACF_ESCAPE_TEXT : Z := 3014.
Definition MQET_MQSC : Z := 1.

(** [comp_code == pymqi.CMQC.MQCC_FAILED]. *)
Definition is_failed (comp_code : option pyval) : bool :=
  match comp_code with
  | Some v => eq_int v MQCC_FAILED
  | None => false
  end.

(** [l[0]]. *)
Definition first_item {A} (l : list A) : result A :=
  match l with
  | x :: _ => Ok x
  | [] => Raise IndexError
  end.

(** The property [reason_codes]. *)
Fixpoint reasons (hs : list MQOpts) : result (list pyval) :=
  match hs with
  | [] => Ok []
  | pcf_hdr :: r =>
      v ← getitem pcf_hdr "Reason";
      l ← reasons r;
      Ok (v :: l)
  end.

Definition reason_codes (r : PCFCommandResponse) : result (list pyval) :=
  reasons (headers r).

Section Helpers.

Variable codec_decode : string → bytes → result (list N).
Variable codec_encode : string → list N → result bytes.

(** The white space of unicode strings, a table of the Python library. *)
Variable unicode_isspace : N → bool.

(** The class [pymqi.PCFExecute], which is not part of the source file:
    what the call [pymqi.PCFExecute(None)] does, and the method
    [stringifyKeys] of the object it returns, which turns a map into one
    with names for keys. *)
Variable stringified : Type.
Variable executor : Type.
Variable PCFExecute : result executor.
Variable stringifyKeys : executor → gmap Z pyval → result stringified.

(** [PCFCommand.zos_mqsc_command], which this embedding leaves out. *)
Variable zos_mqsc_command : PCFCommand → pyval → transport → option (result pyval).

(** [v.find(sub)]. *)
Definition py_find (v sub : pyval) : result Z :=
  match v, sub with
  | PStr s, PStr x => Ok (find_from Byte.eqb x s 0)
  | PStr s, PUnicode x => s' ← ascii_text s; Ok (find_from N.eqb x s' 0)
  | PUnicode u, PStr x => x' ← ascii_text x; Ok (find_from N.eqb x' u 0)
  | PUnicode u, PUnicode x => Ok (find_from N.eqb x u 0)
  | (PStr _ | PUnicode _), _ => Raise TypeError
  | _, _ => Raise (AttributeError "find")
  end.

(** [v[lo:hi]]. *)
Definition py_slice (v : pyval) (lo hi : option Z) : result pyval :=
  match v with
  | PStr x => Ok (PStr (slice x lo hi))
  | PUnicode x => Ok (PUnicode (slice x lo hi))
  | PList x => Ok (PList (slice x lo hi))
  | PTuple x => Ok (PTuple (slice x lo hi))
  | _ => Raise TypeError
  end.

(** [v.strip()]. *)
Definition py_strip (v : pyval) : result pyval :=
  match v with
  | PStr x => Ok (PStr (strip is_space x))
  | PUnicode x => Ok (PUnicode (strip unicode_isspace x))
  | _ => Raise (AttributeError "strip")
  end.

(** [v.replace(old, new)] for byte strings [old] and [new], [old] not
    empty. *)
Definition py_replace (v : pyval) (old new : bytes) : result pyval :=
  match v with
  | PStr x => Ok (PStr (replace_from Byte.eqb old new x 0))
  | PUnicode x =>
      old' ← ascii_text old;
      new' ← ascii_text new;
      Ok (PUnicode (replace_from N.eqb old' new' x 0))
  | _ => Raise (AttributeError "replace")
  end.

(** The loop [for s in parms] of [stringify_keys]. *)
Fixpoint stringify_all (pcf : executor) (parms : list (gmap Z pyval))
    : result (list stringified) :=
  match parms with
  | [] => Ok []
  | s :: r =>
      x ← stringifyKeys pcf s;
      l ← stringify_all pcf r;
      Ok (x :: l)
  end.

(** [PCFCommandResponse.stringify_keys(self, parms)]. *)
Definition stringify_keys (r : PCFCommandResponse)
    (parms_arg : option (list (gmap Z pyval))) : result (list stringified) :=
  let parms := match parms_arg with None => parms r | Some l => l end in
  pcf ← PCFExecute;
  stringify_all pcf parms.

(** [queue_name.encode("ascii")] when [queue_name] is a [str]. *)
Definition encode_if_str (v : pyval) : result pyval :=
  match v with
  | PStr _ => py_encode codec_encode "ascii" v
  | _ => Ok v
  end.

(** What [inquire_qmgr] returns: [None], a map or a map with names. *)
Inductive qmgr_answer :=
| NoQmgr
| QmgrParms (d : gmap Z pyval)
| QmgrNames (d : stringified).

(** The [parm_list] of [inquire_qmgr]. *)
Definition qmgr_parm_list (qmgr_attrs : option pyval) : list directive :=
  match qmgr_attrs with
  | Some a => [DTuple [PInt MQIACF_Q_MGR_ATTRS; a]]
  | None => []
  end.

(** [PCFCommand.inquire_qmgr(self, qmgr_attrs, stringify_keys)]. *)
Definition inquire_qmgr (self : PCFCommand) (qmgr_attrs : option pyval)
    (stringify : bool) (t : transport) : option (result qmgr_answer) :=
  match execute_command codec_decode codec_encode self (PInt MQCMD_INQUIRE_Q_MGR)
          (qmgr_parm_list qmgr_attrs) t with
  | None => None
  | Some (Raise e) => Some (Raise e)
  | Some (Ok pcf_r) =>
      Some (cc ← comp_code pcf_r;
            if is_failed cc then Ok NoQmgr
            else if stringify then
              l ← stringify_keys pcf_r None; d ← first_item l; Ok (QmgrNames d)
            else d ← first_item (parms pcf_r); Ok (QmgrParms d))
  end.

(** What [inquire_q] returns: [None], the maps or the maps with names. *)
Inductive queue_answer :=
| NoQueues
| QueueParms (l : list (gmap Z pyval))
| QueueNames (l : list stringified).

(** The [parm_list] of [inquire_q]: the queue name, then [parms], then
    the attributes. *)
Definition queue_parm_list (queue_name : pyval) (parms_arg : option (list directive))
    (q_attrs : option pyval) : list directive :=
  [DDict [(PInt MQCA_Q_NAME, queue_name)]]
    ++ match parms_arg with Some l => l | None => [] end
    ++ match q_attrs with
       | Some a => [DDict [(PInt MQIACF_Q_ATTRS, a)]]
       | None => []
       end.

(** [PCFCommand.inquire_q(self, queue_name, parms, q_attrs,
    stringify_keys)]. *)
Definition inquire_q (self : PCFCommand) (queue_name : pyval)
    (parms_arg : option (list directive)) (q_attrs : option pyval)
    (stringify : bool) (t : transport) : option (result queue_answer) :=
  match encode_if_str queue_name with
  | Raise e => Some (Raise e)
  | Ok queue_name =>
      match execute_command codec_decode codec_encode self (PInt MQCMD_INQUIRE_Q)
              (queue_parm_list queue_name parms_arg q_attrs) t with
      | None => None
      | Some (Raise e) => Some (Raise e)
      | Some (Ok pcf_r) =>
          Some (cc ← comp_code pcf_r;
                if is_failed cc then Ok NoQueues
                else if stringify then l ← stringify_keys pcf_r None; Ok (QueueNames l)
                else Ok (QueueParms (parms pcf_r)))
      end
  end.

(** The statement of the loop of [mqsc_command] for a map with the key
    [MQCACF_ESCAPE_TEXT], whose value is [v]. *)
Definition add_escape_text (one_line : bool) (ret v : pyval) : result pyval :=
  if one_line then
    pos ← py_find v (PStr newline);
    head ← py_slice v (Some 0) (Some (pos + 1));
    ret ← py_add ret head;
    rest ← py_slice v (Some pos) None;
    rest ← py_strip rest;
    rest ← py_replace rest newline space;
    ret ← py_add ret rest;
    py_add ret (PStr newline)
  else
    ret ← py_add ret (PStr newline);
    py_add ret v.

(** The loop [for p in pcf_r.parms]. *)
Fixpoint escape_text (one_line : bool) (parms : list (gmap Z pyval)) (ret : pyval)
    : result pyval :=
  match parms with
  | [] => Ok ret
  | p :: r =>
      match p !! MQCACF_ESCAPE_TEXT with
      | Some v =>
          ret ← add_escape_text one_line ret v;
          escape_text one_line r ret
      | None => escape_text one_line r ret
      end
  end.

(** The [parm_list] of [mqsc_command]. *)
Definition escape_parm_list (command : pyval) : list directive :=
  [DDict [(PInt MQIACF_ESCAPE_TYPE, PInt MQET_MQSC)];
   DDict [(PInt MQCACF_ESCAPE_TEXT, command)]].

(** [PCFCommand.mqsc_command(self, mqsc_command, one_line)]; [zos] is the
    attribute [self.zos].  The arguments of the two calls of [print] are
    evaluated, nothing else of them is kept. *)
Definition mqsc_command (self : PCFCommand) (zos : bool) (command : pyval)
    (one_line : bool) (t : transport) : option (result pyval) :=
  match encode_if_str command with
  | Raise e => Some (Raise e)
  | Ok command =>
      if zos then zos_mqsc_command self command t
      else
        match execute_command codec_decode codec_encode self (PInt MQCMD_ESCAPE)
                (escape_parm_list command) t with
        | None => None
        | Some (Raise e) => Some (Raise e)
        | Some (Ok pcf_r) =>
            Some (cc ← comp_code pcf_r;
                  if is_failed cc then
                    _ ← comp_code pcf_r;
                    _ ← reason_code pcf_r;
                    Ok PNone
                  else if len (parms pcf_r) =? 0 then Ok PNone
                  else escape_text one_line (parms pcf_r) (PStr []))
        end
  end.

End Helpers.


(** ** The parser of [unpack_bag] over the base [unpack]

    The method [pymqi.MQOpts.unpack] is not part of the source file.  The
    definitions of this section are the decoders and the loop of
    [unpack_bag] once more, with that method as the parameter
    [base_unpack], for the statements that hold whatever it does with a
    buffer shorter than the format.  With [MQOpts_unpack] for it they are
    the definitions above. *)

Section OverBase.

Variable codec_decode : string → bytes → result (list N).
Variable base_unpack : MQOpts → bytes → result MQOpts.

(** [MQOptsWithEncoding.unpack(self, buff, encoding)]. *)
Definition unpack_over (self : MQOpts) (buff : bytes) (encoding : option Z)
    : result MQOpts :=
  self ← (if is_big_endian encoding then mark_big_endian self else Ok self);
  self ← MQOpts_init self (MQOpts__list self) [];
  base_unpack self buff.

Definition unpack_fixed_over (self : MQOpts) (buff : bytes) (encoding : option Z)
    (fixed : Z) : result MQOpts :=
  unpack_over self (slice_to buff fixed) encoding.

(** [CFBS.unpack(self, buff, encoding)]. *)
Definition CFBS_unpack_over (self : MQOpts) (buff : bytes) (encoding : option Z)
    : result MQOpts :=
  self ← unpack_fixed_over self buff encoding MQCFBS_STRUC_LENGTH_FIXED;
  '(self, string_value) ← declared_payload self buff MQCFBS_STRUC_LENGTH_FIXED;
  let opts := MQOpts__list self
              ++ [Member "String" (PStr string_value) [FChars (len string_value)]] in
  self ← setitem self "StrucLength"
           (PInt (MQCFBS_STRUC_LENGTH_FIXED + len string_value));
  apply_opts self opts.

(** [CFIL.unpack(self, buff, encoding)]. *)
Definition CFIL_unpack_over (self : MQOpts) (buff : bytes) (encoding : option Z)
    : result MQOpts :=
  self ← unpack_fixed_over self buff encoding MQCFIL_STRUC_LENGTH_FIXED;
  let string_value := slice_from buff MQCFIL_STRUC_LENGTH_FIXED in
  let opts := MQOpts__list self
              ++ [Member "IntegerList" (PStr string_value) [FChars (len string_value)]] in
  sl ← getitem self "StrucLength";
  self ← (if eq_int sl MQCFST_STRUC_LENGTH_FIXED || eq_int sl 0
          then setitem self "StrucLength"
                 (PInt (MQCFST_STRUC_LENGTH_FIXED + len string_value))
          else Ok self);
  c ← getitem self "Count";
  count ← as_int c;
  ints ← read_integers (Z.to_nat count) string_value (integer_list self);
  apply_opts (set_integer_list self ints) opts.

(** [CFST.unpack(self, buff, encoding)]. *)
Definition CFST_unpack_over (self : MQOpts) (buff : bytes) (encoding : option Z)
    : result MQOpts :=
  self ← unpack_fixed_over self buff encoding MQCFST_STRUC_LENGTH_FIXED;
  '(self, string_value) ← declared_payload self buff MQCFST_STRUC_LENGTH_FIXED;
  sl ← getitem self "StringLength";
  f ← fmt_is sl;
  let opts := MQOpts__list self ++ [Member "String" (PStr string_value) f] in
  sl ← getitem self "StrucLength";
  self ← (if eq_int sl MQCFST_STRUC_LENGTH_FIXED || eq_int sl 0
          then setitem self "StrucLength"
                 (PInt (MQCFST_STRUC_LENGTH_FIXED + len string_value))
          else Ok self);
  apply_opts self opts.

(** [CFSL.unpack(self, buff, encoding)]. *)
Definition CFSL_unpack_over (self : MQOpts) (buff : bytes) (encoding : option Z)
    : result MQOpts :=
  self ← unpack_fixed_over self buff encoding MQCFSL_STRUC_LENGTH_FIXED;
  '(self, string_value) ← declared_payload self buff MQCFSL_STRUC_LENGTH_FIXED;
  sl ← getitem self "StringLength";
  f ← fmt_is sl;
  let opts := MQOpts__list self ++ [Member "StringList" (PStr string_value) f] in
  sl ← getitem self "StrucLength";
  self ← (if eq_int sl MQCFSL_STRUC_LENGTH_FIXED || eq_int sl 0
          then setitem self "StrucLength"
                 (PInt (MQCFSL_STRUC_LENGTH_FIXED + len string_value))
          else Ok self);
  apply_opts self opts.

(** One round of the [while not done] loop. *)
Definition unpack_parameter_over (self : PCFCommand) (convert : bool)
    (st : bag_state) (new_buff : bytes) : result (bag_state * bytes) :=
  let enc := Some (encoding self) in
  parm_type ← unpack_long self (slice_to new_buff 4);
  struc_len ← unpack_long self (slice_between new_buff 4 8);
  n ← as_int struc_len;
  st ←
    (if eq_int parm_type MQCFT_INTEGER then
       resp_cfin ← CFIN [];
       resp_cfin ← unpack_over resp_cfin (slice_to new_buff n) enc;
       record_parameter st resp_cfin "Value"
     else if eq_int parm_type MQCFT_STRING then
       resp_cfst ← CFST [];
       resp_cfst ← CFST_unpack_over resp_cfst (slice_to new_buff n) enc;
       resp_cfst ←
         (if convert
          then convert_member codec_decode self resp_cfst "String"
                 (λ r, getitem r "StringLength")
          else Ok resp_cfst);
       record_parameter st resp_cfst "String"
     else if eq_int parm_type MQCFT_INTEGER_LIST then
       resp_cfil ← CFIL [];
       resp_cfil ← CFIL_unpack_over resp_cfil (slice_to new_buff n) enc;
       record_parameter st resp_cfil "IntegerList"
     else if eq_int parm_type MQCFT_STRING_LIST then
       resp_cfsl ← CFSL [];
       resp_cfsl ← CFSL_unpack_over resp_cfsl (slice_to new_buff n) enc;
       resp_cfsl ←
         (if convert
          then convert_member codec_decode self resp_cfsl "StringList"
                 (λ r, sl ← getitem r "StringLength";
                       c ← getitem r "Count";
                       py_mul sl c)
          else Ok resp_cfsl);
       record_parameter st resp_cfsl "StringList"
     else if eq_int parm_type MQCFT_BYTE_STRING then
       resp_cfbs ← CFBS [];
       resp_cfbs ← CFBS_unpack_over resp_cfbs (slice_to new_buff n) enc;
       record_parameter st resp_cfbs "String"
     else Raise (PYIFError (UnsupportedParameterType parm_type)));
  Ok (st, slice_from new_buff n).

(** The loop, with a bound on the number of rounds: [None] when the bound
    is reached before the loop is done. *)
Fixpoint unpack_loop_over (fuel : nat) (self : PCFCommand) (convert : bool)
    (st : bag_state) (new_buff : bytes) : option (result bag_state) :=
  match fuel with
  | O => None
  | S fuel' =>
      match unpack_parameter_over self convert st new_buff with
      | Raise e => Some (Raise e)
      | Ok (st', new_buff') =>
          if len new_buff' =? 0 then Some (Ok st')
          else unpack_loop_over fuel' self convert st' new_buff'
      end
  end.

(** [unpack_bag] up to its [return], with both locals. *)
Definition unpack_bag_run_over (fuel : nat) (self : PCFCommand) (buff : option bytes)
    (convert : bool) : option (result (option bag_state)) :=
  match buff with
  | None => Some (Ok None)
  | Some buff =>
      if len buff =? 0 then Some (Ok None)
      else
        match (resp_cfh ← CFH [];
               unpack_over resp_cfh (slice_to buff 36) (Some (encoding self))) with
        | Raise e => Some (Raise e)
        | Ok resp_cfh =>
            let st := mkBag ∅ [resp_cfh] in
            let new_buff := slice_from buff 36 in
            if len new_buff =? 0 then Some (Ok (Some st))
            else
              match unpack_loop_over fuel self convert st new_buff with
              | None => None
              | Some (Raise e) => Some (Raise e)
              | Some (Ok st) => Some (Ok (Some st))
              end
        end
  end.

(** [PCFCommand.unpack_bag(self, buff, convert)]. *)
Definition unpack_bag_over (self : PCFCommand) (buff : option bytes) (convert : bool)
    : option (result (option (list MQOpts))) :=
  match unpack_bag_run_over (rounds buff) self buff convert with
  | None => None
  | Some (Raise e) => Some (Raise e)
  | Some (Ok None) => Some (Ok None)
  | Some (Ok (Some st)) => Some (Ok (Some (pcf_structs st)))
  end.

End OverBase.




(** * Properties *)

(** ** The exception monad *)

Lemma bind_Ok {A B} (m : result A) (f : A → result B) (y : B) :
  m ≫= f = Ok y → ∃ x, m = Ok x ∧ f x = Ok y.
Proof. destruct m as [x|e]; simpl; [eauto | discriminate]. Qed.

Lemma bind_Raise {A B} (m : result A) (f : A → result B) (e : exn) :
  m = Raise e → m ≫= f = Raise e.
Proof. intros ->. reflexivity. Qed.

(** Splits a hypothesis [m ≫= f = Ok y] into its two steps. *)
Ltac bind_inv H :=
  let x := fresh "x" in
  let Hx := fresh "H" x in
  apply bind_Ok in H as (x & Hx & H).

(** ** Slices *)

Lemma len_nonneg {A} (l : list A) : 0 ≤ len l.
Proof. unfold len. lia. Qed.

Lemma clamp_range (n i : Z) : 0 ≤ n → 0 ≤ clamp n i ≤ n.
Proof. unfold clamp. destruct (i <? 0) eqn:E; lia. Qed.

Lemma slice_to_take {A} (l : list A) (n : Z) :
  slice_to l n = take (Z.to_nat (clamp (len l) n)) l.
Proof. unfold slice_to, slice. rewrite Z.sub_0_r. reflexivity. Qed.

Lemma slice_from_drop {A} (l : list A) (n : Z) :
  slice_from l n = drop (Z.to_nat (clamp (len l) n)) l.
Proof.
  unfold slice_from, slice.
  pose proof (clamp_range (len l) n (len_nonneg l)).
  apply take_ge. rewrite length_drop. unfold len in *. lia.
Qed.

Lemma len_slice_to {A} (l : list A) (n : Z) :
  len (slice_to l n) = clamp (len l) n.
Proof.
  rewrite slice_to_take. unfold len at 1. rewrite length_take.
  pose proof (clamp_range (len l) n (len_nonneg l)). unfold len in *. lia.
Qed.

Lemma len_slice_from {A} (l : list A) (n : Z) :
  len (slice_from l n) = len l - clamp (len l) n.
Proof.
  rewrite slice_from_drop. unfold len at 1. rewrite length_drop.
  pose proof (clamp_range (len l) n (len_nonneg l)). unfold len in *. lia.
Qed.

(** What [new_buff[:n]] takes is what [new_buff[n:]] leaves out. *)
Lemma slice_split {A} (l : list A) (n : Z) :
  slice_to l n ++ slice_from l n = l.
Proof. rewrite slice_to_take, slice_from_drop. apply take_drop. Qed.

Lemma slice_to_to {A} (l : list A) (n k : Z) :
  0 ≤ k ≤ len (slice_to l n) → slice_to (slice_to l n) k = slice_to l k.
Proof.
  intros Hk. rewrite len_slice_to in Hk.
  rewrite (slice_to_take (slice_to l n)), len_slice_to, (slice_to_take l n).
  rewrite (slice_to_take l k).
  pose proof (clamp_range (len l) n (len_nonneg l)).
  rewrite take_take. f_equal.
  generalize dependent (clamp (len l) n). intros c Hk Hc.
  unfold clamp.
  destruct (k <? 0) eqn:E; lia.
Qed.

(** ** Sizes of the fixed parts *)

Lemma struct_unpack_len (f : fmt) (buff : bytes) (r : list pyval) :
  struct_unpack f buff = Ok r → calcsize f = Ok (len buff).
Proof.
  unfold struct_unpack, calcsize. destruct (byte_order f) as [big items].
  destruct (forallb item_ok items); [|discriminate].
  destruct (len buff =? size_from big 0 items) eqn:E; [|discriminate].
  intros _. f_equal. lia.
Qed.

(** The object [unpack] hands to the base class: the first member marked
    when the encoding is big-endian, the format rebuilt from the members. *)
Lemma unpack_inv (o o' : MQOpts) (buff : bytes) (encoding : option Z) :
  unpack o buff encoding = Ok o' →
  ∃ l, (if is_big_endian encoding
        then ∃ m r, MQOpts__list o = m :: r
                    ∧ l = Member (m_name m) (m_default m) (FGt :: m_fmt m) :: r
        else l = MQOpts__list o)
       ∧ calcsize (concat (m_fmt <$> l)) = Ok (len buff).
Proof.
  unfold unpack. intros H. bind_inv H. bind_inv H. simpl in Hx0.
  injection Hx0 as <-. unfold MQOpts_unpack in H. bind_inv H.
  apply struct_unpack_len in Hx0. simpl in Hx0.
  exists (MQOpts__list x). split; [|exact Hx0].
  destruct (is_big_endian encoding).
  - unfold mark_big_endian in Hx. destruct (MQOpts__list o) as [|m r] eqn:E;
      [discriminate|]. injection Hx as <-. simpl. eauto.
  - injection Hx as <-. reflexivity.
Qed.

(** The size of a format made of longs only, with or without the mark. *)
Lemma calcsize_fixed (o o' : MQOpts) (buff : bytes) (encoding : option Z) (n : Z) :
  unpack o buff encoding = Ok o' →
  (calcsize (concat (m_fmt <$> MQOpts__list o)) = Ok n) →
  (∀ m r, MQOpts__list o = m :: r →
     calcsize (FGt :: concat (m_fmt <$> MQOpts__list o)) = Ok n) →
  len buff = n.
Proof.
  intros H Hn Hb. apply unpack_inv in H as (l & Hl & Hsz).
  destruct (is_big_endian encoding).
  - destruct Hl as (m & r & E & ->). specialize (Hb m r E).
    rewrite E in Hb. simpl in Hb, Hsz. congruence.
  - subst l. congruence.
Qed.

Ltac fresh_object H :=
  match type of H with
  | ?c [] = Ok ?o => unfold c, MQOpts_init in H; simpl in H; injection H as <-
  end.

Lemma CFIN_size (o o' : MQOpts) (buff : bytes) (encoding : option Z) :
  CFIN [] = Ok o → unpack o buff encoding = Ok o' → len buff = 16.
Proof.
  intros Ho H. unfold CFIN, MQOpts_init in Ho. cbn [MQOpts_set] in Ho.
  injection Ho as <-. eapply calcsize_fixed; [exact H | reflexivity..].
Qed.

(** A buffer whose fixed part unpacks is at least that long. *)
Lemma unpack_fixed_len (o o' : MQOpts) (buff : bytes) (encoding : option Z)
    (fixed n : Z) :
  unpack_fixed o buff encoding fixed = Ok o' →
  calcsize (concat (m_fmt <$> MQOpts__list o)) = Ok n →
  (∀ m r, MQOpts__list o = m :: r →
     calcsize (FGt :: concat (m_fmt <$> MQOpts__list o)) = Ok n) →
  0 < n → n ≤ len buff.
Proof.
  unfold unpack_fixed. intros H Hn Hb Hpos.
  pose proof (calcsize_fixed _ _ _ _ _ H Hn Hb) as E.
  rewrite len_slice_to in E.
  pose proof (clamp_range (len buff) fixed (len_nonneg buff)). lia.
Qed.

Lemma CFST_size (o o' : MQOpts) (buff : bytes) (encoding : option Z) :
  CFST [] = Ok o → CFST_unpack o buff encoding = Ok o' → 20 ≤ len buff.
Proof.
  intros Ho H. unfold CFST, MQOpts_init in Ho. cbn [MQOpts_set] in Ho.
  injection Ho as <-. unfold CFST_unpack in H. bind_inv H.
  eapply unpack_fixed_len; [exact Hx | reflexivity.. | lia].
Qed.

Lemma CFIL_size (o o' : MQOpts) (buff : bytes) (encoding : option Z) :
  CFIL [] = Ok o → CFIL_unpack o buff encoding = Ok o' → 16 ≤ len buff.
Proof.
  intros Ho H. unfold CFIL, MQOpts_init in Ho. cbn [MQOpts_set] in Ho.
  injection Ho as <-. unfold CFIL_unpack in H. bind_inv H.
  eapply unpack_fixed_len; [exact Hx | reflexivity.. | lia].
Qed.

Lemma CFSL_size (o o' : MQOpts) (buff : bytes) (encoding : option Z) :
  CFSL [] = Ok o → CFSL_unpack o buff encoding = Ok o' → 24 ≤ len buff.
Proof.
  intros Ho H. unfold CFSL, MQOpts_init in Ho. cbn [MQOpts_set] in Ho.
  injection Ho as <-. unfold CFSL_unpack in H. bind_inv H.
  eapply unpack_fixed_len; [exact Hx | reflexivity.. | lia].
Qed.

Lemma CFBS_size (o o' : MQOpts) (buff : bytes) (encoding : option Z) :
  CFBS [] = Ok o → CFBS_unpack o buff encoding = Ok o' → 16 ≤ len buff.
Proof.
  intros Ho H. unfold CFBS, MQOpts_init in Ho. cbn [MQOpts_set] in Ho.
  injection Ho as <-. unfold CFBS_unpack in H. bind_inv H.
  eapply unpack_fixed_len; [exact Hx | reflexivity.. | lia].
Qed.

Section Parser.

Variable codec_decode : string → bytes → result (list N).

(** ** One round of the parsing loop *)

(** A round that does not raise has handed a slice of at least sixteen
    bytes to a decoder. *)
Lemma round_slice (self : PCFCommand) (conv : bool) (st st' : bag_state)
    (new_buff rest : bytes) :
  unpack_parameter codec_decode self conv st new_buff = Ok (st', rest) →
  ∃ n, unpack_long self (slice_between new_buff 4 8) = Ok (PInt n)
       ∧ 16 ≤ len (slice_to new_buff n)
       ∧ rest = slice_from new_buff n.
Proof.
  unfold unpack_parameter. intros H.
  bind_inv H. bind_inv H. bind_inv H. bind_inv H. injection H as <- <-.
  assert (x0 = PInt x1) as ->.
  { unfold unpack_long in Hx0. bind_inv Hx0.
    unfold struct_unpack in Hx3.
    destruct (is_big_endian (Some (encoding self))); simpl in Hx3;
      match type of Hx3 with (if ?c then _ else _) = _ => destruct c end;
      try discriminate; injection Hx3 as <-;
      simpl in Hx0; injection Hx0 as <-; unfold as_int in Hx1;
      simpl in Hx1; congruence. }
  exists x1. split; [exact Hx0|]. split; [|reflexivity].
  repeat match type of Hx2 with
         | (if ?c then _ else _) = _ => destruct c
         end; try discriminate;
    bind_inv Hx2; bind_inv Hx2.
  - apply (CFIN_size _ _ _ _ Hx3) in Hx4. lia.
  - apply (CFST_size _ _ _ _ Hx3) in Hx4. lia.
  - apply (CFIL_size _ _ _ _ Hx3) in Hx4. lia.
  - apply (CFSL_size _ _ _ _ Hx3) in Hx4. lia.
  - apply (CFBS_size _ _ _ _ Hx3) in Hx4. lia.
Qed.

(** Hence every round that does not raise leaves a shorter buffer. *)
Lemma round_shrinks (self : PCFCommand) (conv : bool) (st st' : bag_state)
    (new_buff rest : bytes) :
  unpack_parameter codec_decode self conv st new_buff = Ok (st', rest) →
  len rest < len new_buff.
Proof.
  intros H. apply round_slice in H as (n & _ & Hn & ->).
  rewrite len_slice_to in Hn. rewrite len_slice_from. lia.
Qed.

(** ** Termination of the parsing loop *)

(** With a bound that is not smaller than the buffer the loop is done. *)
Lemma unpack_loop_done (self : PCFCommand) (conv : bool) (fuel : nat) :
  ∀ st new_buff, new_buff ≠ [] → (length new_buff ≤ fuel)%nat →
    ∃ r, unpack_loop codec_decode fuel self conv st new_buff = Some r.
Proof.
  induction fuel as [|fuel IH]; intros st new_buff Hne Hlen.
  - destruct new_buff; [done | simpl in Hlen; lia].
  - simpl. destruct (unpack_parameter _ _ _ _ _) as [[st' rest]|e] eqn:E;
      [|eauto].
    destruct (len rest =? 0) eqn:E0; [eauto|].
    apply round_shrinks in E. apply IH.
    + intros ->. unfold len in E0. simpl in E0. lia.
    + unfold len in E. lia.
Qed.

(** A larger bound does not change the outcome. *)
Lemma unpack_loop_more (self : PCFCommand) (conv : bool) (fuel : nat) :
  ∀ fuel' st new_buff r, (fuel ≤ fuel')%nat →
    unpack_loop codec_decode fuel self conv st new_buff = Some r →
    unpack_loop codec_decode fuel' self conv st new_buff = Some r.
Proof.
  induction fuel as [|fuel IH]; intros fuel' st new_buff r Hle H;
    [discriminate|].
  destruct fuel' as [|fuel']; [lia|]. simpl in *.
  destruct (unpack_parameter _ _ _ _ _) as [[st' rest]|e]; [|exact H].
  destruct (len rest =? 0); [exact H|]. apply IH; [lia | exact H].
Qed.

(** [unpack_bag] up to its [return] is done within [rounds buff] rounds. *)
Lemma unpack_bag_run_done (self : PCFCommand) (buff : option bytes) (conv : bool) :
  ∃ r, ∀ fuel, (rounds buff ≤ fuel)%nat →
    unpack_bag_run codec_decode fuel self buff conv = Some r.
Proof.
  destruct buff as [buff|]; [|eexists; reflexivity]. unfold unpack_bag_run.
  destruct (len buff =? 0); [eexists; reflexivity|].
  destruct (_ ≫= _) as [resp_cfh|e]; [|eexists; reflexivity].
  destruct (len (slice_from buff 36) =? 0) eqn:E0; [eexists; reflexivity|].
  destruct (unpack_loop_done self conv (length buff) (mkBag ∅ [resp_cfh])
              (slice_from buff 36)) as [r Hr].
  - intros E. rewrite E in E0. discriminate.
  - pose proof (len_slice_from buff 36) as E.
    pose proof (clamp_range (len buff) 36 (len_nonneg buff)).
    unfold len in *. lia.
  - exists (match r with Raise e => Raise e | Ok st => Ok (Some st) end).
    intros fuel Hfuel. simpl in Hfuel.
    rewrite (unpack_loop_more _ _ _ fuel _ _ _ Hfuel Hr).
    destruct r; reflexivity.
Qed.

(** ** Unknown type tags *)

Lemma len_slice_between {A} (l : list A) (lo hi : Z) :
  0 ≤ lo ≤ hi → hi ≤ len l → len (slice_between l lo hi) = hi - lo.
Proof.
  intros H1 H2. unfold slice_between, slice, clamp.
  destruct (lo <? 0) eqn:E1; [lia|]. destruct (hi <? 0) eqn:E2; [lia|].
  unfold len in *. rewrite length_take, length_drop. lia.
Qed.

(** With eight bytes left the declared length can be read. *)
Lemma struc_len_read (self : PCFCommand) (new_buff : bytes) :
  8 ≤ len new_buff →
  ∃ n, unpack_long self (slice_between new_buff 4 8) = Ok (PInt n).
Proof.
  intros H. unfold unpack_long, struct_unpack.
  pose proof (len_slice_between new_buff 4 8 ltac:(lia) H) as E.
  destruct (is_big_endian _); simpl; rewrite E; simpl; eauto.
Qed.

(** A round that starts on an unknown type tag raises the error of the
    unsupported type. *)
Lemma unknown_type_round (self : PCFCommand) (conv : bool) (st : bag_state)
    (new_buff : bytes) (parm_type : pyval) :
  8 ≤ len new_buff →
  unpack_long self (slice_to new_buff 4) = Ok parm_type →
  is_parameter_type parm_type = false →
  unpack_parameter codec_decode self conv st new_buff
  = Raise (PYIFError (UnsupportedParameterType parm_type)).
Proof.
  intros Hlen Htag Hnot. unfold unpack_parameter. rewrite Htag. simpl.
  destruct (struc_len_read self new_buff Hlen) as [n ->]. simpl.
  unfold is_parameter_type in Hnot.
  repeat (apply orb_false_elim in Hnot as [Hnot ?]).
  rewrite Hnot. repeat match goal with H : eq_int _ _ = false |- _ => rewrite H; clear H end.
  reflexivity.
Qed.

(** The outcome of the loop at a round it reaches is its outcome. *)
Lemma reaches_outcome (self : PCFCommand) (conv : bool) st0 nb0 st nb :
  reaches codec_decode self conv st0 nb0 st nb →
  ∀ fuel r, unpack_loop codec_decode fuel self conv st nb = Some r →
  ∃ fuel0, unpack_loop codec_decode fuel0 self conv st0 nb0 = Some r.
Proof.
  induction 1 as [|st nb st1 nb1 st2 nb2 Hround Hne _ IH]; intros fuel r Hr;
    [eauto|].
  destruct (IH fuel r Hr) as [fuel0 H0]. exists (S fuel0). simpl.
  rewrite Hround.
  destruct (len nb1 =? 0) eqn:E; [|exact H0].
  destruct nb1; [done | unfold len in E; simpl in E; lia].
Qed.

(** C4, amended: when the parsing loop reaches a position where at least
    eight bytes are left (the type tag and the declared length can both be
    read) and the type tag, read in the active byte order, is none of
    Integer, String, IntegerList, StringList and ByteString, [unpack_bag]
    raises the error of the unsupported type: nothing after that position
    is decoded and no list of structures is returned. *)
Theorem unknown_type_aborts (self : PCFCommand) (buff : bytes) (conv : bool)
    (st0 st : bag_state) (nb0 new_buff : bytes) (parm_type : pyval) :
  loop_entry self buff = Ok (st0, nb0) →
  nb0 ≠ [] →
  reaches codec_decode self conv st0 nb0 st new_buff →
  8 ≤ len new_buff →
  unpack_long self (slice_to new_buff 4) = Ok parm_type →
  is_parameter_type parm_type = false →
  unpack_bag codec_decode self (Some buff) conv
  = Some (Raise (PYIFError (UnsupportedParameterType parm_type))).
Proof.
  intros Hentry Hne Hreach Hlen Htag Hnot.
  pose proof (unknown_type_round self conv st new_buff parm_type Hlen Htag Hnot)
    as Hround.
  assert (unpack_loop codec_decode 1 self conv st new_buff
          = Some (Raise (PYIFError (UnsupportedParameterType parm_type)))) as H1.
  { simpl. rewrite Hround. reflexivity. }
  destruct (reaches_outcome _ _ _ _ _ _ Hreach _ _ H1) as [fuel0 H0].
  unfold loop_entry in Hentry. bind_inv Hentry. bind_inv Hentry.
  injection Hentry as <- <-.
  assert (36 ≤ len buff) as Hbuff.
  { unfold CFH, MQOpts_init in Hx. cbn [MQOpts_set] in Hx. injection Hx as <-.
    assert (len (slice_to buff 36) = 36) as E
      by (eapply calcsize_fixed; [exact Hx0 | reflexivity..]).
    rewrite len_slice_to in E.
    pose proof (clamp_range (len buff) 36 (len_nonneg buff)). lia. }
  unfold unpack_bag, unpack_bag_run.
  destruct (len buff =? 0) eqn:E0; [lia|].
  rewrite Hx. simpl. rewrite Hx0.
  destruct (len (slice_from buff 36) =? 0) eqn:E1.
  { destruct (slice_from buff 36); [done | unfold len in E1; simpl in E1; lia]. }
  destruct (unpack_loop_done self conv (length buff) (mkBag ∅ [x0])
              (slice_from buff 36) Hne) as [r Hr].
  { pose proof (len_slice_from buff 36) as E.
    pose proof (clamp_range (len buff) 36 (len_nonneg buff)).
    unfold len in *. lia. }
  pose proof (unpack_loop_more self conv fuel0 (Nat.max fuel0 (length buff)) _ _ _
                (Nat.le_max_l _ _) H0) as Ha.
  pose proof (unpack_loop_more self conv (length buff) (Nat.max fuel0 (length buff))
                _ _ _ (Nat.le_max_r _ _) Hr) as Hb.
  rewrite Ha in Hb. injection Hb as <-. simpl. rewrite Hr. reflexivity.
Qed.

End Parser.

(** With the base [unpack] modelled above, which hands the buffer to
    [struct.unpack] as it is, the loop on [zero_length_reply] is over after
    one round: its parameter declares [StrucLength = 0], and the round
    raises the error of [struct.unpack] on the empty slice. *)
Lemma zero_length_structure_raises :
  unpack_long native_cmd (slice_between (slice_from zero_length_reply 36) 4 8)
  = Ok (PInt 0)
  ∧ unpack_bag_run latin1_decode 1 native_cmd (Some zero_length_reply) false
    = Some (Raise StructError)
  ∧ unpack_bag latin1_decode native_cmd (Some zero_length_reply) false
    = Some (Raise StructError).
Proof. repeat split; vm_compute; reflexivity. Qed.

(** The conditions of [unknown_type_aborts] hold on [unknown_type_reply]:
    the loop decodes the integer parameter and reaches the structure of
    type 99, of which eight bytes are left. *)
Lemma unknown_type_aborts_witness :
  unpack_bag latin1_decode native_cmd (Some unknown_type_reply) false
  = Some (Raise (PYIFError (UnsupportedParameterType (PInt 99)))).
Proof.
  destruct (loop_entry native_cmd unknown_type_reply) as [[st0 nb0]|] eqn:E0;
    [|vm_compute in E0; discriminate].
  destruct (unpack_parameter latin1_decode native_cmd false st0 nb0)
    as [[st1 nb1]|] eqn:E1.
  2:{ vm_compute in E0. injection E0 as <- <-. vm_compute in E1. discriminate. }
  apply (unknown_type_aborts latin1_decode native_cmd unknown_type_reply false
           st0 st1 nb0 nb1 (PInt 99) E0).
  - vm_compute in E0. injection E0 as <- <-. discriminate.
  - eapply reaches_next; [exact E1 | | apply reaches_here].
    vm_compute in E0. injection E0 as <- <-.
    vm_compute in E1. injection E1 as <- <-. discriminate.
  - vm_compute in E0. injection E0 as <- <-.
    vm_compute in E1. injection E1 as <- <-. vm_compute. discriminate.
  - vm_compute in E0. injection E0 as <- <-.
    vm_compute in E1. injection E1 as <- <-. vm_compute. reflexivity.
  - reflexivity.
Defined.

(** C4 as stated fails on [cut_reply]: the type tag 99 of its parameter is
    none of the five supported ones, but the buffer ends after it, and what
    is raised is the error of [struct.unpack] on the missing length. *)
Lemma cut_reply_raises_struct_error :
  unpack_long native_cmd (slice_to (slice_from cut_reply 36) 4) = Ok (PInt 99)
  ∧ is_parameter_type (PInt 99) = false
  ∧ unpack_bag latin1_decode native_cmd (Some cut_reply) false
    = Some (Raise StructError).
Proof. repeat split; vm_compute; reflexivity. Qed.

(** ** Round trips of the list structures *)

(** C1 (the code departs from it): a [CFIL] holding one integer does not
    survive a round trip.  Its [StrucLength] is 20, the value of
    [MQCFST_STRUC_LENGTH_FIXED] that [CFIL.unpack] compares it with, so the
    unpacked structure gets [StrucLength] 24; its [integer_list] comes back
    as a list of one-element tuples, read in native order whatever the
    encoding.  A [CFSL] holding two strings comes back with the first slot
    only.  This holds under the native and under a big-endian encoding. *)
Theorem list_roundtrips_differ :
  before_and_after (CFIL []) CFIL_unpack (one_integer (Some MQENC_NATIVE))
    (Some MQENC_NATIVE)
  = Ok ([("Type", PInt 5); ("StrucLength", PInt 20); ("Parameter", PInt 1);
         ("Count", PInt 1); ("IntegerList", PStr [x07; x00; x00; x00])],
        [("Type", PInt 5); ("StrucLength", PInt 24); ("Parameter", PInt 1);
         ("Count", PInt 1); ("IntegerList", PStr [x07; x00; x00; x00])])
  ∧ before_and_after (CFIL []) CFIL_unpack (one_integer (Some 785)) (Some 785)
    = Ok ([("Type", PInt 5); ("StrucLength", PInt 20); ("Parameter", PInt 1);
           ("Count", PInt 1); ("IntegerList", PStr [x00; x00; x00; x07])],
          [("Type", PInt 5); ("StrucLength", PInt 24); ("Parameter", PInt 1);
           ("Count", PInt 1); ("IntegerList", PStr [x00; x00; x00; x07])])
  ∧ (x ← one_integer (Some 785);
     y ← roundtrip (CFIL []) CFIL_unpack x (Some 785);
     Ok (integer_list x, integer_list y))
    = Ok ([PInt 7], [PTuple [PInt 117440512]])
  ∧ before_and_after (CFSL []) CFSL_unpack two_strings (Some MQENC_NATIVE)
    = Ok ([("Type", PInt 6); ("StrucLength", PInt 28); ("Parameter", PInt 0);
           ("CodedCharSetId", PInt 0); ("Count", PInt 2); ("StringLength", PInt 2);
           ("StringList", b "abcd")],
          [("Type", PInt 6); ("StrucLength", PInt 28); ("Parameter", PInt 0);
           ("CodedCharSetId", PInt 0); ("Count", PInt 2); ("StringLength", PInt 2);
           ("StringList", b "ab")]).
Proof. repeat split; vm_compute; reflexivity. Qed.

(** ** Conversion of string lists *)

(** C6 (the code departs from it): with conversion enabled, a string list
    of two slots of two bytes whose payload [abcd] transcodes to four
    characters, the declared [StringLength * Count], is refused with the
    error of the converted length: [CFSL.unpack] keeps the first
    [StringLength] bytes only, and their two characters are compared with
    four.  A list of a single slot is decoded to the transcoded text. *)
Theorem string_list_conversion_fails :
  decoded (unpack_bag_run latin1_decode 1 converting_cmd (Some string_list_reply) true)
  = Some (Raise (PYIFError (ConvertedLengthMismatch 2 (PInt 4))))
  ∧ decoded (unpack_bag_run latin1_decode 1 converting_cmd (Some string_list_reply) false)
    = Some (Ok (Some ({[ 8 := b "ab" ]}, 2%nat)))
  ∧ decoded (unpack_bag_run latin1_decode 1 converting_cmd (Some one_slot_reply) true)
    = Some (Ok (Some ({[ 8 := PUnicode [97; 98]%N ]}, 2%nat))).
Proof. repeat split; vm_compute; reflexivity. Qed.

(** ** Slots of a string list *)

(** C7 (the code departs from it): a value shorter than the slot is not
    padded and a longer one is not cut: each of the two statements raises
    [TypeError], the first on the difference of a string and a number, the
    second on the difference of the key ["StringLength"] and 1. *)
Theorem add_string_raises_on_other_length :
  (o ← CFSL []; o ← add_string o (b "abc"); add_string o (b "a")) = Raise TypeError
  ∧ (o ← CFSL []; o ← add_string o (b "abc"); add_string o (b "abcd"))
    = Raise TypeError
  ∧ (o ← CFSL []; o ← add_string o (b "abc"); o ← add_string o (b "def");
     MQOpts_get o)
    = Ok [("Type", PInt 6); ("StrucLength", PInt 30); ("Parameter", PInt 0);
          ("CodedCharSetId", PInt 0); ("Count", PInt 2); ("StringLength", PInt 3);
          ("StringList", b "abcdef")].
Proof. repeat split; vm_compute; reflexivity. Qed.

(** ** Directives with an empty list *)

(** C9 (the code departs from it): a directive whose value is the empty
    list builds no structure, [cf_p] stays [None], and the build ends with
    the [AttributeError] of [None.pack] instead of the error of an invalid
    parameter type; the empty directive and a value of another shape do
    raise that error. *)
Theorem empty_list_raises_attribute_error :
  pack_bag latin1_encode native_cmd (PInt MQCMD_INQUIRE_Q_MGR)
    [DTuple [PInt 1; PList []]] = Raise (AttributeError "pack")
  ∧ pack_bag latin1_encode native_cmd (PInt MQCMD_INQUIRE_Q_MGR)
      [DDict [(PInt 1, PList [])]] = Raise (AttributeError "pack")
  ∧ pack_bag latin1_encode native_cmd (PInt MQCMD_INQUIRE_Q_MGR)
      [DTuple [PInt 1; PInt 2]; DTuple [PInt 3; PList []]]
    = Raise (AttributeError "pack")
  ∧ pack_bag latin1_encode native_cmd (PInt MQCMD_INQUIRE_Q_MGR) [DTuple []]
    = Raise (PYIFError TupleLengthZero)
  ∧ pack_bag latin1_encode native_cmd (PInt MQCMD_INQUIRE_Q_MGR)
      [DTuple [PInt 1; PFloat]] = Raise (PYIFError UnknownParameterType).
Proof. repeat split; vm_compute; reflexivity. Qed.

(** ** The receive loop *)

Section Executor.

Variable codec_decode : string → bytes → result (list N).
Variable codec_encode : string → list N → result bytes.

(** The loop on a sequence of replies none of which is the last. *)
Lemma receive_loop_more (self : PCFCommand) (pre : list get_outcome)
    (bags : list (list MQOpts)) :
  Forall2 (λ g bag, receive codec_decode self g = Some (Ok (false, bag))) pre bags →
  ∀ rest out,
    receive_loop codec_decode self (pre ++ rest) out
    = receive_loop codec_decode self rest (out ++ bags).
Proof.
  induction 1 as [|g bag pre bags Hg _ IH]; intros rest out; simpl.
  - rewrite app_nil_r. reflexivity.
  - rewrite Hg, IH, <- app_assoc. reflexivity.
Qed.

(** C3, amended: when the replies before it all decode with a control flag
    other than LAST, the loop stops at the first reply whose header has the
    control flag LAST, and that reply is the last of the batch; on the
    error of reason 2033 the loop ends with exactly the replies decoded so
    far; any other error of [get] ends the invocation with that error.
    The batch is then handed to [PCFCommandResponse], whose outcome is the
    outcome of the command: for a batch that is empty this is the error of
    the empty structure list. *)
Theorem execute_command_outcomes (self : PCFCommand) (command : pyval)
    (parm_list : list directive) (t : transport) (msg_body : bytes)
    (pre : list get_outcome) (bags : list (list MQOpts)) :
  open_outcome t = Ok () →
  pack_bag codec_encode self command parm_list = Ok msg_body →
  put1_outcome t msg_body = Ok () →
  Forall2 (λ g bag, receive codec_decode self g = Some (Ok (false, bag))) pre bags →
  (∀ g bag post,
     get_outcomes t = pre ++ g :: post →
     receive codec_decode self g = Some (Ok (true, bag)) →
     receive_loop codec_decode self (get_outcomes t) [] = Some (Ok (bags ++ [bag]))
     ∧ execute_command codec_decode codec_encode self command parm_list t
       = Some (new_PCFCommandResponse (bags ++ [bag])))
  ∧ (∀ comp post,
       get_outcomes t = pre ++ GetRaises (MQMIError comp MQRC_NO_MSG_AVAILABLE) :: post →
       receive_loop codec_decode self (get_outcomes t) [] = Some (Ok bags)
       ∧ execute_command codec_decode codec_encode self command parm_list t
         = Some (new_PCFCommandResponse bags)
       ∧ (bags = [] →
          execute_command codec_decode codec_encode self command parm_list t
          = Some (Raise (PYIFError StructureListEmpty))))
  ∧ (∀ e post,
       get_outcomes t = pre ++ GetRaises e :: post →
       (∀ comp, e ≠ MQMIError comp MQRC_NO_MSG_AVAILABLE) →
       execute_command codec_decode codec_encode self command parm_list t
       = Some (Raise e)).
Proof.
  intros Hopen Hpack Hput Hpre.
  assert (∀ r, receive_loop codec_decode self (get_outcomes t) [] = Some r →
            execute_command codec_decode codec_encode self command parm_list t
            = Some (match r with
                    | Ok out_structs => new_PCFCommandResponse out_structs
                    | Raise e => Raise e
                    end)) as Hexec.
  { intros r Hr. unfold execute_command.
    rewrite Hopen. simpl. rewrite Hpack. simpl. rewrite Hput, Hr.
    destruct r; reflexivity. }
  split; [|split].
  - intros g bag post Hgets Hg.
    assert (receive_loop codec_decode self (get_outcomes t) []
            = Some (Ok (bags ++ [bag]))) as Hloop.
    { rewrite Hgets, (receive_loop_more self pre bags Hpre). simpl.
      rewrite Hg. reflexivity. }
    split; [exact Hloop | exact (Hexec _ Hloop)].
  - intros comp post Hgets.
    assert (receive_loop codec_decode self (get_outcomes t) [] = Some (Ok bags))
      as Hloop.
    { rewrite Hgets, (receive_loop_more self pre bags Hpre). reflexivity. }
    split; [exact Hloop|]. split; [exact (Hexec _ Hloop)|].
    intros ->. exact (Hexec _ Hloop).
  - intros e post Hgets Hne. apply (Hexec (Raise e)).
    rewrite Hgets, (receive_loop_more self pre bags Hpre). simpl.
    destruct e as [| comp reason | | | | |]; try reflexivity.
    destruct (reason =? MQRC_NO_MSG_AVAILABLE) eqn:E; [|reflexivity].
    exfalso. apply (Hne comp). f_equal. lia.
Qed.

End Executor.

(** The conditions of [execute_command_outcomes] hold on a transport that
    delivers [more_reply], then [last_reply]: the command returns the
    response built from the two decoded bags. *)
Lemma execute_command_outcomes_witness :
  ∃ bag1 bag2,
    receive latin1_decode native_cmd (Delivered more_reply 819) = Some (Ok (false, bag1))
    ∧ receive latin1_decode native_cmd (Delivered last_reply 819) = Some (Ok (true, bag2))
    ∧ execute_command latin1_decode latin1_encode native_cmd
        (PInt MQCMD_INQUIRE_Q_MGR) []
        (delivering [Delivered more_reply 819; Delivered last_reply 819])
      = Some (new_PCFCommandResponse ([bag1] ++ [bag2])).
Proof.
  assert (∃ bag1, receive latin1_decode native_cmd (Delivered more_reply 819)
                  = Some (Ok (false, bag1))) as [bag1 E1]
    by (vm_compute; eexists; reflexivity).
  assert (∃ bag2, receive latin1_decode native_cmd (Delivered last_reply 819)
                  = Some (Ok (true, bag2))) as [bag2 E2]
    by (vm_compute; eexists; reflexivity).
  exists bag1, bag2. split; [exact E1|]. split; [exact E2|].
  assert (∃ msg_body, pack_bag latin1_encode native_cmd (PInt MQCMD_INQUIRE_Q_MGR) []
                      = Ok msg_body) as [msg_body Ep]
    by (vm_compute; eexists; reflexivity).
  assert (Forall2 (λ g bag, receive latin1_decode native_cmd g = Some (Ok (false, bag)))
            [Delivered more_reply 819] [bag1]) as Hpre
    by (constructor; [exact E1 | constructor]).
  apply (execute_command_outcomes latin1_decode latin1_encode native_cmd
           (PInt MQCMD_INQUIRE_Q_MGR) []
           (delivering [Delivered more_reply 819; Delivered last_reply 819])
           msg_body [Delivered more_reply 819] [bag1] eq_refl Ep eq_refl Hpre)
    with (g := Delivered last_reply 819) (post := []);
    [reflexivity | exact E2].
Defined.

(** C3 as stated fails on a transport whose first [get] runs out of time:
    the loop ends with no reply, and the command does not complete but
    raises the error of the empty structure list. *)
Lemma timeout_before_any_reply_raises :
  receive_loop latin1_decode native_cmd [GetRaises no_message] [] = Some (Ok [])
  ∧ execute_command latin1_decode latin1_encode native_cmd
      (PInt MQCMD_INQUIRE_Q_MGR) [] (delivering [GetRaises no_message])
    = Some (Raise (PYIFError StructureListEmpty)).
Proof. split; vm_compute; reflexivity. Qed.

(** ** The response aggregate *)

Lemma classify_spec (pcf_s : list MQOpts) :
  ∀ hs h d hs' h' d',
    classify hs h d pcf_s = Ok (hs', h', d') →
    hs' = hs ++ bag_headers pcf_s
    ∧ h' = match h with Some _ => h | None => head (bag_headers pcf_s) end
    ∧ d' = foldl record d (bag_parameters pcf_s).
Proof.
  unfold bag_headers, bag_parameters.
  induction pcf_s as [|s r IH]; intros hs h d hs' h' d' H; simpl in H.
  - injection H as <- <- <-. simpl. rewrite app_nil_r. destruct h; done.
  - bind_inv H. unfold getitem, getattr in Hx.
    destruct (attr_get (attrs s) "Type") as [t|] eqn:Et; [|discriminate].
    injection Hx as <-.
    assert (is_header s = is_header_type t) as Hh
      by (unfold is_header; rewrite Et; reflexivity).
    assert (is_summary s = eq_int t MQCFT_XR_SUMMARY) as Hs
      by (unfold is_summary; rewrite Et; reflexivity).
    simpl. rewrite Hs.
    destruct (is_header_type t) eqn:Eh.
    + destruct (eq_int t MQCFT_XR_SUMMARY) eqn:Es.
      * injection H as <- <- <-. simpl. rewrite Hh. simpl. destruct h; done.
      * apply IH in H as (-> & -> & ->). simpl. rewrite Hh. simpl.
        rewrite <- app_assoc. destruct h; done.
    + assert (eq_int t MQCFT_XR_SUMMARY = false) as Es.
      { unfold is_header_type in Eh.
        repeat (apply orb_false_elim in Eh as [Eh ?]). assumption. }
      rewrite Es. destruct (value_member t) as [name|] eqn:En; [|discriminate].
      bind_inv H. bind_inv H. bind_inv H.
      apply IH in H as (-> & -> & ->). simpl. rewrite Hh. simpl.
      repeat split. f_equal.
      unfold record, recorded. rewrite Et. simpl. rewrite En. simpl.
      unfold getitem, getattr in Hx, Hx0.
      destruct (attr_get (attrs s) name) as [v|]; [|discriminate].
      injection Hx as <-.
      destruct (attr_get (attrs s) "Parameter") as [p|]; [|discriminate].
      injection Hx0 as <-. simpl. unfold dict_set, as_int in Hx1.
      destruct (int_value p); [|discriminate]. simpl in Hx1.
      injection Hx1 as <-. reflexivity.
Qed.

Lemma classify_all_spec (l : list (list MQOpts)) :
  ∀ hs h ps hs' h' ps',
    classify_all hs h ps l = Ok (hs', h', ps') →
    hs' = hs ++ concat (bag_headers <$> l)
    ∧ h' = match h with Some _ => h | None => head (concat (bag_headers <$> l)) end
    ∧ ps' = ps ++ kept_maps l.
Proof.
  unfold kept_maps.
  induction l as [|pcf_s l IH]; intros hs h ps hs' h' ps' H; simpl in H.
  - injection H as <- <- <-. simpl. rewrite !app_nil_r. destruct h; done.
  - bind_inv H. destruct x as [[hs1 h1] d1].
    apply classify_spec in Hx as (-> & -> & ->).
    apply IH in H as (-> & -> & ->). simpl. rewrite <- app_assoc.
    split; [reflexivity|]. split.
    + destruct h; [reflexivity|]. destruct (bag_headers pcf_s); reflexivity.
    + unfold bag_map. destruct (0 <? _); [rewrite <- app_assoc|]; reflexivity.
Qed.

(** C8, amended: the response classifies every structure of a bag up to
    the first summary header either as a header, appended to the list of
    headers, or as a parameter folded into the map of the bag; the first
    header of the batch is the canonical header.  A bag contributes its
    map only if that map is not empty, so a batch of three bags yields the
    three maps in the order of receipt when each of them has a parameter,
    and fewer maps otherwise. *)
Theorem response_classification (l : list (list MQOpts)) (r : PCFCommandResponse) :
  new_PCFCommandResponse l = Ok r →
  struct_list r = l
  ∧ headers r = concat (bag_headers <$> l)
  ∧ header r = head (headers r)
  ∧ parms r = kept_maps l
  ∧ (∀ b1 b2 b3, l = [b1; b2; b3] →
       bag_map (bag_parameters b1) ≠ ∅ →
       bag_map (bag_parameters b2) ≠ ∅ →
       bag_map (bag_parameters b3) ≠ ∅ →
       parms r = [bag_map (bag_parameters b1); bag_map (bag_parameters b2);
                  bag_map (bag_parameters b3)]).
Proof.
  unfold new_PCFCommandResponse. intros H.
  destruct (0 <? len l); [|discriminate]. bind_inv H.
  destruct x as [[hs h] ps]. injection H as <-. simpl.
  apply classify_all_spec in Hx as (-> & -> & ->). simpl.
  repeat split. intros b1 b2 b3 -> H1 H2 H3. unfold kept_maps. simpl.
  assert (∀ d : gmap Z pyval, d ≠ ∅ → (0 <? Z.of_nat (size d)) = true) as Hsize.
  { intros d Hd. apply Z.ltb_lt. destruct (size d) eqn:E; [|lia].
    apply map_size_empty_iff in E. contradiction. }
  rewrite (Hsize _ H1), (Hsize _ H2), (Hsize _ H3). reflexivity.
Qed.

(** ** Structures of longs *)

Lemma padding_aligned (big : bool) (j : Z) : padding big (4 * j) = 0.
Proof.
  unfold padding. destruct big; [reflexivity|].
  rewrite Z.mul_comm, Z_mod_mult. reflexivity.
Qed.

Lemma size_from_longs (big : bool) (k : nat) :
  ∀ j : nat, size_from big (4 * Z.of_nat j) (replicate k FLong) = 4 * Z.of_nat (j + k).
Proof.
  induction k as [|k IH]; intros j; simpl.
  - f_equal. lia.
  - rewrite padding_aligned.
    replace (4 * Z.of_nat j + 0 + 4) with (4 * Z.of_nat (S j)) by lia.
    rewrite IH. f_equal. lia.
Qed.

Lemma unpack_items_longs (big : bool) (buff : bytes) (k : nat) :
  ∀ j : nat, unpack_items big (replicate k FLong) (4 * Z.of_nat j) buff
             = long_at big buff <$> seq j k.
Proof.
  induction k as [|k IH]; intros j; simpl; [reflexivity|].
  rewrite padding_aligned, Z.add_0_r. f_equal.
  replace (4 * Z.of_nat j + 4) with (4 * Z.of_nat (S j)) by lia. apply IH.
Qed.

Lemma struct_unpack_longs (big : bool) (k : nat) (buff : bytes) :
  struct_unpack ((if big then [FGt] else []) ++ replicate k FLong) buff
  = if len buff =? 4 * Z.of_nat k then Ok (long_at big buff <$> seq 0 k)
    else Raise StructError.
Proof.
  unfold struct_unpack.
  assert (byte_order ((if big then [FGt] else []) ++ replicate k FLong)
          = (big, replicate k FLong)) as ->.
  { destruct big; [reflexivity|]. destruct k; reflexivity. }
  assert (forallb item_ok (replicate k FLong) = true) as ->
    by (induction k; simpl; auto).
  change (size_from big 0) with (size_from big (4 * Z.of_nat 0)).
  change (unpack_items big (replicate k FLong) 0)
    with (unpack_items big (replicate k FLong) (4 * Z.of_nat 0)).
  rewrite size_from_longs, unpack_items_longs. reflexivity.
Qed.

Lemma take4_slice_to {A} (l : list A) (n : Z) :
  4 ≤ len (slice_to l n) → take 4 (slice_to l n) = take 4 l.
Proof.
  intros H. rewrite len_slice_to in H. rewrite slice_to_take, take_take.
  f_equal. lia.
Qed.

Lemma slice_between_0_4 {A} (l : list A) :
  slice_between l 0 4 = take 4 l.
Proof.
  unfold slice_between, slice, clamp. simpl.
  pose proof (len_nonneg l). rewrite (Z.min_l 0 (len l)) by lia.
  simpl. rewrite Z.sub_0_r.
  destruct (Z.min_spec 4 (len l)) as [[? ->]|[? ->]]; [reflexivity|].
  unfold len in *. rewrite Nat2Z.id. rewrite (take_ge l 4) by lia. apply take_ge. lia.
Qed.

Lemma long_at_0 (big : bool) (buff : bytes) :
  long_at big buff 0 = PInt (decode_long big (take 4 buff)).
Proof.
  unfold long_at. change (4 * Z.of_nat 0) with 0. change (0 + 4) with 4.
  rewrite slice_between_0_4. reflexivity.
Qed.

Lemma recorded_intro (s : MQOpts) (t : Z) (name : string) (v p : pyval) (k : Z) :
  attr_get (attrs s) "Type" = Some (PInt t) →
  value_member (PInt t) = Some name →
  attr_get (attrs s) name = Some v →
  attr_get (attrs s) "Parameter" = Some p →
  int_value p = Some k →
  recorded s = Some (k, v).
Proof.
  intros H1 H2 H3 H4 H5. unfold recorded. rewrite H1. simpl. rewrite H2. simpl.
  rewrite H3. simpl. rewrite H4. simpl. rewrite H5. reflexivity.
Qed.

Lemma eq_int_PInt (d z : Z) : eq_int (PInt d) z = true → d = z.
Proof. unfold eq_int. simpl. apply Z.eqb_eq. Qed.

Tactic Notation "bind" hyp(H) "as" simple_intropattern(x) ident(Hx) :=
  apply bind_Ok in H as (x & Hx & H).

Ltac split_if H :=
  match type of H with
  | context [if ?c then _ else _] =>
      let E := fresh "E" in destruct c eqn:E; try apply Z.eqb_eq in E
  end.

(** The fixed part of a structure of [k] longs, unpacked. *)
Ltac unpack_longs H k :=
  unfold unpack_fixed, unpack in H;
  match type of H with
  | context [is_big_endian ?e] =>
      let Ebig := fresh "Ebig" in
      destruct (is_big_endian e) eqn:Ebig; simpl in H;
      unfold MQOpts_unpack in H; simpl in H;
      [ match type of H with
        | context [struct_unpack ?f ?X] =>
            change (struct_unpack f X)
              with (struct_unpack ((if true then [FGt] else []) ++ replicate k FLong) X)
              in H
        end
      | match type of H with
        | context [struct_unpack ?f ?X] =>
            change (struct_unpack f X)
              with (struct_unpack ((if false then [FGt] else []) ++ replicate k FLong) X)
              in H
        end ];
      rewrite struct_unpack_longs in H;
      (split_if H; [|discriminate]); simpl in H; injection H as <-
  end.

(** Runs a computation in the exception monad forwards: the operations on
    objects are unfolded, the tests and the steps that do not reduce are
    split into their cases. *)
Ltac unfold_objects H :=
  cbv [mbind result_bind mret result_ret
       getitem getattr setitem setattr hasattr attr_get attr_set
       MQOpts_get get_members MQOpts_set MQOpts_init apply_opts
       declared_payload replace_payload record_parameter dict_set
       MQOpts__list MQOpts__format attrs integer_list string_list
       set_integer_list append_integer append_string
       m_name m_default m_fmt long
       String.eqb Ascii.eqb Bool.eqb
       fmap list_fmap foldl app concat fst snd] in H.

Ltac exec :=
  repeat match goal with
  | H : Raise _ = Ok _ |- _ => discriminate H
  | H : Ok _ = Ok _ |- _ => injection H as ?; subst
  | H : _ = Ok _ |- _ => progress unfold_objects H
  | H : context [if ?c then _ else _] |- _ => destruct c eqn:?
  | H : context [match ?m with Ok _ => _ | Raise _ => _ end] |- _ =>
      destruct m eqn:?
  end.

Ltac fields :=
  cbv [attrs attr_get String.eqb Ascii.eqb Bool.eqb]; repeat split; eauto.

Ltac abstract_buffer :=
  repeat match goal with
  | H : context [long_at ?b ?X ?i] |- _ =>
      let v := fresh "v" in
      remember (long_at b X i) as v eqn:Hv in *; clear Hv
  end.

Lemma CFST_unpack_fields (o o' : MQOpts) (buff : bytes) (encoding : option Z) :
  CFST [] = Ok o → CFST_unpack o buff encoding = Ok o' →
  parameter_fields o' (is_big_endian encoding)
    (slice_to buff MQCFST_STRUC_LENGTH_FIXED) "String".
Proof.
  intros Ho H. unfold CFST, MQOpts_init in Ho. simpl in Ho. injection Ho as <-.
  unfold CFST_unpack in H. bind H as o1 Ho1.
  unpack_longs Ho1 5%nat; unfold parameter_fields; abstract_buffer;
    exec; fields.
Qed.

Lemma CFSL_unpack_fields (o o' : MQOpts) (buff : bytes) (encoding : option Z) :
  CFSL [] = Ok o → CFSL_unpack o buff encoding = Ok o' →
  parameter_fields o' (is_big_endian encoding)
    (slice_to buff MQCFSL_STRUC_LENGTH_FIXED) "StringList".
Proof.
  intros Ho H. unfold CFSL, MQOpts_init in Ho. simpl in Ho. injection Ho as <-.
  unfold CFSL_unpack in H. bind H as o1 Ho1.
  unpack_longs Ho1 6%nat; unfold parameter_fields; abstract_buffer;
    exec; fields.
Qed.

Lemma CFBS_unpack_fields (o o' : MQOpts) (buff : bytes) (encoding : option Z) :
  CFBS [] = Ok o → CFBS_unpack o buff encoding = Ok o' →
  parameter_fields o' (is_big_endian encoding)
    (slice_to buff MQCFBS_STRUC_LENGTH_FIXED) "String".
Proof.
  intros Ho H. unfold CFBS, MQOpts_init in Ho. simpl in Ho. injection Ho as <-.
  unfold CFBS_unpack in H. bind H as o1 Ho1.
  unpack_longs Ho1 4%nat; unfold parameter_fields; abstract_buffer;
    exec; fields.
Qed.

Lemma CFIL_unpack_fields (o o' : MQOpts) (buff : bytes) (encoding : option Z) :
  CFIL [] = Ok o → CFIL_unpack o buff encoding = Ok o' →
  parameter_fields o' (is_big_endian encoding)
    (slice_to buff MQCFIL_STRUC_LENGTH_FIXED) "IntegerList".
Proof.
  intros Ho H. unfold CFIL, MQOpts_init in Ho. simpl in Ho. injection Ho as <-.
  unfold CFIL_unpack in H. bind H as o1 Ho1.
  unpack_longs Ho1 4%nat; unfold parameter_fields; abstract_buffer;
    exec; fields.
Qed.

Lemma CFIN_unpack_fields (o o' : MQOpts) (buff : bytes) (encoding : option Z) :
  CFIN [] = Ok o → unpack o buff encoding = Ok o' →
  parameter_fields o' (is_big_endian encoding) buff "Value".
Proof.
  intros Ho H. unfold CFIN, MQOpts_init in Ho. simpl in Ho. injection Ho as <-.
  unpack_longs H 4%nat; unfold parameter_fields; fields.
Qed.

Lemma attr_get_set (a : attr_dict) (k k' : string) (v : pyval) :
  attr_get (attr_set a k v) k' = if String.eqb k k' then Some v else attr_get a k'.
Proof.
  induction a as [|[k0 x] a IH]; simpl.
  - destruct (String.eqb k k'); reflexivity.
  - destruct (String.eqb k0 k) eqn:E0; simpl.
    + apply String.eqb_eq in E0 as ->. destruct (String.eqb k k'); reflexivity.
    + destruct (String.eqb k0 k') eqn:E1; [|exact IH].
      apply String.eqb_eq in E1 as ->.
      rewrite String.eqb_sym in E0. rewrite E0. reflexivity.
Qed.

Lemma unpack_long_tag (self : PCFCommand) (buff : bytes) (v : pyval) :
  unpack_long self buff = Ok v →
  len buff = 4 ∧ v = long_at (is_big_endian (Some (encoding self))) buff 0.
Proof.
  unfold unpack_long. intros H. bind H as t Ht.
  destruct (is_big_endian (Some (encoding self)));
    [ change (FGt :: MQLONG_TYPE)
        with ((if true then [FGt] else []) ++ replicate 1 FLong) in Ht
    | change MQLONG_TYPE
        with ((if false then [FGt] else []) ++ replicate 1 FLong) in Ht ];
    rewrite struct_unpack_longs in Ht;
    (split_if Ht; [|discriminate]); injection Ht as <-; simpl in H;
    injection H as <-; split; (lia || reflexivity).
Qed.

Lemma setitem_fields (r r' : MQOpts) (big : bool) (fixed : bytes)
    (name : string) (u : pyval) :
  parameter_fields r big fixed name →
  name ≠ "Type" → name ≠ "Parameter" →
  setitem r name u = Ok r' →
  parameter_fields r' big fixed name.
Proof.
  intros (Ht & Hp & v & Hv) N1 N2 H. unfold setitem, getattr in H.
  rewrite Hv in H. simpl in H. injection H as <-.
  unfold parameter_fields, setattr. simpl. rewrite !attr_get_set.
  apply String.eqb_neq in N1, N2. rewrite N1, N2, String.eqb_refl. eauto.
Qed.

Section Decoded.

Variable codec_decode : string → bytes → result (list N).

Lemma convert_member_fields (self : PCFCommand) (r r' : MQOpts) (big : bool)
    (fixed : bytes) (name : string) (expected : MQOpts → result pyval) :
  parameter_fields r big fixed name →
  name ≠ "Type" → name ≠ "Parameter" →
  convert_member codec_decode self r name expected = Ok r' →
  parameter_fields r' big fixed name.
Proof.
  intros Hf N1 N2 H. unfold convert_member in H.
  bind H as s Hs. bind H as u Hu. bind H as r1 Hr1. bind H as s1 Hs1.
  bind H as n Hn. bind H as e He.
  destruct (eq_int e n); [|discriminate]. injection H as <-.
  eapply setitem_fields; eauto.
Qed.

Lemma record_parameter_fields (st st' : bag_state) (s : MQOpts) (big : bool)
    (fixed : bytes) (name : string) :
  parameter_fields s big fixed name →
  record_parameter st s name = Ok st' →
  ∃ k v, long_at big fixed 2 = PInt k
         ∧ attr_get (attrs s) name = Some v
         ∧ st' = mkBag (<[k := v]> (pcf_dict st)) (pcf_structs st ++ [s]).
Proof.
  intros (Ht & Hp & v & Hv) H. unfold record_parameter, getitem, getattr in H.
  rewrite Hv, Hp in H. simpl in H. injection H as <-.
  eexists _, v. split; [reflexivity|]. split; [exact Hv | reflexivity].
Qed.

(** The structure a round appends, its type tag being [tag]. *)
Lemma round_structure (st st' : bag_state) (s : MQOpts) (big : bool)
    (new_buff fixed : bytes) (name : string) (tag : Z) :
  parameter_fields s big fixed name →
  take 4 fixed = take 4 new_buff →
  decode_long big (take 4 new_buff) = tag →
  value_member (PInt tag) = Some name →
  is_header_type (PInt tag) = false →
  record_parameter st s name = Ok st' →
  ∃ s k v, pcf_structs st' = pcf_structs st ++ [s]
           ∧ recorded s = Some (k, v)
           ∧ pcf_dict st' = <[k := v]> (pcf_dict st)
           ∧ is_header s = false.
Proof.
  intros Hf Htake Htag Hname Hhdr H.
  destruct (record_parameter_fields _ _ _ _ _ _ Hf H) as (k & v & Hk & Hv & ->).
  destruct Hf as (Ht & Hp & _). rewrite long_at_0, Htake, Htag in Ht.
  exists s, k, v. simpl. split; [reflexivity|]. split; [|split; [reflexivity|]].
  - eapply recorded_intro; eauto. rewrite Hk. reflexivity.
  - unfold is_header. rewrite Ht. exact Hhdr.
Qed.

Lemma take4_fixed {A} (l : list A) (n fixed : Z) :
  4 ≤ fixed → fixed ≤ len (slice_to l n) →
  take 4 (slice_to (slice_to l n) fixed) = take 4 l.
Proof.
  intros H4 Hlen. rewrite take4_slice_to.
  - apply take4_slice_to. lia.
  - rewrite len_slice_to. unfold clamp. destruct (fixed <? 0) eqn:E; lia.
Qed.

Lemma round_records (self : PCFCommand) (conv : bool) (st st' : bag_state)
    (new_buff rest : bytes) :
  unpack_parameter codec_decode self conv st new_buff = Ok (st', rest) →
  ∃ s k v, pcf_structs st' = pcf_structs st ++ [s]
           ∧ recorded s = Some (k, v)
           ∧ pcf_dict st' = <[k := v]> (pcf_dict st)
           ∧ is_header s = false.
Proof.
  unfold unpack_parameter. intros H.
  bind H as parm_type Htag. bind H as struc_len Hlen. bind H as n Hn.
  bind H as st1 Hst. injection H as <- _. clear Hlen Hn.
  apply unpack_long_tag in Htag as [H4 ->]. rewrite long_at_0 in Hst.
  rewrite take4_slice_to in Hst by lia.
  set (big := is_big_endian (Some (encoding self))) in *.
  destruct (eq_int _ MQCFT_INTEGER) eqn:T3.
  { apply eq_int_PInt in T3. bind Hst as o Ho. bind Hst as o' Ho'.
    pose proof (CFIN_size _ _ _ _ Ho Ho') as Hsize.
    eapply round_structure;
      [exact (CFIN_unpack_fields _ _ _ _ Ho Ho') | | exact T3 | reflexivity..
       | exact Hst].
    apply take4_slice_to. lia. }
  destruct (eq_int _ MQCFT_STRING) eqn:T4.
  { apply eq_int_PInt in T4. bind Hst as o Ho. bind Hst as o' Ho'.
    bind Hst as o'' Ho''.
    pose proof (CFST_size _ _ _ _ Ho Ho') as Hsize.
    pose proof (CFST_unpack_fields _ _ _ _ Ho Ho') as Hf.
    assert (parameter_fields o'' big
              (slice_to (slice_to new_buff n) MQCFST_STRUC_LENGTH_FIXED) "String")
      as Hf'.
    { destruct conv; [|injection Ho'' as <-; exact Hf].
      eapply convert_member_fields; [exact Hf | done | done | exact Ho'']. }
    eapply round_structure; [exact Hf' | | exact T4 | reflexivity.. | exact Hst].
    apply take4_fixed; [done | exact Hsize]. }
  destruct (eq_int _ MQCFT_INTEGER_LIST) eqn:T5.
  { apply eq_int_PInt in T5. bind Hst as o Ho. bind Hst as o' Ho'.
    pose proof (CFIL_size _ _ _ _ Ho Ho') as Hsize.
    eapply round_structure;
      [exact (CFIL_unpack_fields _ _ _ _ Ho Ho') | | exact T5 | reflexivity..
       | exact Hst].
    apply take4_fixed; [done | exact Hsize]. }
  destruct (eq_int _ MQCFT_STRING_LIST) eqn:T6.
  { apply eq_int_PInt in T6. bind Hst as o Ho. bind Hst as o' Ho'.
    bind Hst as o'' Ho''.
    pose proof (CFSL_size _ _ _ _ Ho Ho') as Hsize.
    pose proof (CFSL_unpack_fields _ _ _ _ Ho Ho') as Hf.
    assert (parameter_fields o'' big
              (slice_to (slice_to new_buff n) MQCFSL_STRUC_LENGTH_FIXED)
              "StringList") as Hf'.
    { destruct conv; [|injection Ho'' as <-; exact Hf].
      eapply convert_member_fields; [exact Hf | done | done | exact Ho'']. }
    eapply round_structure; [exact Hf' | | exact T6 | reflexivity.. | exact Hst].
    apply take4_fixed; [done | exact Hsize]. }
  destruct (eq_int _ MQCFT_BYTE_STRING) eqn:T9; [|discriminate].
  apply eq_int_PInt in T9. bind Hst as o Ho. bind Hst as o' Ho'.
  pose proof (CFBS_size _ _ _ _ Ho Ho') as Hsize.
  eapply round_structure;
    [exact (CFBS_unpack_fields _ _ _ _ Ho Ho') | | exact T9 | reflexivity..
     | exact Hst].
  apply take4_fixed; [done | exact Hsize].
Qed.


(** ** The parameter map of a bag *)

(** The two locals of the loop after it is done: the structures appended
    are parameter structures, and the map is folded over them. *)
Lemma unpack_loop_records (self : PCFCommand) (conv : bool) (fuel : nat) :
  ∀ st new_buff st',
    unpack_loop codec_decode fuel self conv st new_buff = Some (Ok st') →
    ∃ params, pcf_structs st' = pcf_structs st ++ params
              ∧ pcf_dict st' = foldl record (pcf_dict st) params
              ∧ Forall (λ s, is_header s = false ∧ is_Some (recorded s)) params.
Proof.
  induction fuel as [|fuel IH]; intros st new_buff st' H; [discriminate|].
  simpl in H.
  destruct (unpack_parameter _ _ _ _ _) as [[st1 rest]|e] eqn:E; [|discriminate].
  apply round_records in E as (s & k & v & Hs & Hr & Hd & Hh).
  assert (∃ params, pcf_structs st' = pcf_structs st1 ++ params
                    ∧ pcf_dict st' = foldl record (pcf_dict st1) params
                    ∧ Forall (λ s, is_header s = false ∧ is_Some (recorded s))
                        params) as (params & Hs' & Hd' & Hall).
  { destruct (len rest =? 0); [|eapply IH; exact H].
    injection H as <-. exists []. rewrite app_nil_r. auto. }
  exists (s :: params). rewrite Hs', Hd', Hs, Hd, <- app_assoc. simpl.
  split; [reflexivity|]. split.
  - unfold record at 3. rewrite Hr. reflexivity.
  - constructor; [|exact Hall]. split; [exact Hh | rewrite Hr; eauto].
Qed.

(** A structure that records nothing for [k] leaves the entry of [k]. *)
Lemma record_other (d : gmap Z pyval) (s : MQOpts) (k : Z) :
  (∀ v, recorded s ≠ Some (k, v)) → record d s !! k = d !! k.
Proof.
  intros H. unfold record. destruct (recorded s) as [[k' v']|]; [|reflexivity].
  apply lookup_insert_ne. intros ->. exact (H v' eq_refl).
Qed.

Lemma foldl_record_other (params : list MQOpts) (k : Z) :
  ∀ d, Forall (λ s, ∀ v, recorded s ≠ Some (k, v)) params →
       foldl record d params !! k = d !! k.
Proof.
  induction params as [|s params IH]; intros d H; [reflexivity|].
  inversion H; subst. simpl. rewrite IH by assumption. apply record_other.
  assumption.
Qed.

(** In the map of a list of structures the last occurrence of an id wins. *)
Lemma bag_map_last (params : list MQOpts) (d : gmap Z pyval) (i : nat)
    (s : MQOpts) (k : Z) (v : pyval) :
  params !! i = Some s →
  recorded s = Some (k, v) →
  (∀ j s' v', (i < j)%nat → params !! j = Some s' → recorded s' ≠ Some (k, v')) →
  foldl record d params !! k = Some v.
Proof.
  intros Hi Hr Hlater.
  rewrite <- (take_drop_middle params i s Hi), foldl_app. simpl.
  rewrite foldl_record_other.
  - unfold record at 1. rewrite Hr. apply lookup_insert_eq.
  - apply Forall_forall. intros s' Hin v' Hs'.
    apply list_elem_of_lookup in Hin as [j Hj].
    apply (Hlater (S i + j)%nat s' v'); [lia| |exact Hs'].
    rewrite lookup_drop in Hj. exact Hj.
Qed.

(** The response classifies parameter structures as [record] does. *)
Lemma classify_parameters (params : list MQOpts) :
  Forall (λ s, is_header s = false ∧ is_Some (recorded s)) params →
  ∀ hs h d, classify hs h d params = Ok (hs, h, foldl record d params).
Proof.
  induction 1 as [|s params [Hh [[k v] Hr]] _ IH]; intros hs h d; [reflexivity|].
  assert (record d s = <[k := v]> d) as Hrec
    by (unfold record; rewrite Hr; reflexivity).
  cbn [foldl classify]. rewrite Hrec, <- IH.
  unfold is_header in Hh. unfold recorded in Hr. unfold getitem, getattr.
  destruct (attr_get (attrs s) "Type") as [t|]; [|discriminate]. simpl in *.
  rewrite Hh. destruct (value_member t) as [name|]; [|discriminate]. simpl in *.
  destruct (attr_get (attrs s) name) as [v0|]; [|discriminate]. simpl in *.
  destruct (attr_get (attrs s) "Parameter") as [p|]; [|discriminate]. simpl in *.
  unfold dict_set, as_int.
  destruct (int_value p) as [k0|]; [|discriminate]. simpl in *.
  injection Hr as -> ->. reflexivity.
Qed.

Lemma unpack_bag_run_more (self : PCFCommand) (buff : option bytes) (conv : bool)
    (fuel fuel' : nat) (r : result (option bag_state)) :
  (fuel ≤ fuel')%nat →
  unpack_bag_run codec_decode fuel self buff conv = Some r →
  unpack_bag_run codec_decode fuel' self buff conv = Some r.
Proof.
  intros Hle. unfold unpack_bag_run. destruct buff as [buff|]; [|done].
  destruct (len buff =? 0); [done|].
  destruct (_ ≫= _) as [resp_cfh|e]; [|done].
  destruct (len (slice_from buff 36) =? 0); [done|].
  destruct (unpack_loop codec_decode fuel _ _ _ _) as [r0|] eqn:E; [|done].
  rewrite (unpack_loop_more codec_decode self conv fuel fuel' _ _ _ Hle E). done.
Qed.

(** C5: decoding one reply bag produces the ordered list of decoded
    structures, the header first, which is what [unpack_bag] returns, and
    a map from parameter id to decoded value.  The map is the one of the
    parameter structures in wire order: when a parameter id occurs more
    than once, the map holds the value of its last occurrence.  The
    response built from the bag classifies the same structures into the
    same map. *)
Theorem unpack_bag_last_wins (self : PCFCommand) (buff : option bytes)
    (conv : bool) (fuel : nat) (st : bag_state) :
  unpack_bag_run codec_decode fuel self buff conv = Some (Ok (Some st)) →
  ∃ resp_cfh params,
    pcf_structs st = resp_cfh :: params
    ∧ unpack_bag codec_decode self buff conv = Some (Ok (Some (resp_cfh :: params)))
    ∧ pcf_dict st = bag_map params
    ∧ (∀ i s k v,
         params !! i = Some s →
         recorded s = Some (k, v) →
         (∀ j s' v', (i < j)%nat → params !! j = Some s' →
                     recorded s' ≠ Some (k, v')) →
         pcf_dict st !! k = Some v)
    ∧ (∀ hs h d, classify hs h d params = Ok (hs, h, foldl record d params)).
Proof.
  intros H.
  assert (unpack_bag codec_decode self buff conv = Some (Ok (Some (pcf_structs st))))
    as Hbag.
  { destruct (unpack_bag_run_done codec_decode self buff conv) as [r Hr].
    pose proof (unpack_bag_run_more self buff conv _ (Nat.max fuel (rounds buff))
                  _ (Nat.le_max_l _ _) H) as Ha.
    rewrite (Hr _ (Nat.le_max_r _ _)) in Ha. injection Ha as ->.
    unfold unpack_bag. rewrite (Hr (rounds buff)) by lia. reflexivity. }
  unfold unpack_bag_run in H. destruct buff as [buff|]; [|discriminate].
  destruct (len buff =? 0); [discriminate|].
  destruct (_ ≫= _) as [resp_cfh|e]; [|discriminate].
  assert (∃ params, pcf_structs st = resp_cfh :: params
                    ∧ pcf_dict st = foldl record ∅ params
                    ∧ Forall (λ s, is_header s = false ∧ is_Some (recorded s))
                        params) as (params & Hs & Hd & Hall).
  { destruct (len (slice_from buff 36) =? 0).
    - injection H as <-. exists []. auto.
    - destruct (unpack_loop _ _ _ _ _ _) as [[st'|e]|] eqn:E; try discriminate.
      injection H as <-. apply unpack_loop_records in E. exact E. }
  exists resp_cfh, params. rewrite Hs in Hbag.
  split; [exact Hs|]. split; [exact Hbag|]. split; [exact Hd|]. split.
  - intros i s k v Hi Hr Hlater. rewrite Hd.
    eapply bag_map_last; eassumption.
  - apply classify_parameters. exact Hall.
Qed.

End Decoded.

(** The conditions of [unpack_bag_last_wins] hold on [duplicate_reply]: the
    id 5 occurs with the value 1 and then with the value 2, and the map
    holds 2. *)
Lemma unpack_bag_last_wins_witness :
  ∃ st, unpack_bag_run latin1_decode 2 native_cmd (Some duplicate_reply) false
        = Some (Ok (Some st))
        ∧ length (pcf_structs st) = 3%nat
        ∧ pcf_dict st !! 5 = Some (PInt 2).
Proof.
  assert (∃ st, unpack_bag_run latin1_decode 2 native_cmd (Some duplicate_reply) false
                = Some (Ok (Some st))) as [st Hst]
    by (vm_compute; eexists; reflexivity).
  exists st. split; [exact Hst|].
  destruct (unpack_bag_last_wins latin1_decode native_cmd (Some duplicate_reply)
              false 2 st Hst) as (resp_cfh & params & Hs & _ & _ & Hlast & _).
  vm_compute in Hst. injection Hst as <-. injection Hs as <- <-.
  split; [reflexivity|].
  apply (Hlast 1%nat _ 5 (PInt 2) eq_refl eq_refl).
  intros [|[|[|j]]] s' v' Hj Hs'; try lia; discriminate Hs'.
Defined.

(** The condition of [response_classification] holds on [three_bags]: the
    response has the three maps in the order of receipt, and its canonical
    header is the first of its three headers. *)
Lemma response_classification_witness :
  ∃ r, new_PCFCommandResponse three_bags = Ok r
       ∧ parms r = [{[5 := PInt 9]}; {[5 := PInt 9]}; {[5 := PInt 10]}]
       ∧ length (headers r) = 3%nat
       ∧ header r = head (headers r).
Proof.
  assert (∃ r, new_PCFCommandResponse three_bags = Ok r) as [r Hr]
    by (vm_compute; eexists; reflexivity).
  exists r. split; [exact Hr|].
  destruct (response_classification three_bags r Hr) as (_ & Hh & Hc & _ & H3).
  split; [|split; [|exact Hc]].
  - assert (∃ b1 b2 b3, three_bags = [b1; b2; b3]) as (b1 & b2 & b3 & E)
      by (vm_compute; do 3 eexists; reflexivity).
    rewrite (H3 b1 b2 b3 E); vm_compute in E; injection E as <- <- <-;
      try (vm_compute; reflexivity);
      intros Hm; apply (f_equal (λ m : gmap Z pyval, m !! 5)) in Hm;
      vm_compute in Hm; discriminate Hm.
  - rewrite Hh. vm_compute. reflexivity.
Defined.

(** C8 as stated fails on a batch of three bags that consist of a header
    each, the third with the control flag LAST: the response has three
    headers and no parameter map. *)
Lemma header_only_batch_has_no_maps :
  shape (execute_command latin1_decode latin1_encode native_cmd
           (PInt MQCMD_INQUIRE_Q_MGR) [] (delivering header_only_replies))
  = Some (Ok (3%nat, 3%nat, 0%nat)).
Proof. vm_compute. reflexivity. Qed.


(** ** Structure lengths after encoding *)

Lemma len_app {A} (l k : list A) : len (l ++ k) = len l + len k.
Proof. unfold len. rewrite length_app. lia. Qed.

Lemma len_encode_long (big : bool) (z : Z) : len (encode_long big z) = 4.
Proof. destruct big; reflexivity. Qed.

Lemma pack_items_longs (big : bool) (vals : list pyval) :
  Forall is_long vals →
  ∀ (acc : bytes) (j : Z), len acc = 4 * j →
  ∃ bs, pack_items big (replicate (length vals) FLong) vals acc = Ok bs
        ∧ len bs = len acc + 4 * len vals.
Proof.
  induction 1 as [|v vals (z & Hz & Hr) _ IH]; intros acc j Hacc.
  - exists acc. split; [reflexivity|]. unfold len at 3. simpl. lia.
  - cbn [length replicate pack_items]. rewrite Hz.
    assert ((-2147483648 <=? z) && (z <? 2147483648) = true) as -> by lia.
    rewrite Hacc, padding_aligned. cbn [Z.to_nat replicate app].
    destruct (IH (acc ++ encode_long big z) (j + 1)) as (bs & Hbs & Hl).
    { rewrite len_app, len_encode_long. lia. }
    exists bs. split; [exact Hbs|].
    rewrite Hl, len_app, len_encode_long. unfold len in *. cbn [length]. lia.
Qed.

Lemma pack_integers_length (encoding : option Z) (vals : list pyval) :
  Forall is_long vals →
  ∃ bs, pack_integers encoding vals = Ok bs ∧ len bs = 4 * len vals.
Proof.
  intros H. unfold pack_integers, struct_pack.
  assert (byte_order ((if is_big_endian encoding then [FGt] else [])
                        ++ replicate (length vals) FLong)
          = (is_big_endian encoding, replicate (length vals) FLong)) as ->.
  { destruct (is_big_endian encoding); [reflexivity|].
    destruct (length vals); reflexivity. }
  assert (forallb item_ok (replicate (length vals) FLong) = true) as ->
    by (induction (length vals); simpl; auto).
  destruct (pack_items_longs (is_big_endian encoding) vals H [] 0 eq_refl)
    as (bs & Hbs & Hl).
  exists bs. split; [exact Hbs|]. rewrite Hl. reflexivity.
Qed.

(** *** [CFIL.add_integer] *)

Lemma add_integer_first (p v : pyval) (encoding : option Z) (o : MQOpts) :
  CFIL [("Parameter", p)] = Ok o →
  add_integer o v encoding
  = (bs ← pack_integers encoding [v]; Ok (CFIL_object p 1 bs [v])).
Proof.
  intros Ho. vm_compute in Ho. injection Ho as <-.
  unfold add_integer, pack_integers.
  destruct (is_big_endian encoding); lazy -[struct_pack]; reflexivity.
Qed.

Lemma add_integer_next (p : pyval) (n : Z) (bs : bytes) (ints : list pyval)
    (v : pyval) (encoding : option Z) :
  add_integer (CFIL_object p n bs ints) v encoding
  = (bs' ← pack_integers encoding (ints ++ [v]);
     Ok (CFIL_object p (n + 1) bs' (ints ++ [v]))).
Proof.
  unfold add_integer, pack_integers.
  destruct (is_big_endian encoding); lazy -[struct_pack]; reflexivity.
Qed.

Lemma add_integers_object (encoding : option Z) (vals : list pyval) :
  Forall is_long vals →
  ∀ (p : pyval) (bs : bytes) (ints : list pyval),
    Forall is_long ints → len bs = 4 * len ints →
    ∃ bs', add_integers (CFIL_object p (len ints) bs ints) vals encoding
           = Ok (CFIL_object p (len (ints ++ vals)) bs' (ints ++ vals))
           ∧ len bs' = 4 * len (ints ++ vals).
Proof.
  induction 1 as [|v vals Hv Hvals IH]; intros p bs ints Hints Hbs.
  - exists bs. rewrite app_nil_r. split; [reflexivity|exact Hbs].
  - cbn [add_integers]. rewrite add_integer_next.
    assert (Forall is_long (ints ++ [v])) as Hall
      by (apply Forall_app; split; [exact Hints|constructor; [exact Hv|constructor]]).
    destruct (pack_integers_length encoding _ Hall) as (bs1 & -> & Hl).
    cbn [mbind result_bind].
    replace (len ints + 1) with (len (ints ++ [v]))
      by (rewrite len_app; reflexivity).
    destruct (IH p bs1 (ints ++ [v]) Hall Hl) as (bs' & Hbs' & Hl').
    rewrite <- app_assoc in Hbs', Hl'. exists bs'. split; assumption.
Qed.

Lemma CFIL_object_invariant (p : pyval) (bs : bytes) (ints : list pyval) :
  len bs = 4 * len ints →
  length_invariant (CFIL_object p (len ints) bs ints) MQCFIL_STRUC_LENGTH_FIXED
    "IntegerList"
  ∧ attr_get (attrs (CFIL_object p (len ints) bs ints)) "Count" = Some (PInt (len ints))
  ∧ payload_length (CFIL_object p (len ints) bs ints) "IntegerList" = 4 * len ints.
Proof.
  intros H. unfold length_invariant.
  assert (payload_length (CFIL_object p (len ints) bs ints) "IntegerList" = len bs)
    as -> by reflexivity.
  rewrite H. repeat split; reflexivity.
Qed.

Lemma add_integers_invariant (p : pyval) (encoding : option Z) (vals : list pyval)
    (o : MQOpts) :
  CFIL [("Parameter", p)] = Ok o → Forall is_long vals →
  ∃ o', add_integers o vals encoding = Ok o'
        ∧ length_invariant o' MQCFIL_STRUC_LENGTH_FIXED "IntegerList"
        ∧ attr_get (attrs o') "Count" = Some (PInt (len vals))
        ∧ payload_length o' "IntegerList" = 4 * len vals.
Proof.
  intros Ho Hvals. destruct Hvals as [|v vals Hv Hvals].
  - exists o. vm_compute in Ho. injection Ho as <-.
    split; [reflexivity|]. repeat split; reflexivity.
  - cbn [add_integers]. rewrite (add_integer_first p v encoding o Ho).
    assert (Forall is_long [v]) as H1 by (constructor; [exact Hv|constructor]).
    destruct (pack_integers_length encoding _ H1) as (bs1 & -> & Hl).
    cbn [mbind result_bind].
    destruct (add_integers_object encoding vals Hvals p bs1 [v] H1 Hl)
      as (bs' & Hbs' & Hl').
    change 1 with (len [v]) at 1. rewrite Hbs'. eexists. split; [reflexivity|].
    apply CFIL_object_invariant. exact Hl'.
Qed.

(** *** [CFSL.add_string] *)

Lemma add_slot_same_length (self : MQOpts) (acc s : bytes) :
  getitem self "StringLength" = Ok (PInt (len s)) →
  add_slot self (PStr acc) (PStr s) = Ok (PStr (acc ++ s)).
Proof.
  intros H. unfold add_slot. rewrite H.
  cbv [py_len as_int int_value mbind result_bind]. rewrite Z.ltb_irrefl.
  rewrite Z.ltb_irrefl. reflexivity.
Qed.

Lemma join_slots_same_length (self : MQOpts) (w : Z) (strs : list bytes) :
  getitem self "StringLength" = Ok (PInt w) →
  Forall (λ s, len s = w) strs →
  ∀ acc, join_slots self (PStr <$> strs) (PStr acc) = Ok (PStr (acc ++ concat strs)).
Proof.
  intros Hw. induction 1 as [|s strs Hs _ IH]; intros acc.
  - cbn. rewrite app_nil_r. reflexivity.
  - cbn [fmap list_fmap join_slots]. subst w.
    rewrite (add_slot_same_length self acc s Hw). cbn [mbind result_bind].
    fold (fmap PStr strs). rewrite IH. cbn [concat]. rewrite app_assoc. reflexivity.
Qed.

(** Runs the operations on objects on the arguments that are known. *)
Ltac run_methods :=
  cbn [mbind result_bind mret result_ret getitem getattr setitem setattr hasattr
       attr_get attr_set MQOpts__list MQOpts__format attrs integer_list string_list
       append_string py_add py_mul py_len int_value as_int fmt_is
       apply_opts MQOpts_get get_members MQOpts_init MQOpts_set
       m_name m_default m_fmt fmap list_fmap foldl app concat
       String.eqb Ascii.eqb Bool.eqb fst snd orb].

Lemma add_string_first (p c : pyval) (s : bytes) (o : MQOpts) :
  CFSL [("Parameter", p); ("CodedCharSetId", c)] = Ok o →
  add_string o (PStr s) = Ok (CFSL_object p c (len s) 1 [s]).
Proof.
  intros Ho. vm_compute in Ho. injection Ho as <-.
  unfold add_string, CFSL_object. run_methods.
  change (eq_int (PInt 0) 0) with true. run_methods.
  change [PStr s] with (PStr <$> [s]).
  rewrite (join_slots_same_length _ (len s) [s]);
    [ | reflexivity | repeat constructor ].
  run_methods. reflexivity.
Qed.

Lemma add_string_next (p c : pyval) (n : Z) (strs : list bytes) (s : bytes) :
  Forall (λ x, len x = len s) strs →
  add_string (CFSL_object p c (len s) n strs) (PStr s)
  = Ok (CFSL_object p c (len s) (n + 1) (strs ++ [s])).
Proof.
  intros H. unfold add_string, CFSL_object. run_methods.
  destruct (eq_int (PInt (len s)) 0); run_methods;
    replace ((PStr <$> strs) ++ [PStr s]) with (PStr <$> (strs ++ [s]))
      by (rewrite fmap_app; reflexivity);
    (rewrite (join_slots_same_length _ (len s) (strs ++ [s]));
     [ | reflexivity | apply Forall_app; split; [exact H|repeat constructor] ]);
    rewrite fmap_app; reflexivity.
Qed.

Lemma len_concat_same_length (w : Z) (strs : list bytes) :
  Forall (λ s, len s = w) strs → len (concat strs) = w * len strs.
Proof.
  induction 1 as [|s strs Hs _ IH]; [unfold len; simpl; lia|].
  cbn [concat]. rewrite len_app, IH, Hs. unfold len. cbn [length]. lia.
Qed.

Lemma CFSL_object_invariant (p c : pyval) (w : Z) (strs : list bytes) :
  Forall (λ s, len s = w) strs →
  length_invariant (CFSL_object p c w (len strs) strs) MQCFSL_STRUC_LENGTH_FIXED
    "StringList"
  ∧ attr_get (attrs (CFSL_object p c w (len strs) strs)) "Count" = Some (PInt (len strs))
  ∧ payload_length (CFSL_object p c w (len strs) strs) "StringList" = w * len strs.
Proof.
  intros H. unfold length_invariant.
  assert (payload_length (CFSL_object p c w (len strs) strs) "StringList"
          = len (concat strs)) as -> by reflexivity.
  rewrite (len_concat_same_length w strs H). repeat split; reflexivity.
Qed.

(** *** [CFST.set_string] *)

Lemma set_string_again (p c : pyval) (s t : bytes) (o : MQOpts) :
  CFST [("Parameter", p); ("CodedCharSetId", c)] = Ok o → len s ≠ 0 →
  ∃ o1 o2, set_string o (PStr s) = Ok o1
           ∧ length_invariant o1 MQCFST_STRUC_LENGTH_FIXED "String"
           ∧ attr_get (attrs o1) "String" = Some (PStr s)
           ∧ set_string o1 (PStr t) = Ok o2
           ∧ attr_get (attrs o2) "StrucLength"
             = Some (PInt (MQCFST_STRUC_LENGTH_FIXED + len s))
           ∧ attr_get (attrs o2) "StringLength" = Some (PInt (len t))
           ∧ attr_get (attrs o2) "String" = Some (PStr s).
Proof.
  intros Ho Hs. vm_compute in Ho. injection Ho as <-.
  eexists. eexists. split.
  { unfold set_string. run_methods.
    change (eq_int (PInt 20) MQCFST_STRUC_LENGTH_FIXED || eq_int (PInt 20) 0)
      with true.
    run_methods. reflexivity. }
  split; [reflexivity|]. split; [reflexivity|]. split.
  { unfold set_string. run_methods.
    match goal with
    | |- context [if ?c then _ else _] =>
        assert (c = false) as ->
          by (pose proof (len_nonneg s);
              unfold eq_int, MQCFST_STRUC_LENGTH_FIXED; cbn [int_value]; lia)
    end.
    run_methods. reflexivity. }
  repeat split; reflexivity.
Qed.

Lemma set_string_after_empty (p c : pyval) (t : bytes) (o : MQOpts) :
  CFST [("Parameter", p); ("CodedCharSetId", c)] = Ok o →
  ∃ o1 o2, set_string o (PStr []) = Ok o1
           ∧ length_invariant o1 MQCFST_STRUC_LENGTH_FIXED "String"
           ∧ attr_get (attrs o1) "String" = Some (PStr [])
           ∧ set_string o1 (PStr t) = Ok o2
           ∧ attr_get (attrs o2) "StrucLength"
             = Some (PInt (MQCFST_STRUC_LENGTH_FIXED + len t))
           ∧ attr_get (attrs o2) "StringLength" = Some (PInt (len t))
           ∧ attr_get (attrs o2) "String" = Some (PStr []).
Proof.
  intros Ho. vm_compute in Ho. injection Ho as <-.
  eexists. eexists. split.
  { unfold set_string. run_methods.
    change (eq_int (PInt 20) MQCFST_STRUC_LENGTH_FIXED || eq_int (PInt 20) 0)
      with true.
    run_methods. reflexivity. }
  split; [reflexivity|]. split; [reflexivity|]. split.
  { unfold set_string. run_methods.
    match goal with
    | |- context [if ?c then _ else _] => change c with true
    end.
    run_methods. reflexivity. }
  repeat split; reflexivity.
Qed.

(** *** [CFST.unpack] *)

Lemma CFST_unpack_keeps_declared (o o' : MQOpts) (buff : bytes)
    (encoding : option Z) (declared : Z) :
  CFST [] = Ok o → CFST_unpack o buff encoding = Ok o' →
  long_at (is_big_endian encoding) (slice_to buff MQCFST_STRUC_LENGTH_FIXED) 1
  = PInt declared →
  declared ≠ MQCFST_STRUC_LENGTH_FIXED → declared ≠ 0 →
  attr_get (attrs o') "StrucLength" = Some (PInt declared).
Proof.
  intros Ho H Hd H20 H0. unfold CFST, MQOpts_init in Ho. simpl in Ho.
  injection Ho as <-.
  assert (eq_int (PInt declared) MQCFST_STRUC_LENGTH_FIXED = false) as E20
    by (unfold eq_int; cbn [int_value]; lia).
  assert (eq_int (PInt declared) 0 = false) as E0
    by (unfold eq_int; cbn [int_value]; lia).
  unfold CFST_unpack in H. bind H as o1 Ho1.
  unpack_longs Ho1 5%nat; rewrite Hd in H; abstract_buffer; exec;
    try reflexivity;
    match goal with
    | H : _ || _ = true |- _ => rewrite E20, E0 in H; discriminate H
    end.
Qed.

Section Encoder.

Variable codec_encode : string → list N → result bytes.

Lemma add_strings_object (w : Z) (vals : list bytes) :
  Forall (λ s, len s = w) vals →
  ∀ (p c : pyval) (strs : list bytes),
    Forall (λ s, len s = w) strs →
    add_strings codec_encode (CFSL_object p c w (len strs) strs) (PStr <$> vals) None
    = Ok (CFSL_object p c w (len (strs ++ vals)) (strs ++ vals)).
Proof.
  induction 1 as [|s vals Hs Hvals IH]; intros p c strs Hstrs.
  - rewrite app_nil_r. reflexivity.
  - cbn [fmap list_fmap add_strings mbind result_bind]. subst w.
    rewrite add_string_next by exact Hstrs. cbn [mbind result_bind].
    replace (len strs + 1) with (len (strs ++ [s]))
      by (rewrite len_app; reflexivity).
    fold (fmap PStr vals). rewrite IH, <- app_assoc; [reflexivity|].
    apply Forall_app. split; [exact Hstrs|repeat constructor].
Qed.

Lemma add_strings_invariant (p c : pyval) (w : Z) (vals : list bytes) (o : MQOpts) :
  CFSL [("Parameter", p); ("CodedCharSetId", c)] = Ok o →
  Forall (λ s, len s = w) vals →
  ∃ o', add_strings codec_encode o (PStr <$> vals) None = Ok o'
        ∧ length_invariant o' MQCFSL_STRUC_LENGTH_FIXED "StringList"
        ∧ attr_get (attrs o') "Count" = Some (PInt (len vals))
        ∧ payload_length o' "StringList" = w * len vals.
Proof.
  intros Ho Hvals. destruct Hvals as [|s vals Hs Hvals].
  - exists o. vm_compute in Ho. injection Ho as <-.
    split; [reflexivity|]. rewrite Z.mul_0_r. repeat split; reflexivity.
  - cbn [fmap list_fmap add_strings mbind result_bind].
    rewrite (add_string_first p c s o Ho). cbn [mbind result_bind].
    fold (fmap PStr vals). subst w.
    assert (Forall (λ x, len x = len s) [s]) as H1 by repeat constructor.
    change 1 with (len [s]) at 1.
    rewrite (add_strings_object (len s) vals Hvals p c [s] H1).
    eexists. split; [reflexivity|].
    apply CFSL_object_invariant.
    apply (proj2 (Forall_app _ [s] vals)). split; assumption.
Qed.

(** C2: for the structures [pack_bag] builds without conversion, a [CFST]
    from a byte string, a [CFIL] from a list of 32-bit integers that is not
    empty and a [CFSL] from a list of byte strings of one length that is
    not empty, [StrucLength] is the fixed width of the variant plus the byte
    length of the variable payload, and [Count] is the number of elements.
    A second [set_string] on the same [CFST] sets [StringLength] only:
    [String] keeps the first value, and so does [StrucLength] unless the
    first string was empty.  Decoding does not compare the two sides:
    [CFST.unpack] keeps a declared [StrucLength] other than 20 and 0. *)
Theorem struc_length_after_encode (self : PCFCommand) (parm : pyval) :
  (∀ s t : bytes, ∃ o1 o2,
      make_parameter codec_encode self None parm (PStr s) = Ok (Some o1)
      ∧ length_invariant o1 MQCFST_STRUC_LENGTH_FIXED "String"
      ∧ attr_get (attrs o1) "String" = Some (PStr s)
      ∧ set_string o1 (PStr t) = Ok o2
      ∧ attr_get (attrs o2) "StrucLength"
        = Some (PInt (MQCFST_STRUC_LENGTH_FIXED
                      + (if len s =? 0 then len t else len s)))
      ∧ attr_get (attrs o2) "StringLength" = Some (PInt (len t))
      ∧ attr_get (attrs o2) "String" = Some (PStr s))
  ∧ (∀ ints : list pyval, ints ≠ [] → Forall is_long ints →
       ∃ o, make_parameter codec_encode self None parm (PList ints) = Ok (Some o)
            ∧ length_invariant o MQCFIL_STRUC_LENGTH_FIXED "IntegerList"
            ∧ attr_get (attrs o) "Count" = Some (PInt (len ints))
            ∧ payload_length o "IntegerList" = 4 * len ints)
  ∧ (∀ (w : Z) (strs : list bytes), strs ≠ [] → Forall (λ s, len s = w) strs →
       ∃ o, make_parameter codec_encode self None parm (PList (PStr <$> strs))
            = Ok (Some o)
            ∧ length_invariant o MQCFSL_STRUC_LENGTH_FIXED "StringList"
            ∧ attr_get (attrs o) "Count" = Some (PInt (len strs))
            ∧ payload_length o "StringList" = w * len strs)
  ∧ (∀ (buff : bytes) (o o' : MQOpts) (declared : Z),
       CFST [] = Ok o → CFST_unpack o buff (Some (encoding self)) = Ok o' →
       long_at (is_big_endian (Some (encoding self)))
         (slice_to buff MQCFST_STRUC_LENGTH_FIXED) 1 = PInt declared →
       declared ≠ MQCFST_STRUC_LENGTH_FIXED → declared ≠ 0 →
       attr_get (attrs o') "StrucLength" = Some (PInt declared)).
Proof.
  split; [|split; [|split]].
  - intros s t.
    assert (∃ o, CFST [("Parameter", parm); ("CodedCharSetId", PInt (ccsid self))]
                 = Ok o) as [o Ho] by (eexists; reflexivity).
    assert (∀ o1, set_string o (PStr s) = Ok o1 →
                  make_parameter codec_encode self None parm (PStr s) = Ok (Some o1))
      as Hmake.
    { intros o1 H1. vm_compute in Ho. injection Ho as <-.
      exact (f_equal (λ r, r ≫= (λ cf_p, Ok (Some cf_p))) H1). }
    destruct (Z.eqb_spec (len s) 0) as [E|E].
    + destruct s; [|discriminate E].
      destruct (set_string_after_empty _ _ t o Ho) as (o1 & o2 & H1 & H).
      exists o1, o2. split; [exact (Hmake o1 H1)|exact H].
    + destruct (set_string_again _ _ s t o Ho E) as (o1 & o2 & H1 & H).
      exists o1, o2. split; [exact (Hmake o1 H1)|exact H].
  - intros ints Hne Hall.
    assert (∃ o, CFIL [("Parameter", parm)] = Ok o) as [o Ho]
      by (eexists; reflexivity).
    destruct (add_integers_invariant parm (Some (encoding self)) ints o Ho Hall)
      as (o' & Ho' & H).
    exists o'. split; [|exact H].
    destruct Hall as [|v ints (z & Hz & _) Hall]; [done|].
    unfold make_parameter.
    assert (is_int v = true) as -> by (destruct v; try discriminate Hz; reflexivity).
    vm_compute in Ho. injection Ho as <-.
    exact (f_equal (λ r, r ≫= (λ cf_p, Ok (Some cf_p))) Ho').
  - intros w strs Hne Hall.
    assert (∃ o, CFSL [("Parameter", parm); ("CodedCharSetId", PInt (ccsid self))]
                 = Ok o) as [o Ho] by (eexists; reflexivity).
    destruct (add_strings_invariant parm (PInt (ccsid self)) w strs o Ho Hall)
      as (o' & Ho' & H).
    exists o'. split; [|exact H].
    destruct strs as [|s strs]; [done|].
    vm_compute in Ho. injection Ho as <-.
    exact (f_equal (λ r, r ≫= (λ cf_p, Ok (Some cf_p))) Ho').
  - intros buff o o'. apply CFST_unpack_keeps_declared.
Qed.

End Encoder.

(** The conditions of [struc_length_after_encode] hold for the integers 7
    and 8, for the strings [ab] and [cd], and for [mismatched_parameter],
    whose declared length of 100 is kept. *)
Lemma struc_length_after_encode_witness :
  (∃ o, make_parameter latin1_encode native_cmd None (PInt 1) (PList [PInt 7; PInt 8])
        = Ok (Some o)
        ∧ attr_get (attrs o) "StrucLength" = Some (PInt 24)
        ∧ payload_length o "IntegerList" = 8)
  ∧ (∃ o, make_parameter latin1_encode native_cmd None (PInt 1)
            (PList [b "ab"; b "cd"]) = Ok (Some o)
          ∧ attr_get (attrs o) "StrucLength" = Some (PInt 28)
          ∧ payload_length o "StringList" = 4)
  ∧ ∃ o', (o ← CFST []; CFST_unpack o mismatched_parameter (Some MQENC_NATIVE)) = Ok o'
          ∧ attr_get (attrs o') "StrucLength" = Some (PInt 100)
          ∧ payload_length o' "String" = 3.
Proof.
  destruct (struc_length_after_encode latin1_encode native_cmd (PInt 1))
    as (_ & Hints & Hstrs & Hdecode).
  split; [|split].
  - destruct (Hints [PInt 7; PInt 8]) as (o & Ho & Hl & _ & Hp).
    + discriminate.
    + repeat (constructor; [eexists; split; [reflexivity|lia]|]). constructor.
    + exists o. unfold length_invariant in Hl. rewrite Hp in Hl.
      split; [exact Ho|]. split; [exact Hl|exact Hp].
  - destruct (Hstrs 2 [String.list_byte_of_string "ab"; String.list_byte_of_string "cd"])
      as (o & Ho & Hl & _ & Hp).
    + discriminate.
    + repeat (constructor; [reflexivity|]). constructor.
    + exists o. unfold length_invariant in Hl. rewrite Hp in Hl.
      split; [exact Ho|]. split; [exact Hl|exact Hp].
  - assert (∃ o, CFST [] = Ok o) as [o Ho] by (eexists; reflexivity).
    assert (∃ o', CFST_unpack o mismatched_parameter (Some MQENC_NATIVE) = Ok o')
      as [o' Ho'] by (vm_compute in Ho; injection Ho as <-; vm_compute;
                      eexists; reflexivity).
    exists o'. split; [rewrite Ho; exact Ho'|]. split.
    + apply (Hdecode mismatched_parameter o o' 100 Ho Ho');
        [reflexivity|discriminate|discriminate].
    + vm_compute in Ho. injection Ho as <-. vm_compute in Ho'.
      injection Ho' as <-. reflexivity.
Defined.

(** Against C2 as stated: after [set_string] with [abc] and then with
    [abcde] the structure has the [StrucLength] 23 and the [StringLength]
    5, and it packs into 28 bytes, eight of them payload; and [unpack_bag]
    decodes [mismatched_reply], a string parameter of 23 bytes that
    declares a [StrucLength] of 100, and keeps the declared length. *)
Lemma repeated_set_string_breaks_struc_length :
  set_string_twice (b "abc") (b "abcde") (Some MQENC_NATIVE)
  = Ok (PInt 23, PInt 5, 28)
  ∧ len mismatched_parameter = 23
  ∧ struc_lengths (unpack_bag latin1_decode native_cmd (Some mismatched_reply) false)
    = [Some (PInt 36); Some (PInt 100)].
Proof. repeat split; vm_compute; reflexivity. Qed.


(** * Further properties of the module *)

(** ** Attributes and members *)

Lemma attr_get_set_eq (a : attr_dict) (k : string) (v : pyval) :
  attr_get (attr_set a k v) k = Some v.
Proof.
  induction a as [|[k' x] a IH]; simpl.
  - rewrite String.eqb_refl. reflexivity.
  - destruct (String.eqb k' k) eqn:E; simpl; rewrite E; [reflexivity|exact IH].
Qed.

Lemma attr_get_set_ne (a : attr_dict) (k k' : string) (v : pyval) :
  k ≠ k' → attr_get (attr_set a k v) k' = attr_get a k'.
Proof.
  intros Hne. induction a as [|[k0 x] a IH]; simpl.
  - destruct (String.eqb k k') eqn:E; [apply String.eqb_eq in E; contradiction|].
    reflexivity.
  - destruct (String.eqb k0 k) eqn:E; simpl.
    + apply String.eqb_eq in E. subst k0.
      destruct (String.eqb k k') eqn:E'; [apply String.eqb_eq in E'; contradiction|].
      reflexivity.
    + destruct (String.eqb k0 k'); [reflexivity|exact IH].
Qed.

Lemma attr_set_keeps (a : attr_dict) (k k' : string) (v : pyval) :
  is_Some (attr_get a k') → is_Some (attr_get (attr_set a k v) k').
Proof.
  intros H. destruct (decide (k = k')) as [->|Hne].
  - rewrite attr_get_set_eq. eauto.
  - rewrite attr_get_set_ne by exact Hne. exact H.
Qed.

Lemma get_members_Ok (self : MQOpts) (l : list member) (d : list (string * pyval)) :
  get_members self l = Ok d →
  has_members (attrs self) l ∧ d.*1 = m_name <$> l.
Proof.
  revert d. induction l as [|m l IH]; intros d H; simpl in H.
  - injection H as <-. split; [constructor|reflexivity].
  - unfold getattr in H. destruct (attr_get (attrs self) (m_name m)) as [v|] eqn:E;
      [|discriminate]. simpl in H.
    destruct (get_members self l) as [d'|] eqn:E'; [|discriminate]. simpl in H.
    injection H as <-. destruct (IH d' eq_refl) as [Hall Hd].
    split; [constructor; [rewrite E; eauto|exact Hall]|]. simpl. f_equal. exact Hd.
Qed.

Lemma get_members_has (self : MQOpts) (l : list member) :
  has_members (attrs self) l →
  ∃ d, get_members self l = Ok d ∧ d.*1 = m_name <$> l.
Proof.
  induction 1 as [|m l [v Hv] _ (d & Hd & Hk)]; simpl.
  - exists []. split; reflexivity.
  - unfold getattr. rewrite Hv. simpl. rewrite Hd. simpl.
    eexists. split; [reflexivity|]. simpl. f_equal. exact Hk.
Qed.

Lemma MQOpts_set_has (kw : list (string * pyval)) :
  ∀ self : MQOpts,
    Forall (λ k, is_Some (attr_get (attrs self) k)) kw.*1 →
    ∃ self', MQOpts_set self kw = Ok self'
             ∧ MQOpts__list self' = MQOpts__list self
             ∧ MQOpts__format self' = MQOpts__format self
             ∧ ∀ k, is_Some (attr_get (attrs self) k) →
                    is_Some (attr_get (attrs self') k).
Proof.
  induction kw as [|[k v] kw IH]; intros self H; simpl.
  - exists self. repeat split; auto.
  - simpl in H. apply Forall_cons in H as [[x Hx] H].
    unfold getattr. rewrite Hx. simpl.
    destruct (IH (setattr self k v)) as (self' & Hs & Hl & Hf & Hk).
    { eapply Forall_impl; [exact H|]. intros k' Hk'. simpl.
      apply attr_set_keeps. exact Hk'. }
    exists self'. split; [exact Hs|]. split; [exact Hl|]. split; [exact Hf|].
    intros k' Hk'. apply Hk. simpl. apply attr_set_keeps. exact Hk'.
Qed.

Lemma MQOpts_set_Ok (kw : list (string * pyval)) :
  ∀ self self' : MQOpts,
    MQOpts_set self kw = Ok self' →
    MQOpts__list self' = MQOpts__list self
    ∧ MQOpts__format self' = MQOpts__format self
    ∧ ∀ k, is_Some (attr_get (attrs self) k) → is_Some (attr_get (attrs self') k).
Proof.
  induction kw as [|[k v] kw IH]; intros self self' H; simpl in H.
  - injection H as <-. auto.
  - unfold getattr in H. destruct (attr_get (attrs self) k); [|discriminate].
    simpl in H. apply IH in H as (Hl & Hf & Hk).
    split; [exact Hl|]. split; [exact Hf|].
    intros k' Hk'. apply Hk. simpl. apply attr_set_keeps. exact Hk'.
Qed.

Lemma defaults_keep (l : list member) :
  ∀ (a : attr_dict) (k : string),
    is_Some (attr_get a k) →
    is_Some (attr_get (foldl (λ a m, attr_set a (m_name m) (m_default m)) a l) k).
Proof.
  induction l as [|m l IH]; intros a k H; simpl; [exact H|].
  apply IH. apply attr_set_keeps. exact H.
Qed.

Lemma has_members_names (a : attr_dict) (l l' : list member) :
  m_name <$> l = m_name <$> l' → has_members a l → has_members a l'.
Proof.
  unfold has_members. intros Hn H.
  assert (Forall (λ k, is_Some (attr_get a k)) (m_name <$> l)) as H'
    by exact (proj2 (Forall_fmap m_name (λ k, is_Some (attr_get a k)) l) H).
  rewrite Hn in H'.
  exact (proj1 (Forall_fmap m_name (λ k, is_Some (attr_get a k)) l') H').
Qed.

(** A format with two byte-order marks is no format. *)
Lemma struct_pack_two_marks (f : fmt) (args : list pyval) :
  struct_pack (FGt :: FGt :: f) args = Raise StructError.
Proof. reflexivity. Qed.

Lemma struct_unpack_two_marks (f : fmt) (buff : bytes) :
  struct_unpack (FGt :: FGt :: f) buff = Raise StructError.
Proof. reflexivity. Qed.

(** The object [apply_opts] returns: its members are [opts], its format is
    theirs, and every attribute is kept. *)
Lemma apply_opts_Ok (self self' : MQOpts) (opts : list member) :
  apply_opts self opts = Ok self' →
  MQOpts__list self' = opts
  ∧ MQOpts__format self' = concat (m_fmt <$> opts)
  ∧ has_members (attrs self) (MQOpts__list self)
  ∧ has_members (attrs self') opts
  ∧ ∀ k, is_Some (attr_get (attrs self) k) → is_Some (attr_get (attrs self') k).
Proof.
  unfold apply_opts, MQOpts_init, MQOpts_get. intros H.
  bind_inv H. apply get_members_Ok in Hx as [Hmem _].
  cbn [MQOpts_set mbind result_bind] in H.
  apply MQOpts_set_Ok in H as (Hl & Hf & Hk). cbn in Hl, Hf, Hk.
  split; [exact Hl|]. split; [exact Hf|]. split; [exact Hmem|]. split.
  - apply Forall_forall. intros m Hm. apply Hk.
    clear -Hm. revert Hm. generalize (attrs self).
    induction opts as [|m0 opts IH]; intros a Hm; [inversion Hm|].
    simpl. apply elem_of_cons in Hm as [->|Hm].
    + apply defaults_keep. rewrite attr_get_set_eq. eauto.
    + apply IH. exact Hm.
  - intros k Hk'. apply Hk. apply defaults_keep. exact Hk'.
Qed.

Lemma apply_opts_has (self : MQOpts) (opts : list member) :
  has_members (attrs self) (MQOpts__list self) →
  ∃ self', apply_opts self opts = Ok self'.
Proof.
  intros Hmem. unfold apply_opts, MQOpts_get.
  destruct (get_members_has self _ Hmem) as (d & -> & Hd).
  cbn [mbind result_bind]. unfold MQOpts_init. cbn [MQOpts_set mbind result_bind].
  destruct (MQOpts_set_has d
              {| MQOpts__list := opts;
                 MQOpts__format := concat (m_fmt <$> opts);
                 attrs := foldl (λ a m, attr_set a (m_name m) (m_default m))
                            (attrs self) opts;
                 integer_list := integer_list self;
                 string_list := string_list self |}) as (self' & Hs & _).
  { rewrite Hd. apply Forall_fmap. eapply Forall_impl; [exact Hmem|].
    intros m Hm. simpl. apply defaults_keep. exact Hm. }
  exists self'. exact Hs.
Qed.

(** ** A structure is marked once for every big-endian call *)

Lemma mark_big_endian_Ok (self self' : MQOpts) :
  mark_big_endian self = Ok self' →
  ∃ m l, MQOpts__list self = m :: l
         ∧ MQOpts__list self' = Member (m_name m) (m_default m) (FGt :: m_fmt m) :: l
         ∧ attrs self' = attrs self.
Proof.
  unfold mark_big_endian. destruct (MQOpts__list self) as [|m l]; [discriminate|].
  intros H. injection H as <-. exists m, l. auto.
Qed.

(** X1: a structure that was packed under a big-endian encoding cannot be
    packed under a big-endian encoding again: every such call puts one more
    byte-order mark in front of the format of the first member, and
    [struct.pack] refuses the format with two marks. *)
Theorem pack_twice_big_endian_raises (self self' : MQOpts) (buff : bytes)
    (encoding encoding' : option Z) :
  is_big_endian encoding = true → is_big_endian encoding' = true →
  pack self encoding = Ok (self', buff) →
  pack self' encoding' = Raise StructError.
Proof.
  intros Hbig Hbig' H. unfold pack in H. rewrite Hbig in H.
  bind H as o1 Ho1. bind Ho1 as om Hom. bind H as b1 Hb. injection H as <- <-.
  apply mark_big_endian_Ok in Hom as (m & l & Hl & Hl0 & Ha0).
  apply apply_opts_Ok in Ho1 as (Hlx & Hfx & _ & Hmx & _). rewrite Hl0 in Hlx, Hmx.
  unfold pack. rewrite Hbig'. unfold mark_big_endian. rewrite Hlx.
  cbn [mbind result_bind m_name m_default m_fmt].
  match goal with
  | |- context [apply_opts ?o ?opts] =>
      destruct (apply_opts_has o opts) as [o2 Ho2];
        [eapply has_members_names; [|exact Hmx]; reflexivity|];
        rewrite Ho2; apply apply_opts_Ok in Ho2 as (Hl2 & Hf2 & _ & Hm2 & _)
  end.
  cbn [mbind result_bind]. unfold MQOpts_pack, MQOpts_get.
  rewrite Hl2 in *. destruct (get_members_has o2 _ Hm2) as (d & -> & _).
  cbn [mbind result_bind]. rewrite Hf2. reflexivity.
Qed.

(** X2: the same holds for decoding: a structure that was unpacked under a
    big-endian encoding raises [struct.error] when it is unpacked under a
    big-endian encoding again, whatever the buffer is. *)
Theorem unpack_twice_big_endian_raises (self self' : MQOpts) (buff buff' : bytes)
    (encoding encoding' : option Z) :
  is_big_endian encoding = true → is_big_endian encoding' = true →
  unpack self buff encoding = Ok self' →
  unpack self' buff' encoding' = Raise StructError.
Proof.
  intros Hbig Hbig' H. unfold unpack in H. rewrite Hbig in H.
  bind H as om Hom. bind H as oi Hoi.
  apply mark_big_endian_Ok in Hom as (m & l & Hl & Hl0 & Ha0).
  unfold MQOpts_init in Hoi. cbn [MQOpts_set] in Hoi. injection Hoi as <-.
  unfold MQOpts_unpack in H. bind H as r Hr. cbn [MQOpts__list] in H.
  assert (∀ (l : list member) (r : list pyval) (o o' : MQOpts),
            assign_fields o l r = Ok o' → MQOpts__list o' = MQOpts__list o) as Hkeep.
  { clear. induction l as [|m l IH]; intros r o o' H; simpl in H.
    - injection H as <-. reflexivity.
    - destruct r as [|v r]; [discriminate|]. apply IH in H. exact H. }
  apply Hkeep in H. cbn [MQOpts__list] in H. rewrite Hl0 in H.
  unfold unpack. rewrite Hbig'. unfold mark_big_endian. rewrite H.
  reflexivity.
Qed.

(** ** Longs on the wire *)

Lemma Z_of_byte_of_Z (z : Z) : Z_of_byte (byte_of_Z z) = z mod 256.
Proof.
  unfold Z_of_byte, byte_of_Z.
  assert (0 ≤ z mod 256 < 256) as Hr by (apply Z.mod_pos_bound; lia).
  destruct (Byte.of_N (Z.to_N (z mod 256))) as [x|] eqn:E.
  - apply Byte.to_of_N in E. simpl. rewrite E. lia.
  - apply Byte.of_N_None_iff in E. lia.
Qed.

Lemma decode_encode_long (big : bool) (z : Z) :
  in_range z → decode_long big (encode_long big z) = z.
Proof.
  unfold in_range. intros Hz.
  assert (decode_long big (encode_long big z)
          = let u := z mod 256 + 256 * ((z / 256) mod 256
                       + 256 * ((z / 65536) mod 256
                           + 256 * ((z / 16777216) mod 256 + 256 * 0))) in
            if u <? 2147483648 then u else u - 4294967296) as ->.
  { unfold decode_long, encode_long.
    destruct big; cbn [reverse rev_append foldr];
      rewrite !Z_of_byte_of_Z; reflexivity. }
  cbv zeta.
  match goal with |- context [?u <? 2147483648] => destruct (Z.ltb_spec u 2147483648) end;
    Z.to_euclidean_division_equations; lia.
Qed.

Lemma len_longs (big : bool) (zs : list Z) : len (longs big zs) = 4 * len zs.
Proof.
  unfold longs. induction zs as [|z zs IH]; [reflexivity|].
  cbn [fmap list_fmap concat]. rewrite len_app, len_encode_long.
  fold (fmap (encode_long big) zs). rewrite IH. unfold len. cbn [length]. lia.
Qed.

Lemma length_longs (big : bool) (zs : list Z) :
  length (longs big zs) = (4 * length zs)%nat.
Proof. pose proof (len_longs big zs) as H. unfold len in H. lia. Qed.

Lemma longs_cons (big : bool) (z : Z) (zs : list Z) :
  longs big (z :: zs) = encode_long big z ++ longs big zs.
Proof. reflexivity. Qed.

Lemma longs_app (big : bool) (xs ys : list Z) :
  longs big (xs ++ ys) = longs big xs ++ longs big ys.
Proof. unfold longs. rewrite fmap_app, concat_app. reflexivity. Qed.

(** ** Slices of a buffer that starts with a known part *)

Lemma clamp_inside (n i : Z) : 0 ≤ i ≤ n → clamp n i = i.
Proof. unfold clamp. intros H. destruct (i <? 0) eqn:E; lia. Qed.

Lemma slice_to_app {A} (l r : list A) : slice_to (l ++ r) (len l) = l.
Proof.
  rewrite slice_to_take, clamp_inside
    by (rewrite len_app; pose proof (len_nonneg l); pose proof (len_nonneg r); lia).
  unfold len. rewrite Nat2Z.id. apply take_app_length.
Qed.

Lemma slice_from_app {A} (l r : list A) : slice_from (l ++ r) (len l) = r.
Proof.
  rewrite slice_from_drop, clamp_inside
    by (rewrite len_app; pose proof (len_nonneg l); pose proof (len_nonneg r); lia).
  unfold len. rewrite Nat2Z.id. apply drop_app_length.
Qed.

Lemma slice_between_take_drop {A} (l : list A) (lo hi : Z) :
  0 ≤ lo ≤ hi → hi ≤ len l →
  slice_between l lo hi = take (Z.to_nat (hi - lo)) (drop (Z.to_nat lo) l).
Proof.
  intros H1 H2. unfold slice_between, slice.
  rewrite !clamp_inside by lia. reflexivity.
Qed.

(** The long at index [i] of a buffer that starts with the longs [zs]. *)
Lemma long_at_longs (big : bool) (zs : list Z) (rest : bytes) (i : nat) (z : Z) :
  zs !! i = Some z → in_range z →
  long_at big (longs big zs ++ rest) i = PInt z.
Proof.
  intros Hi Hz. unfold long_at.
  pose proof (lookup_lt_Some _ _ _ Hi) as Hlt.
  assert (length (take i zs) = i) as Hlen by (rewrite length_take; lia).
  apply take_drop_middle in Hi.
  rewrite <- Hi, longs_app, longs_cons, <- !app_assoc.
  pose proof (len_longs big (take i zs)) as Hl.
  replace (len (take i zs)) with (Z.of_nat i) in Hl
    by (unfold len; rewrite Hlen; reflexivity).
  rewrite slice_between_take_drop.
  - replace (Z.to_nat (4 * Z.of_nat i)) with (length (longs big (take i zs)))
      by (unfold len in Hl; lia).
    rewrite drop_app_length.
    replace (Z.to_nat (4 * Z.of_nat i + 4 - 4 * Z.of_nat i))
      with (length (encode_long big z))
      by (pose proof (len_encode_long big z) as H4; unfold len in H4; lia).
    rewrite take_app_length. rewrite decode_encode_long by exact Hz. reflexivity.
  - lia.
  - rewrite !len_app, Hl, len_encode_long.
    pose proof (len_nonneg (longs big (drop (S i) zs))).
    pose proof (len_nonneg rest). lia.
Qed.

(** ** What [struct.pack] makes of longs and a byte string *)

Lemma pack_items_longs_then (big : bool) (vals : list pyval) (zs : list Z)
    (items : fmt) (args : list pyval) :
  long_values vals zs →
  ∀ (acc : bytes) (j : Z), len acc = 4 * j →
  pack_items big (replicate (length vals) FLong ++ items) (vals ++ args) acc
  = pack_items big items args (acc ++ longs big zs).
Proof.
  induction 1 as [|v z vals zs [Hz Hr] _ IH]; intros acc j Hacc.
  - cbn. rewrite app_nil_r. reflexivity.
  - cbn [length replicate app pack_items]. rewrite Hz.
    unfold in_range in Hr.
    assert ((-2147483648 <=? z) && (z <? 2147483648) = true) as -> by lia.
    rewrite Hacc, padding_aligned. change (Z.to_nat 0) with 0%nat.
    cbn [replicate app].
    rewrite (IH (acc ++ encode_long big z) (j + 1))
      by (rewrite len_app, len_encode_long; lia).
    rewrite longs_cons, app_assoc. reflexivity.
Qed.

Lemma chars_field_exact (s : bytes) : chars_field (len s) s = s.
Proof.
  unfold chars_field, len. rewrite Nat2Z.id, firstn_all, Nat.sub_diag.
  apply app_nil_r.
Qed.

Lemma byte_order_longs (big : bool) (n : nat) (items : fmt) :
  match items with FGt :: _ => False | _ => True end →
  byte_order ((if big then [FGt] else []) ++ replicate n FLong ++ items)
  = (big, replicate n FLong ++ items).
Proof.
  intros H. destruct big; [reflexivity|]. destruct n; [|reflexivity].
  cbn. destruct items as [|[]]; try reflexivity. contradiction.
Qed.

Lemma item_ok_longs (n : nat) (items : fmt) :
  forallb item_ok (replicate n FLong ++ items) = forallb item_ok items.
Proof. induction n; simpl; auto. Qed.

(** Longs followed by one byte string. *)
Lemma struct_pack_fields (big : bool) (vals : list pyval) (zs : list Z) (s : bytes) :
  long_values vals zs →
  struct_pack ((if big then [FGt] else []) ++ replicate (length vals) FLong
                 ++ [FChars (len s)]) (vals ++ [PStr s])
  = Ok (longs big zs ++ s).
Proof.
  intros H. unfold struct_pack.
  rewrite byte_order_longs by exact I. rewrite item_ok_longs.
  cbn [forallb item_ok andb].
  assert ((0 <=? len s) = true) as -> by (pose proof (len_nonneg s); lia).
  rewrite (pack_items_longs_then big vals zs _ _ H [] 0 eq_refl).
  cbn [pack_items app]. rewrite chars_field_exact. reflexivity.
Qed.

(** Longs only. *)
Lemma struct_pack_longs (big : bool) (vals : list pyval) (zs : list Z) :
  long_values vals zs →
  struct_pack ((if big then [FGt] else []) ++ replicate (length vals) FLong) vals
  = Ok (longs big zs).
Proof.
  intros H. unfold struct_pack.
  rewrite <- (app_nil_r (replicate (length vals) FLong)).
  rewrite byte_order_longs by exact I. rewrite item_ok_longs.
  cbn [forallb].
  rewrite <- (app_nil_r vals) at 2.
  rewrite (pack_items_longs_then big vals zs _ _ H [] 0 eq_refl).
  reflexivity.
Qed.

(** Proves [in_range] for a constant or from a hypothesis, and
    [long_values] for a list of such integers. *)
Ltac solve_in_range :=
  assumption || (vm_compute; split; congruence).

Ltac solve_long_values :=
  unfold long_values;
  repeat (constructor; [split; [reflexivity|solve_in_range]|]); constructor.

(** Rewrites the call of [struct.pack] in the goal with its bytes. *)
Ltac pack_longs H big :=
  let E := fresh "E" in
  pose proof (struct_pack_longs big _ _ H) as E;
  cbn [length replicate app] in E; rewrite E; clear E.

Ltac pack_fields H big s :=
  let E := fresh "E" in
  pose proof (struct_pack_fields big _ _ s H) as E;
  cbn [length replicate app] in E; rewrite E; clear E.

Ltac run_pack :=
  cbn [mbind result_bind mret result_ret getitem getattr setitem setattr hasattr
       attr_get attr_set MQOpts__list MQOpts__format attrs integer_list string_list
       py_len int_value as_int fmt_is is_int is_str is_list
       mark_big_endian apply_opts MQOpts_pack flatten_arg
       MQOpts_get get_members MQOpts_init MQOpts_set new_object
       m_name m_default m_fmt fmap list_fmap foldl app concat
       String.eqb Ascii.eqb Bool.eqb fst snd orb].

Section Wire.

Variable codec_encode : string → list N → result bytes.

Lemma pack_parameter_integer (self : PCFCommand) (buf : bytes) (k v : Z) :
  in_range k → in_range v →
  pack_parameter codec_encode self buf (DTuple [PInt k; PInt v])
  = Ok (buf ++ integer_parameter (is_big_endian (Some (encoding self))) 16 k v).
Proof.
  intros Hk Hv. unfold pack_parameter, make_parameter, append_packed, CFIN, long,
    MQLONG_TYPE.
  run_pack. unfold pack.
  assert (long_values [PInt MQCFT_INTEGER; PInt MQCFIN_STRUC_LENGTH; PInt k; PInt v]
            [MQCFT_INTEGER; MQCFIN_STRUC_LENGTH; k; v]) as Hvals
    by solve_long_values.
  destruct (is_big_endian (Some (encoding self))); run_pack.
  - pack_longs Hvals true. reflexivity.
  - pack_longs Hvals false. reflexivity.
Qed.

Lemma pack_parameter_string (self : PCFCommand) (buf : bytes) (k : Z) (s : bytes) :
  in_range k → in_range (ccsid self) → in_range (MQCFST_STRUC_LENGTH_FIXED + len s) →
  pack_parameter codec_encode self buf (DTuple [PInt k; PStr s])
  = Ok (buf ++ string_parameter (is_big_endian (Some (encoding self)))
                 (MQCFST_STRUC_LENGTH_FIXED + len s) k (ccsid self) s).
Proof.
  intros Hk Hc Hs. unfold pack_parameter, make_parameter, append_packed, CFST, long,
    MQLONG_TYPE, set_string.
  run_pack.
  change (eq_int (PInt MQCFST_STRUC_LENGTH_FIXED) MQCFST_STRUC_LENGTH_FIXED
          || eq_int (PInt MQCFST_STRUC_LENGTH_FIXED) 0) with true.
  run_pack. unfold pack.
  assert (in_range (len s)) as Hl
    by (unfold in_range, MQCFST_STRUC_LENGTH_FIXED in *; pose proof (len_nonneg s); lia).
  assert (long_values [PInt MQCFT_STRING; PInt (MQCFST_STRUC_LENGTH_FIXED + len s);
                       PInt k; PInt (ccsid self); PInt (len s)]
            [MQCFT_STRING; MQCFST_STRUC_LENGTH_FIXED + len s; k; ccsid self; len s])
    as Hvals by solve_long_values.
  destruct (is_big_endian (Some (encoding self))); run_pack.
  - pack_fields Hvals true s. unfold string_parameter. reflexivity.
  - pack_fields Hvals false s. unfold string_parameter. reflexivity.
Qed.

Lemma pack_parameter_wire (self : PCFCommand) (buf : bytes) (d : directive)
    (p : parameter) :
  denotes (convert self) d p → packable (ccsid self) p →
  pack_parameter codec_encode self buf d
  = Ok (buf ++ wire (is_big_endian (Some (encoding self))) (ccsid self) p).
Proof.
  intros Hd [Hk Hp].
  assert (pack_parameter codec_encode self buf d
          = pack_parameter codec_encode self buf (as_tuple p)) as ->.
  { destruct Hd as [->|[Hconv ->]]; [reflexivity|].
    unfold pack_parameter, as_dict, as_tuple. rewrite Hconv. reflexivity. }
  destruct p as [k v|k s]; cbn [parameter_id] in Hk; unfold as_tuple;
    cbn [parameter_id parameter_value wire].
  - apply pack_parameter_integer; assumption.
  - destruct Hp as [Hc Hs]. apply pack_parameter_string; assumption.
Qed.

Lemma pack_parameters_wire (self : PCFCommand) (ds : list directive)
    (ps : list parameter) :
  Forall2 (denotes (convert self)) ds ps → Forall (packable (ccsid self)) ps →
  ∀ buf, pack_parameters codec_encode self buf ds
         = Ok (buf ++ concat (wire (is_big_endian (Some (encoding self)))
                                (ccsid self) <$> ps)).
Proof.
  intros Hds. induction Hds as [|d p ds ps Hd _ IH]; intros Hps buf.
  - cbn. rewrite app_nil_r. reflexivity.
  - apply Forall_cons in Hps as [Hp Hps]. cbn [pack_parameters].
    rewrite (pack_parameter_wire self buf d p Hd Hp). cbn [mbind result_bind].
    rewrite (IH Hps). cbn [fmap list_fmap concat]. rewrite app_assoc. reflexivity.
Qed.

(** The message of a list of integers and byte strings. *)
Lemma pack_bag_message (self : PCFCommand) (command : Z)
    (ds : list directive) (ps : list parameter) :
  in_range command → in_range (len ds) →
  Forall2 (denotes (convert self)) ds ps → Forall (packable (ccsid self)) ps →
  pack_bag codec_encode self (PInt command) ds
  = Ok (message (is_big_endian (Some (encoding self))) (ccsid self) command ps).
Proof.
  intros Hc Hn Hds Hps. unfold pack_bag, CFH, long, MQLONG_TYPE.
  run_pack. unfold pack.
  assert (len ds = len ps) as Hlen
    by (unfold len; rewrite (Forall2_length _ _ _ Hds); reflexivity).
  assert (long_values
            [PInt MQCFT_COMMAND_XR; PInt MQCFH_STRUC_LENGTH; PInt MQCFH_VERSION_3;
             PInt command; PInt 1; PInt MQCFC_LAST; PInt MQCC_OK; PInt MQRC_NONE;
             PInt (len ds)]
            [MQCFT_COMMAND_XR; MQCFH_STRUC_LENGTH; MQCFH_VERSION_3; command;
             1; MQCFC_LAST; MQCC_OK; MQRC_NONE; len ds]) as Hvals by solve_long_values.
  unfold message, command_header. rewrite <- Hlen.
  destruct (is_big_endian (Some (encoding self))) eqn:Ebig; run_pack.
  - pack_longs Hvals true. cbn [mbind result_bind].
    rewrite (pack_parameters_wire self ds ps Hds Hps), Ebig. reflexivity.
  - pack_longs Hvals false. cbn [mbind result_bind].
    rewrite (pack_parameters_wire self ds ps Hds Hps), Ebig. reflexivity.
Qed.

Lemma len_wire (big : bool) (c : Z) (p : parameter) :
  len (wire big c p) = wire_length p.
Proof.
  destruct p as [k v|k s]; cbn [wire wire_length];
    unfold integer_parameter, string_parameter; rewrite ?len_app, len_longs;
    reflexivity.
Qed.

Lemma len_wires (big : bool) (c : Z) (ps : list parameter) :
  len (concat (wire big c <$> ps)) = foldr Z.add 0 (wire_length <$> ps).
Proof.
  induction ps as [|p ps IH]; [reflexivity|].
  cbn [fmap list_fmap concat foldr]. rewrite len_app, len_wire.
  fold (fmap (wire big c) ps). fold (fmap wire_length ps). rewrite IH. reflexivity.
Qed.

(** X3: the message [pack_bag] builds from integers and byte strings, given
    as tuples or, when the command object does not convert, as dicts, is the
    header of nine longs, with the type [MQCFT_COMMAND_XR], the version 3
    and the number of parameters, followed by the structure of each
    parameter in the order of the list: four longs for an integer, and five
    longs and the bytes of the string, without padding, for a string; all
    in the byte order of the encoding of the command object.  Its length is
    36 bytes plus the [StrucLength] of every parameter. *)
Theorem pack_bag_wire_format (self : PCFCommand) (command : Z)
    (ds : list directive) (ps : list parameter) :
  in_range command → in_range (len ds) →
  Forall2 (denotes (convert self)) ds ps → Forall (packable (ccsid self)) ps →
  ∃ msg, pack_bag codec_encode self (PInt command) ds = Ok msg
         ∧ msg = message (is_big_endian (Some (encoding self))) (ccsid self) command ps
         ∧ len msg = MQCFH_STRUC_LENGTH + foldr Z.add 0 (wire_length <$> ps).
Proof.
  intros Hc Hn Hds Hps. eexists. split; [|split; [reflexivity|]].
  - apply pack_bag_message; assumption.
  - unfold message, command_header. rewrite len_app, len_longs, len_wires.
    reflexivity.
Qed.

End Wire.

(** ** What [struct.unpack] makes of packed longs *)

Lemma long_at_encoded (big : bool) (zs : list Z) :
  Forall in_range zs →
  long_at big (longs big zs) <$> seq 0 (length zs) = PInt <$> zs.
Proof.
  intros H. apply list_eq. intros i.
  rewrite !list_lookup_fmap.
  destruct (zs !! i) as [z|] eqn:E.
  - pose proof (lookup_lt_Some _ _ _ E) as Hlt.
    rewrite lookup_seq_lt by exact Hlt. cbn.
    rewrite <- (app_nil_r (longs big zs)).
    rewrite (long_at_longs big zs [] i z E); [reflexivity|].
    eapply Forall_lookup_1; eassumption.
  - apply lookup_ge_None in E. rewrite lookup_seq_ge by lia. reflexivity.
Qed.

Lemma struct_unpack_encoded (big : bool) (zs : list Z) :
  Forall in_range zs →
  struct_unpack ((if big then [FGt] else []) ++ replicate (length zs) FLong)
    (longs big zs)
  = Ok (PInt <$> zs).
Proof.
  intros H. rewrite struct_unpack_longs, len_longs.
  unfold len. rewrite Z.eqb_refl, long_at_encoded by exact H. reflexivity.
Qed.

Lemma slice_to_longs_head (big : bool) (z : Z) (zs : list Z) (rest : bytes) :
  slice_to (longs big (z :: zs) ++ rest) 4 = encode_long big z.
Proof.
  rewrite longs_cons, <- app_assoc.
  rewrite <- (len_encode_long big z). apply slice_to_app.
Qed.

Lemma slice_between_longs_second (big : bool) (z1 z2 : Z) (zs : list Z)
    (rest : bytes) :
  slice_between (longs big (z1 :: z2 :: zs) ++ rest) 4 8 = encode_long big z2.
Proof.
  rewrite !longs_cons, <- !app_assoc.
  pose proof (len_encode_long big z1) as H1.
  pose proof (len_encode_long big z2) as H2.
  rewrite slice_between_take_drop.
  - replace (Z.to_nat 4) with (length (encode_long big z1)) by (unfold len in H1; lia).
    rewrite drop_app_length.
    replace (Z.to_nat (8 - 4)) with (length (encode_long big z2))
      by (unfold len in H2; lia).
    apply take_app_length.
  - lia.
  - rewrite !len_app, H1, H2.
    pose proof (len_nonneg (longs big zs)). pose proof (len_nonneg rest). lia.
Qed.

Lemma slice_to_longs (big : bool) (zs : list Z) (rest : bytes) (n : Z) :
  n = 4 * len zs → slice_to (longs big zs ++ rest) n = longs big zs.
Proof. intros ->. rewrite <- (len_longs big zs). apply slice_to_app. Qed.

Lemma slice_from_longs (big : bool) (zs : list Z) (rest : bytes) (n : Z) :
  n = 4 * len zs → slice_from (longs big zs ++ rest) n = rest.
Proof. intros ->. rewrite <- (len_longs big zs). apply slice_from_app. Qed.

Lemma slice_to_fields (big : bool) (zs : list Z) (s rest : bytes) (n : Z) :
  n = 4 * len zs + len s → slice_to ((longs big zs ++ s) ++ rest) n = longs big zs ++ s.
Proof.
  intros ->. rewrite <- (len_longs big zs), <- len_app. apply slice_to_app.
Qed.

Lemma slice_from_fields (big : bool) (zs : list Z) (s rest : bytes) (n : Z) :
  n = 4 * len zs + len s → slice_from ((longs big zs ++ s) ++ rest) n = rest.
Proof.
  intros ->. rewrite <- (len_longs big zs), <- len_app. apply slice_from_app.
Qed.

Lemma slice_between_payload (big : bool) (zs : list Z) (s : bytes) (lo hi : Z) :
  lo = 4 * len zs → hi = lo + len s →
  slice_between (longs big zs ++ s) lo hi = s.
Proof.
  intros -> ->. pose proof (len_longs big zs) as Hl.
  pose proof (len_nonneg zs). pose proof (len_nonneg s).
  rewrite slice_between_take_drop by (rewrite ?len_app, ?Hl; lia).
  replace (Z.to_nat (4 * len zs)) with (length (longs big zs))
    by (unfold len in *; lia).
  rewrite drop_app_length.
  replace (Z.to_nat (4 * len zs + len s - 4 * len zs)) with (length s)
    by (unfold len; lia).
  apply firstn_all.
Qed.

Lemma unpack_long_encoded (self : PCFCommand) (z : Z) :
  in_range z →
  unpack_long self (encode_long (is_big_endian (Some (encoding self))) z)
  = Ok (PInt z).
Proof.
  intros Hz. unfold unpack_long.
  assert (Forall in_range [z]) as H1 by (constructor; [exact Hz|constructor]).
  pose proof (struct_unpack_encoded (is_big_endian (Some (encoding self))) [z] H1) as E.
  unfold longs in E. cbn [fmap list_fmap concat length replicate] in E.
  rewrite app_nil_r in E.
  destruct (is_big_endian (Some (encoding self))); cbn [app] in E;
    unfold MQLONG_TYPE; rewrite E; reflexivity.
Qed.

(** Rewrites the call of [struct.unpack] on packed longs with their
    values. *)
Ltac unpack_encoded big zs :=
  let E := fresh "E" in
  let H := fresh "H" in
  assert (Forall in_range zs) as H;
    [repeat (constructor; [solve_in_range|]); constructor|];
  pose proof (struct_unpack_encoded big zs H) as E;
  cbn [length replicate app] in E; rewrite E; clear E H.

Ltac run_unpack :=
  cbn [mbind result_bind mret result_ret getitem getattr setitem setattr hasattr
       attr_get attr_set MQOpts__list MQOpts__format attrs integer_list string_list
       py_len int_value as_int fmt_is
       mark_big_endian apply_opts MQOpts_unpack assign_fields
       MQOpts_get get_members MQOpts_init MQOpts_set new_object
       record_parameter dict_set pcf_dict pcf_structs
       m_name m_default m_fmt fmap list_fmap foldl app concat
       String.eqb Ascii.eqb Bool.eqb fst snd orb].

Section Decoder.

Variable codec_decode : string → bytes → result (list N).

Lemma unpack_parameter_integer (self : PCFCommand) (conv : bool) (st : bag_state)
    (k v : Z) (rest : bytes) :
  in_range k → in_range v →
  ∃ o, unpack_parameter codec_decode self conv st
         (integer_parameter (is_big_endian (Some (encoding self))) 16 k v ++ rest)
       = Ok (mkBag (<[k := PInt v]> (pcf_dict st)) (pcf_structs st ++ [o]), rest)
       ∧ recorded o = Some (k, PInt v).
Proof.
  intros Hk Hv. unfold unpack_parameter, integer_parameter.
  rewrite slice_to_longs_head, slice_between_longs_second.
  rewrite !unpack_long_encoded by solve_in_range.
  cbn [mbind result_bind as_int int_value].
  change (eq_int (PInt MQCFT_INTEGER) MQCFT_INTEGER) with true. cbv iota.
  rewrite (slice_to_longs _ [MQCFT_INTEGER; 16; k; v] _ 16 eq_refl),
    (slice_from_longs _ [MQCFT_INTEGER; 16; k; v] _ 16 eq_refl).
  unfold CFIN, long, MQLONG_TYPE, unpack. run_unpack.
  destruct (is_big_endian (Some (encoding self))); run_unpack;
    unfold MQOpts_unpack; run_unpack.
  - unpack_encoded true [MQCFT_INTEGER; 16; k; v]. run_unpack.
    eexists. split; [reflexivity|reflexivity].
  - unpack_encoded false [MQCFT_INTEGER; 16; k; v]. run_unpack.
    eexists. split; [reflexivity|reflexivity].
Qed.

Lemma unpack_parameter_string (self : PCFCommand) (st : bag_state)
    (k c : Z) (s rest : bytes) :
  in_range k → in_range c → in_range (MQCFST_STRUC_LENGTH_FIXED + len s) →
  ∃ o, unpack_parameter codec_decode self false st
         (string_parameter (is_big_endian (Some (encoding self)))
            (MQCFST_STRUC_LENGTH_FIXED + len s) k c s ++ rest)
       = Ok (mkBag (<[k := PStr s]> (pcf_dict st)) (pcf_structs st ++ [o]), rest)
       ∧ recorded o = Some (k, PStr s).
Proof.
  intros Hk Hc Hs.
  assert (in_range (len s)) as Hl
    by (unfold in_range, MQCFST_STRUC_LENGTH_FIXED in *; pose proof (len_nonneg s); lia).
  unfold unpack_parameter, string_parameter. rewrite <- app_assoc.
  rewrite slice_to_longs_head, slice_between_longs_second.
  rewrite !unpack_long_encoded by solve_in_range.
  cbn [mbind result_bind as_int int_value].
  change (eq_int (PInt MQCFT_STRING) MQCFT_INTEGER) with false.
  change (eq_int (PInt MQCFT_STRING) MQCFT_STRING) with true. cbv iota.
  rewrite app_assoc.
  rewrite (slice_to_fields _
             [MQCFT_STRING; MQCFST_STRUC_LENGTH_FIXED + len s; k; c; len s] s rest)
    by (unfold MQCFST_STRUC_LENGTH_FIXED; reflexivity).
  rewrite (slice_from_fields _
             [MQCFT_STRING; MQCFST_STRUC_LENGTH_FIXED + len s; k; c; len s] s rest)
    by (unfold MQCFST_STRUC_LENGTH_FIXED; reflexivity).
  unfold CFST_unpack, unpack_fixed, declared_payload.
  rewrite (slice_to_longs _
             [MQCFT_STRING; MQCFST_STRUC_LENGTH_FIXED + len s; k; c; len s] s
             MQCFST_STRUC_LENGTH_FIXED eq_refl).
  rewrite (slice_from_longs _
             [MQCFT_STRING; MQCFST_STRUC_LENGTH_FIXED + len s; k; c; len s] s
             MQCFST_STRUC_LENGTH_FIXED eq_refl).
  unfold CFST, long, MQLONG_TYPE, unpack. run_unpack.
  destruct (is_big_endian (Some (encoding self))); run_unpack;
    unfold MQOpts_unpack; run_unpack.
  - unpack_encoded true [MQCFT_STRING; MQCFST_STRUC_LENGTH_FIXED + len s; k; c; len s].
    run_unpack.
    rewrite ?(slice_between_payload true
               [MQCFT_STRING; MQCFST_STRUC_LENGTH_FIXED + len s; k; c; len s] s
               MQCFST_STRUC_LENGTH_FIXED (MQCFST_STRUC_LENGTH_FIXED + len s)
               eq_refl eq_refl).
    destruct (eq_int (PInt (len s)) 0); run_unpack;
      destruct (eq_int (PInt (MQCFST_STRUC_LENGTH_FIXED + len s))
                  MQCFST_STRUC_LENGTH_FIXED
                || eq_int (PInt (MQCFST_STRUC_LENGTH_FIXED + len s)) 0);
      run_unpack; eexists; (split; [reflexivity|reflexivity]).
  - unpack_encoded false [MQCFT_STRING; MQCFST_STRUC_LENGTH_FIXED + len s; k; c; len s].
    run_unpack.
    rewrite ?(slice_between_payload false
               [MQCFT_STRING; MQCFST_STRUC_LENGTH_FIXED + len s; k; c; len s] s
               MQCFST_STRUC_LENGTH_FIXED (MQCFST_STRUC_LENGTH_FIXED + len s)
               eq_refl eq_refl).
    destruct (eq_int (PInt (len s)) 0); run_unpack;
      destruct (eq_int (PInt (MQCFST_STRUC_LENGTH_FIXED + len s))
                  MQCFST_STRUC_LENGTH_FIXED
                || eq_int (PInt (MQCFST_STRUC_LENGTH_FIXED + len s)) 0);
      run_unpack; eexists; (split; [reflexivity|reflexivity]).
Qed.

Lemma unpack_parameter_wire (self : PCFCommand) (st : bag_state) (c : Z)
    (p : parameter) (rest : bytes) :
  packable c p →
  ∃ o d, unpack_parameter codec_decode self false st
           (wire (is_big_endian (Some (encoding self))) c p ++ rest)
         = Ok (mkBag d (pcf_structs st ++ [o]), rest)
         ∧ recorded o = Some (parameter_id p, parameter_value p).
Proof.
  intros [Hk Hp]. destruct p as [k v|k s]; cbn [parameter_id] in Hk; cbn [wire].
  - destruct (unpack_parameter_integer self false st k v rest Hk Hp) as (o & Ho & Hr).
    exists o. eexists. split; [exact Ho|exact Hr].
  - destruct Hp as [Hc Hs].
    destruct (unpack_parameter_string self st k c s rest Hk Hc Hs) as (o & Ho & Hr).
    exists o. eexists. split; [exact Ho|exact Hr].
Qed.

Lemma len_wire_pos (big : bool) (c : Z) (p : parameter) : 0 < len (wire big c p).
Proof.
  destruct p as [k v|k s]; cbn [wire]; unfold integer_parameter, string_parameter;
    rewrite ?len_app, !len_longs; try pose proof (len_nonneg s); unfold len in *;
    cbn [length]; lia.
Qed.

Lemma unpack_loop_wire (self : PCFCommand) (c : Z) (ps : list parameter) :
  ps ≠ [] → Forall (packable c) ps →
  ∀ (st : bag_state) (fuel : nat), (length ps ≤ fuel)%nat →
    ∃ os d,
      unpack_loop codec_decode fuel self false st
        (concat (wire (is_big_endian (Some (encoding self))) c <$> ps))
      = Some (Ok (mkBag d (pcf_structs st ++ os)))
      ∧ Forall2 (λ o p, recorded o = Some (parameter_id p, parameter_value p)) os ps.
Proof.
  induction ps as [|p ps IH]; [done|]. intros _ Hall st fuel Hfuel.
  apply Forall_cons in Hall as [Hp Hall].
  destruct fuel as [|fuel]; [cbn [length] in Hfuel; lia|].
  cbn [fmap list_fmap concat unpack_loop].
  destruct (unpack_parameter_wire self st c p
              (concat (wire (is_big_endian (Some (encoding self))) c <$> ps)) Hp)
    as (o & d & -> & Hr).
  destruct ps as [|p' ps].
  - cbn. exists [o], d. split; [reflexivity|]. constructor; [exact Hr|constructor].
  - destruct (IH ltac:(discriminate) Hall (mkBag d (pcf_structs st ++ [o])) fuel)
      as (os & d' & Hloop & Hos); [cbn [length] in *; lia|].
    assert ((len (concat (wire (is_big_endian (Some (encoding self))) c <$> p' :: ps))
             =? 0) = false) as ->.
    { cbn [fmap list_fmap concat]. rewrite len_app.
      pose proof (len_wire_pos (is_big_endian (Some (encoding self))) c p').
      match goal with
      | |- context [len ?a + len ?b] => pose proof (len_nonneg b)
      end.
      lia. }
    rewrite Hloop. cbn [pcf_structs]. rewrite <- app_assoc.
    exists (o :: os), d'. split; [reflexivity|]. constructor; assumption.
Qed.

End Decoder.

Section RoundTrip.

Variable codec_decode : string → bytes → result (list N).
Variable codec_encode : string → list N → result bytes.

Lemma len_message (big : bool) (c command : Z) (ps : list parameter) :
  (36 + 16 * length ps ≤ length (message big c command ps))%nat.
Proof.
  unfold message, command_header. rewrite length_app.
  rewrite length_longs. cbn [length].
  assert (16 * length ps ≤ length (concat (wire big c <$> ps)))%nat as Hps.
  { induction ps as [|p ps IH]; [cbn; lia|].
    cbn [fmap list_fmap concat length]. rewrite length_app.
    assert (16 ≤ length (wire big c p))%nat.
    { destruct p as [k v|k s]; cbn [wire];
        unfold integer_parameter, string_parameter;
        rewrite ?length_app, length_longs; cbn [length]; lia. }
    fold (fmap (wire big c) ps). lia. }
  lia.
Qed.

(** X4: [unpack_bag] without conversion reads back what [pack_bag] wrote.
    For integers and byte strings given as tuples (or as dicts, when the
    command object does not convert) the message decodes into the header,
    which carries the command and the number of parameters, followed by one
    structure for every parameter, in order, each with the id and the value
    that were packed; the same holds in both byte orders. *)
Theorem pack_bag_unpack_bag (self : PCFCommand) (command : Z)
    (ds : list directive) (ps : list parameter) :
  in_range command → in_range (len ds) →
  Forall2 (denotes (convert self)) ds ps → Forall (packable (ccsid self)) ps →
  ∃ msg h os,
    pack_bag codec_encode self (PInt command) ds = Ok msg
    ∧ unpack_bag codec_decode self (Some msg) false = Some (Ok (Some (h :: os)))
    ∧ attr_get (attrs h) "Command" = Some (PInt command)
    ∧ attr_get (attrs h) "ParameterCount" = Some (PInt (len ps))
    ∧ Forall2 (λ o p, recorded o = Some (parameter_id p, parameter_value p)) os ps.
Proof.
  intros Hc Hn Hds Hps.
  assert (len ds = len ps) as Hlen
    by (unfold len; rewrite (Forall2_length _ _ _ Hds); reflexivity).
  rewrite Hlen in Hn.
  set (big := is_big_endian (Some (encoding self))).
  exists (message big (ccsid self) command ps).
  assert (∃ h, (resp_cfh ← CFH [];
                unpack resp_cfh (slice_to (message big (ccsid self) command ps) 36)
                  (Some (encoding self))) = Ok h
               ∧ attr_get (attrs h) "Command" = Some (PInt command)
               ∧ attr_get (attrs h) "ParameterCount" = Some (PInt (len ps)))
    as (h & Hh & Hcmd & Hcount).
  { unfold message, command_header.
    rewrite (slice_to_longs big
               [MQCFT_COMMAND_XR; MQCFH_STRUC_LENGTH; MQCFH_VERSION_3;
                           command; 1; MQCFC_LAST; MQCC_OK; MQRC_NONE; len ps] _ 36 eq_refl).
    unfold CFH, long, MQLONG_TYPE, unpack. run_unpack. fold big.
    destruct big; run_unpack; unfold MQOpts_unpack; run_unpack.
    - unpack_encoded true [MQCFT_COMMAND_XR; MQCFH_STRUC_LENGTH; MQCFH_VERSION_3;
                           command; 1; MQCFC_LAST; MQCC_OK; MQRC_NONE; len ps].
      run_unpack. eexists. repeat split; reflexivity.
    - unpack_encoded false [MQCFT_COMMAND_XR; MQCFH_STRUC_LENGTH; MQCFH_VERSION_3;
                            command; 1; MQCFC_LAST; MQCC_OK; MQRC_NONE; len ps].
      run_unpack. eexists. repeat split; reflexivity. }
  pose proof (len_message big (ccsid self) command ps) as Hsize.
  assert (∃ os, unpack_bag codec_decode self
                  (Some (message big (ccsid self) command ps)) false
                = Some (Ok (Some (h :: os)))
                ∧ Forall2 (λ o p, recorded o
                                  = Some (parameter_id p, parameter_value p)) os ps)
    as (os & Hos & Hrec).
  { unfold unpack_bag, unpack_bag_run, rounds.
    assert ((len (message big (ccsid self) command ps) =? 0) = false) as ->
      by (unfold len; lia).
    rewrite Hh. unfold message at 1 3, command_header.
    rewrite (slice_from_longs big
               [MQCFT_COMMAND_XR; MQCFH_STRUC_LENGTH; MQCFH_VERSION_3;
                           command; 1; MQCFC_LAST; MQCC_OK; MQRC_NONE; len ps] _ 36 eq_refl).
    destruct ps as [|p ps].
    - cbn. exists []. split; [reflexivity|constructor].
    - assert ((len (concat (wire big (ccsid self) <$> p :: ps)) =? 0) = false) as ->.
      { cbn [fmap list_fmap concat]. rewrite len_app.
        pose proof (len_wire_pos big (ccsid self) p).
        match goal with
        | |- context [len ?a + len ?b] => pose proof (len_nonneg b)
        end.
        lia. }
      destruct (unpack_loop_wire codec_decode self (ccsid self) (p :: ps)
                  ltac:(discriminate) Hps (mkBag ∅ [h])
                  (length (message big (ccsid self) command (p :: ps))))
        as (os & d & Hloop & Hrec); [lia|].
      fold big in Hloop. rewrite Hloop. exists os. split; [reflexivity|exact Hrec]. }
  exists h, os. split.
  - rewrite <- Hlen in Hn. apply pack_bag_message; assumption.
  - repeat split; assumption.
Qed.

End RoundTrip.

(** The conditions of [pack_twice_big_endian_raises] hold for a new [CFIN]
    packed under the encoding 785. *)
Lemma pack_twice_big_endian_raises_witness :
  ∃ o' buff, (o ← CFIN []; pack o (Some 785)) = Ok (o', buff)
             ∧ pack o' (Some 785) = Raise StructError.
Proof.
  assert (∃ o, CFIN [] = Ok o) as [o Ho] by (eexists; reflexivity).
  assert (∃ o' buff, pack o (Some 785) = Ok (o', buff)) as (o' & buff & Hp)
    by (vm_compute in Ho; injection Ho as <-; vm_compute; do 2 eexists; reflexivity).
  exists o', buff. split; [rewrite Ho; exact Hp|].
  exact (pack_twice_big_endian_raises o o' buff (Some 785) (Some 785)
           eq_refl eq_refl Hp).
Defined.

(** The conditions of [unpack_twice_big_endian_raises] hold for a new
    [CFIN] that unpacks an integer parameter under the encoding 785. *)
Lemma unpack_twice_big_endian_raises_witness :
  ∃ o', (o ← CFIN []; unpack o (integer_parameter true 16 5 9) (Some 785)) = Ok o'
        ∧ unpack o' (integer_parameter true 16 5 9) (Some 785) = Raise StructError.
Proof.
  assert (∃ o, CFIN [] = Ok o) as [o Ho] by (eexists; reflexivity).
  assert (∃ o', unpack o (integer_parameter true 16 5 9) (Some 785) = Ok o')
    as (o' & Hu)
    by (vm_compute in Ho; injection Ho as <-; vm_compute; eexists; reflexivity).
  exists o'. split; [rewrite Ho; exact Hu|].
  exact (unpack_twice_big_endian_raises o o' _ _ (Some 785) (Some 785)
           eq_refl eq_refl Hu).
Defined.

(** The conditions of [pack_bag_wire_format] hold for an integer given as
    a tuple and a string given as a dict, packed for a big-endian queue
    manager. *)
Lemma pack_bag_wire_format_witness :
  ∃ msg,
    pack_bag latin1_encode big_cmd (PInt 2)
      [DTuple [PInt 5; PInt 9]; DDict [(PInt 7, b "abc")]] = Ok msg
    ∧ msg = message true 819 2
              [IntegerParameter 5 9;
               StringParameter 7 (String.list_byte_of_string "abc")]
    ∧ len msg = 75.
Proof.
  apply (pack_bag_wire_format latin1_encode big_cmd 2
           [DTuple [PInt 5; PInt 9]; DDict [(PInt 7, b "abc")]]
           [IntegerParameter 5 9; StringParameter 7 (String.list_byte_of_string "abc")]).
  - solve_in_range.
  - solve_in_range.
  - constructor; [left; reflexivity|].
    constructor; [right; split; reflexivity|]. constructor.
  - constructor; [split; solve_in_range|].
    constructor; [split; [solve_in_range|split; solve_in_range]|]. constructor.
Defined.

(** The conditions of [pack_bag_unpack_bag] hold for the same two
    parameters. *)
Lemma pack_bag_unpack_bag_witness :
  ∃ msg h os,
    pack_bag latin1_encode big_cmd (PInt 2)
      [DTuple [PInt 5; PInt 9]; DDict [(PInt 7, b "abc")]] = Ok msg
    ∧ unpack_bag latin1_decode big_cmd (Some msg) false = Some (Ok (Some (h :: os)))
    ∧ (recorded <$> os) = [Some (5, PInt 9); Some (7, b "abc")].
Proof.
  destruct (pack_bag_unpack_bag latin1_decode latin1_encode big_cmd 2
              [DTuple [PInt 5; PInt 9]; DDict [(PInt 7, b "abc")]]
              [IntegerParameter 5 9; StringParameter 7 (String.list_byte_of_string "abc")])
    as (msg & h & os & Hp & Hu & _ & _ & Hrec).
  - solve_in_range.
  - solve_in_range.
  - constructor; [left; reflexivity|].
    constructor; [right; split; reflexivity|]. constructor.
  - constructor; [split; solve_in_range|].
    constructor; [split; [solve_in_range|split; solve_in_range]|]. constructor.
  - exists msg, h, os. split; [exact Hp|]. split; [exact Hu|].
    inversion Hrec as [|o1 p1 os1 ps1 H1 Hrec1]; subst.
    inversion Hrec1 as [|o2 p2 os2 ps2 H2 Hrec2]; subst.
    inversion Hrec2; subst. cbn [fmap list_fmap]. rewrite H1, H2. reflexivity.
Defined.


(** ** Buffers and replies that are too short *)

Section Short.

Variable codec_decode : string → bytes → result (list N).
Variable codec_encode : string → list N → result bytes.


(** X6: a reply whose message data is empty ends [execute_command] with a
    [TypeError]: [unpack_bag] returns [None] for it, and the loop takes
    the first element of what [unpack_bag] returned. *)
Theorem execute_command_empty_reply (self : PCFCommand) (command : pyval)
    (parm_list : list directive) (t : transport) (msg_body : bytes)
    (pre post : list get_outcome) (bags : list (list MQOpts)) (cc : Z) :
  open_outcome t = Ok () →
  pack_bag codec_encode self command parm_list = Ok msg_body →
  put1_outcome t msg_body = Ok () →
  Forall2 (λ g bag, receive codec_decode self g = Some (Ok (false, bag))) pre bags →
  get_outcomes t = pre ++ Delivered [] cc :: post →
  execute_command codec_decode codec_encode self command parm_list t
  = Some (Raise TypeError).
Proof.
  intros Hopen Hpack Hput Hpre Hgets. unfold execute_command.
  rewrite Hopen. cbn [mbind result_bind]. rewrite Hpack. cbn [mbind result_bind].
  rewrite Hput, Hgets.
  rewrite (receive_loop_more codec_decode self pre bags Hpre).
  cbn [receive_loop receive]. destruct (bool_decide (cc ≠ ccsid self)); reflexivity.
Qed.

End Short.


(** The conditions of [execute_command_empty_reply] hold when the first
    reply is empty. *)
Lemma execute_command_empty_reply_witness :
  execute_command latin1_decode latin1_encode native_cmd (PInt MQCMD_INQUIRE_Q_MGR) []
    (mkTransport (Ok ()) (λ _, Ok ()) [Delivered [] 819])
  = Some (Raise TypeError).
Proof.
  assert (∃ body, pack_bag latin1_encode native_cmd (PInt MQCMD_INQUIRE_Q_MGR) []
                  = Ok body) as [body Hbody] by (vm_compute; eexists; reflexivity).
  apply (execute_command_empty_reply latin1_decode latin1_encode native_cmd
           (PInt MQCMD_INQUIRE_Q_MGR) []
           (mkTransport (Ok ()) (λ _, Ok ()) [Delivered [] 819])
           body [] [] [] 819 eq_refl Hbody eq_refl).
  - constructor.
  - reflexivity.
Defined.

(** ** Decoding a byte string and a list of integers *)

Lemma slice_to_exact {A} (l : list A) (n : Z) :
  0 ≤ n ≤ len l → len (slice_to l n) = n.
Proof. intros H. rewrite len_slice_to. apply clamp_inside. exact H. Qed.

Lemma slice_to_short {A} (l : list A) (n : Z) :
  len l < n → len (slice_to l n) = len l.
Proof.
  intros H. rewrite len_slice_to. unfold clamp. pose proof (len_nonneg l).
  destruct (n <? 0) eqn:E; lia.
Qed.

(** The fixed part of [k] longs of a structure, decoded or refused. *)
Ltac rewrite_unpack_longs big k :=
  let E := fresh "E" in
  pose proof (struct_unpack_longs big k) as E;
  cbn [replicate app] in E;
  let n := eval vm_compute in (4 * Z.of_nat k) in
  change (4 * Z.of_nat k) with n in E;
  rewrite E; clear E.

Ltac unpack_fixed_longs k :=
  unfold unpack_fixed, unpack; run_unpack;
  match goal with
  | |- context [is_big_endian ?e] =>
      destruct (is_big_endian e); run_unpack; unfold MQOpts_unpack; run_unpack;
      [ rewrite_unpack_longs true k | rewrite_unpack_longs false k ]
  end.

(** Names the longs read from a buffer. *)
Ltac abstract_longs :=
  repeat match goal with
  | |- context [decode_long ?big ?x] =>
      let z := fresh "z" in generalize (decode_long big x); intros z
  end.

Lemma long_at_slice_to_4 (buf : bytes) :
  4 ≤ len buf → long_at false (slice_to buf 4) 0 = long_at false buf 0.
Proof.
  intros H. rewrite !long_at_0. rewrite take4_slice_to; [reflexivity|].
  rewrite slice_to_exact; lia.
Qed.

Lemma long_at_slice_from_4 (big : bool) (buf : bytes) (i : nat) :
  4 * Z.of_nat i + 8 ≤ len buf →
  long_at big (slice_from buf 4) i = long_at big buf (S i).
Proof.
  intros H. unfold long_at. f_equal. f_equal.
  assert (len (slice_from buf 4) = len buf - 4) as Hl
    by (rewrite len_slice_from, clamp_inside; lia).
  rewrite !slice_between_take_drop by lia.
  rewrite slice_from_drop, clamp_inside by lia.
  rewrite drop_drop. f_equal; [lia|]. f_equal. lia.
Qed.

(** The loop of [CFIL.unpack] over [range(Count)]. *)
Lemma read_integers_enough (count : nat) :
  ∀ (int_buf : bytes) (acc : list pyval),
    4 * Z.of_nat count ≤ len int_buf →
    read_integers count int_buf acc
    = Ok (acc ++ ((λ i, PTuple [long_at false int_buf i]) <$> seq 0 count)).
Proof.
  induction count as [|count IH]; intros int_buf acc Hlen.
  - cbn. rewrite app_nil_r. reflexivity.
  - cbn [read_integers]. unfold MQLONG_TYPE.
    pose proof (struct_unpack_longs false 1 (slice_to int_buf 4)) as E.
    cbn [replicate app] in E. rewrite E. clear E.
    rewrite slice_to_exact by lia. change (4 =? 4 * Z.of_nat 1) with true.
    cbn [seq fmap list_fmap mbind result_bind].
    rewrite IH by (rewrite len_slice_from, clamp_inside; lia).
    rewrite long_at_slice_to_4 by lia. rewrite <- app_assoc. f_equal. f_equal.
    cbn [app]. f_equal. rewrite <- fmap_S_seq, <- list_fmap_compose.
    apply list_fmap_ext. intros i x Hx. apply lookup_seq in Hx as [-> Hi].
    cbn. rewrite long_at_slice_from_4 by lia. reflexivity.
Qed.

Lemma read_integers_short (count : nat) :
  ∀ (int_buf : bytes) (acc : list pyval),
    len int_buf < 4 * Z.of_nat count →
    read_integers count int_buf acc = Raise StructError.
Proof.
  induction count as [|count IH]; intros int_buf acc Hlen.
  - pose proof (len_nonneg int_buf). lia.
  - cbn [read_integers]. unfold MQLONG_TYPE.
    pose proof (struct_unpack_longs false 1 (slice_to int_buf 4)) as E.
    cbn [replicate app] in E. rewrite E. clear E.
    change (4 * Z.of_nat 1) with 4.
    destruct (Z.lt_ge_cases (len int_buf) 4) as [Hs|Hs].
    + rewrite slice_to_short by exact Hs.
      assert ((len int_buf =? 4) = false) as -> by lia. reflexivity.
    + rewrite slice_to_exact by lia. change (4 =? 4) with true.
      cbn [mbind result_bind]. apply IH.
      rewrite len_slice_from, clamp_inside; lia.
Qed.

(** X8: [CFIL.unpack] on a buffer of at least 16 bytes reads [Count]
    integers of four bytes from the payload, always in the native byte
    order, and appends each as a tuple of one element to [integer_list]:
    it returns when the payload has four bytes for each of them, and raises
    [struct.error] when the payload is shorter. *)
Theorem CFIL_unpack_integer_list (o : MQOpts) (buff : bytes) (encoding : option Z)
    (count : Z) :
  CFIL [] = Ok o → 16 ≤ len buff →
  long_at (is_big_endian encoding) (slice_to buff MQCFIL_STRUC_LENGTH_FIXED) 3
  = PInt count →
  (4 * count ≤ len buff - 16 →
   ∃ o', CFIL_unpack o buff encoding = Ok o'
         ∧ integer_list o'
           = (λ i, PTuple [long_at false (slice_from buff MQCFIL_STRUC_LENGTH_FIXED) i])
               <$> seq 0 (Z.to_nat count))
  ∧ (len buff - 16 < 4 * count → CFIL_unpack o buff encoding = Raise StructError).
Proof.
  intros Ho Hlen Hcount. unfold CFIL, long, MQLONG_TYPE in Ho. cbn in Ho.
  injection Ho as <-.
  assert (len (slice_from buff MQCFIL_STRUC_LENGTH_FIXED) = len buff - 16) as Hp
    by (rewrite len_slice_from, clamp_inside; unfold MQCFIL_STRUC_LENGTH_FIXED; lia).
  split; intros Hc; unfold CFIL_unpack.
  - unpack_fixed_longs 4%nat.
    all: assert ((len (slice_to buff MQCFIL_STRUC_LENGTH_FIXED) =? 16) = true)
           as -> by (rewrite slice_to_exact by (unfold MQCFIL_STRUC_LENGTH_FIXED; lia);
                     reflexivity).
    all: cbn [seq fmap list_fmap]; rewrite Hcount; unfold long_at at 1 2 3; run_unpack.
    all: abstract_longs.
    all: match goal with
         | |- context [if ?c then _ else _] => destruct c
         end; run_unpack.
    all: rewrite read_integers_enough by (rewrite Hp; lia).
    all: unfold set_integer_list; run_unpack.
    all: eexists; split; [reflexivity|reflexivity].
  - unpack_fixed_longs 4%nat.
    all: assert ((len (slice_to buff MQCFIL_STRUC_LENGTH_FIXED) =? 16) = true)
           as -> by (rewrite slice_to_exact by (unfold MQCFIL_STRUC_LENGTH_FIXED; lia);
                     reflexivity).
    all: cbn [seq fmap list_fmap]; rewrite Hcount; unfold long_at; run_unpack.
    all: abstract_longs.
    all: match goal with
         | |- context [if ?c then _ else _] => destruct c
         end; run_unpack.
    all: rewrite read_integers_short by (rewrite Hp; lia).
    all: reflexivity.
Qed.


(** The conditions of [CFIL_unpack_integer_list] hold for a list of the
    two integers 11 and 12. *)
Lemma CFIL_unpack_integer_list_witness :
  ∃ o', (o ← CFIL [];
         CFIL_unpack o (longs false [MQCFT_INTEGER_LIST; 24; 7; 2; 11; 12]) None) = Ok o'
        ∧ integer_list o' = [PTuple [PInt 11]; PTuple [PInt 12]].
Proof.
  assert (∃ o, CFIL [] = Ok o) as [o Ho] by (eexists; reflexivity).
  destruct (CFIL_unpack_integer_list o
              (longs false [MQCFT_INTEGER_LIST; 24; 7; 2; 11; 12]) None 2 Ho)
    as [H _]; [vm_compute; discriminate|reflexivity|].
  destruct H as (o' & Ho' & Hl); [vm_compute; discriminate|].
  exists o'. split; [rewrite Ho; exact Ho'|]. rewrite Hl. reflexivity.
Defined.

(** ** What [pack_bag] skips and what it refuses *)

Section Bag.

Variable codec_encode : string → list N → result bytes.

(** The header of [pack_bag]: the loop over [parm_list] starts from it. *)
Lemma pack_bag_header (self : PCFCommand) (command : Z) (ds : list directive) :
  in_range command → in_range (len ds) →
  pack_bag codec_encode self (PInt command) ds
  = pack_parameters codec_encode self
      (command_header (is_big_endian (Some (encoding self))) command (len ds)) ds.
Proof.
  intros Hc Hn. unfold pack_bag, CFH, long, MQLONG_TYPE.
  run_pack. unfold pack.
  assert (long_values
            [PInt MQCFT_COMMAND_XR; PInt MQCFH_STRUC_LENGTH; PInt MQCFH_VERSION_3;
             PInt command; PInt 1; PInt MQCFC_LAST; PInt MQCC_OK; PInt MQRC_NONE;
             PInt (len ds)]
            [MQCFT_COMMAND_XR; MQCFH_STRUC_LENGTH; MQCFH_VERSION_3; command;
             1; MQCFC_LAST; MQCC_OK; MQRC_NONE; len ds]) as Hvals
    by solve_long_values.
  unfold command_header.
  destruct (is_big_endian (Some (encoding self))); run_pack.
  - pack_longs Hvals true. reflexivity.
  - pack_longs Hvals false. reflexivity.
Qed.

(** X9: an instance of [MQOpts] in a [parm_list] is counted in the
    [ParameterCount] of the header and is not packed: for a list of
    instances [pack_bag] returns the 36 bytes of the header alone, with the
    number of instances as the parameter count. *)
Theorem pack_bag_skips_instances (self : PCFCommand) (command : Z)
    (os : list MQOpts) :
  in_range command → in_range (len os) →
  pack_bag codec_encode self (PInt command) (DStruct <$> os)
  = Ok (command_header (is_big_endian (Some (encoding self))) command (len os)).
Proof.
  intros Hc Hn.
  assert (len (DStruct <$> os) = len os) as Hlen
    by (unfold len; rewrite length_fmap; reflexivity).
  rewrite pack_bag_header by (rewrite ?Hlen; assumption). rewrite Hlen.
  generalize (command_header (is_big_endian (Some (encoding self))) command (len os)).
  clear Hn Hlen. induction os as [|o os IH]; intros buf; [reflexivity|].
  cbn [fmap list_fmap pack_parameters pack_parameter mbind result_bind]. apply IH.
Qed.

End Bag.

(** The conditions of [pack_bag_skips_instances] hold for a list of two
    instances. *)
Lemma pack_bag_skips_instances_witness :
  pack_bag latin1_encode native_cmd (PInt 2) [DStruct new_object; DStruct new_object]
  = Ok (command_header false 2 2).
Proof.
  apply (pack_bag_skips_instances latin1_encode native_cmd 2 [new_object; new_object]);
    solve_in_range.
Defined.

(** ** The constructor of [PCFCommand] *)

(** X11: whatever the arguments are, the command object gets an encoding
    other than zero; for a z/OS queue manager it converts and has a code
    page other than zero; and [ccsid_str] is left unset exactly when
    neither the code page nor the encoding is given for a z/OS queue
    manager, also when [ccsid_str] is passed. *)
Theorem PCFCommand_init_attributes (ccsid encoding : option Z)
    (ccsid_str : option string) (convert zos : bool) (command_queue : option bytes) :
  let a := PCFCommand_init ccsid encoding ccsid_str convert zos command_queue in
  attr_encoding a ≠ 0
  ∧ (zos = true → attr_convert a = true ∧ attr_ccsid a ≠ 0)
  ∧ (zos = false → attr_convert a = convert)
  ∧ (attr_ccsid_str a = None ↔ ccsid = None ∧ encoding = None ∧ zos = true)
  ∧ (attr_ccsid_str a = None → attr_convert a = true
                               ∧ command_object a = Raise (AttributeError "ccsid_str")).
Proof.
  cbv zeta. unfold PCFCommand_init.
  destruct ccsid as [c|], encoding as [e|], zos;
    cbn [attr_encoding attr_convert attr_ccsid attr_ccsid_str command_object];
    repeat match goal with
    | |- context [?x =? 0] => destruct (Z.eqb_spec x 0)
    end;
    repeat split; try discriminate; try congruence; try (intros; discriminate);
    try (intros (? & ? & ?); discriminate); try (intros [? ?]; discriminate).
Qed.

Lemma format_03d_digits_below (k : nat) :
  forallb (λ i, let s := format_03d (Z.of_nat i) in
                Nat.eqb (String.length s) 3
                && bool_decide (decimal_value s = Some (Z.of_nat i)))
          (seq 0 k) = true →
  ∀ n, 0 ≤ n < Z.of_nat k →
       String.length (format_03d n) = 3%nat ∧ decimal_value (format_03d n) = Some n.
Proof.
  intros H n Hn. rewrite forallb_forall in H.
  specialize (H (Z.to_nat n)).
  rewrite Z2Nat.id in H by lia.
  assert (In (Z.to_nat n) (seq 0 k)) as Hin by (apply in_seq; lia).
  apply H in Hin. apply andb_true_iff in Hin as [H1 H2].
  apply Nat.eqb_eq in H1. apply bool_decide_eq_true in H2. auto.
Qed.

(** X12: when [ccsid_str] is not given and is set, it is the code page
    written with at least three decimal digits: for a code page from 1 to
    999 it has exactly three characters, and they denote the code page.  *)
Theorem PCFCommand_init_ccsid_str (ccsid : Z) (encoding : option Z)
    (convert zos : bool) (command_queue : option bytes) :
  0 < ccsid < 1000 →
  let a := PCFCommand_init (Some ccsid) encoding None convert zos command_queue in
  ∃ s, attr_ccsid_str a = Some s
       ∧ attr_ccsid a = ccsid
       ∧ String.length s = 3%nat
       ∧ decimal_value s = Some ccsid.
Proof.
  intros Hc. cbv zeta. unfold PCFCommand_init.
  assert ((ccsid =? 0) = false) as E by lia.
  pose proof (format_03d_digits_below 1000 ltac:(vm_compute; reflexivity) ccsid
                ltac:(lia)) as [Hl Hv].
  destruct encoding as [e|], zos; rewrite E; cbn [attr_ccsid_str attr_ccsid];
    (eexists; split; [reflexivity|]; split; [reflexivity|]; split; assumption).
Qed.

(** The condition of [PCFCommand_init_ccsid_str] holds for the code page
    37 of a z/OS queue manager. *)
Lemma PCFCommand_init_ccsid_str_witness :
  attr_ccsid_str (PCFCommand_init (Some 37) (Some 785) None false true None)
  = Some "037"%string.
Proof.
  destruct (PCFCommand_init_ccsid_str 37 (Some 785) false true None)
    as (s & Hs & _ & _ & _); [lia|].
  reflexivity.
Defined.

(** For a z/OS queue manager with neither code page nor encoding, the
    attribute [ccsid_str] is unset although the argument was passed. *)
Lemma PCFCommand_init_attributes_witness :
  let a := PCFCommand_init None None (Some "cp037"%string) false true None in
  attr_convert a = true ∧ command_object a = Raise (AttributeError "ccsid_str").
Proof.
  cbv zeta.
  destruct (PCFCommand_init_attributes None None (Some "cp037"%string) false true None)
    as (_ & _ & _ & Hnone & Hraise).
  apply Hraise. apply Hnone. repeat split.
Defined.

(** ** The text of [mqsc_command] *)

Lemma eqb_newline (c : byte) : c ≠ x0a → Byte.eqb x0a c = false.
Proof. intros H. destruct c; try reflexivity. congruence. Qed.

Lemma find_newline_none (l : bytes) (i : Z) :
  x0a ∉ l → find_from Byte.eqb newline l i = -1.
Proof.
  revert i. induction l as [|c l IH]; intros i H; [reflexivity|].
  apply not_elem_of_cons in H as [Hc Hl].
  cbn [find_from starts_with newline].
  rewrite (eqb_newline c) by congruence. cbn [andb]. apply IH, Hl.
Qed.

Lemma find_newline_first (line rest : bytes) (i : Z) :
  x0a ∉ line → find_from Byte.eqb newline (line ++ x0a :: rest) i = i + len line.
Proof.
  revert i. induction line as [|c l IH]; intros i H.
  - cbn [app find_from starts_with newline Byte.eqb]. unfold len. cbn [length].
    change (Byte.eqb x0a x0a) with true. cbn [andb]. lia.
  - apply not_elem_of_cons in H as [Hc Hl].
    cbn [app find_from starts_with newline].
    rewrite (eqb_newline c) by congruence. cbn [andb].
    rewrite IH by exact Hl. unfold len. cbn [length]. lia.
Qed.

Lemma replace_newline (l : bytes) :
  replace_from Byte.eqb newline space l 0
  = (λ c, if Byte.eqb x0a c then x20 else c) <$> l.
Proof.
  induction l as [|c l IH]; [reflexivity|].
  cbn [replace_from starts_with newline space length Nat.sub fmap list_fmap].
  destruct (Byte.eqb x0a c).
  - cbn [andb app]. change (1 - 1)%nat with 0%nat. f_equal. exact IH.
  - cbn [andb]. f_equal. exact IH.
Qed.

Lemma slice_empty_head {A} (l : list A) : slice l (Some 0) (Some 0) = [].
Proof.
  unfold slice. rewrite clamp_inside by (pose proof (len_nonneg l); lia).
  reflexivity.
Qed.

Lemma slice_last {A} (l : list A) :
  slice l (Some (-1)) None = match last l with Some c => [c] | None => [] end.
Proof.
  destruct l as [|x l] using rev_ind; [reflexivity|].
  rewrite last_snoc. unfold slice, clamp.
  change (-1 <? 0) with true. cbv iota. rewrite len_app.
  change (len [x]) with 1.
  pose proof (len_nonneg l).
  replace (Z.max 0 (len l + 1 + -1)) with (len l) by lia.
  replace (Z.to_nat (len l + 1 - len l)) with 1%nat by lia.
  unfold len. rewrite Nat2Z.id, drop_app_length. reflexivity.
Qed.

Lemma strip_after_space (c : byte) (l : bytes) :
  is_space c = true → strip is_space (c :: l) = strip is_space l.
Proof. intros H. unfold strip. cbn [lstrip]. rewrite H. reflexivity. Qed.

Section Text.

Variable unicode_isspace : N → bool.

(** X15: with [one_line], a text without a newline adds to the result no
    more than its last byte, unless that is white space, and a newline;
    a text with a newline adds its first line with the newline, then the
    rest without the white space around it and with a space for every
    newline, then a newline. *)
Theorem add_escape_text_one_line (ret text line rest : bytes) :
  (x0a ∉ text →
   add_escape_text unicode_isspace true (PStr ret) (PStr text)
   = Ok (PStr (ret ++ match last text with
                      | Some c => if is_space c then [] else [c]
                      | None => []
                      end ++ newline)))
  ∧ (x0a ∉ line →
     add_escape_text unicode_isspace true (PStr ret) (PStr (line ++ x0a :: rest))
     = Ok (PStr (ret ++ line ++ newline
                   ++ ((λ c, if Byte.eqb x0a c then x20 else c)
                         <$> strip is_space rest)
                   ++ newline))).
Proof.
  split; intros H; unfold add_escape_text, py_find.
  - rewrite find_newline_none by exact H.
    cbn [mbind result_bind py_slice py_add py_strip py_replace].
    change (-1 + 1) with 0. rewrite slice_empty_head, slice_last, replace_newline.
    rewrite app_nil_r. do 2 f_equal. rewrite <- app_assoc. f_equal. f_equal.
    destruct (last text) as [c|]; [|reflexivity].
    unfold strip. cbn [lstrip]. destruct (is_space c) eqn:E; [reflexivity|].
    change (reverse [c]) with [c]. cbn [lstrip]. rewrite E.
    change (reverse [c]) with [c]. cbn [fmap list_fmap].
    destruct (Byte.eqb x0a c) eqn:Ec; [|reflexivity].
    apply Byte.byte_dec_bl in Ec. subst c. discriminate E.
  - rewrite find_newline_first by exact H.
    cbn [mbind result_bind py_slice py_add py_strip py_replace].
    change (0 + len line) with (len line).
    replace (slice (line ++ x0a :: rest) (Some 0) (Some (len line + 1)))
      with (line ++ newline).
    2:{ change (slice ?l (Some 0) (Some ?h)) with (slice_between l 0 h).
        pose proof (len_nonneg line). pose proof (len_nonneg rest).
        rewrite slice_between_take_drop;
          [|lia|unfold len in *; rewrite length_app; cbn [length]; lia].
        change (Z.to_nat 0) with 0%nat. rewrite drop_0.
        replace (Z.to_nat (len line + 1 - 0)) with (length (line ++ newline)).
        - change (line ++ x0a :: rest) with (line ++ [x0a] ++ rest).
          rewrite app_assoc. symmetry. apply take_app_length.
        - rewrite length_app. unfold len. cbn [length newline]. lia. }
    change (slice ?l (Some ?a) None) with (slice_from l a).
    rewrite slice_from_app, strip_after_space by reflexivity.
    rewrite replace_newline. do 2 f_equal.
    rewrite <- !app_assoc. reflexivity.
Qed.

End Text.

(** The first condition of [add_escape_text_one_line] holds for a text of
    one line, of which the last letter is left. *)
Lemma add_escape_text_one_line_witness :
  add_escape_text (λ _, false) true (PStr []) (b "AMQ8408")
  = Ok (PStr [x38; x0a]).
Proof.
  apply (proj1 (add_escape_text_one_line (λ _, false) []
                  (String.list_byte_of_string "AMQ8408") [] [])).
  vm_compute. intros H. repeat (apply elem_of_cons in H as [H|H]; [discriminate H|]).
  inversion H.
Defined.

(** ** Decoding a string filter *)

(** Evaluates the object that the fixed part of a buffer gives. *)
Ltac evaluate_fixed :=
  match goal with
  | |- context [@mbind result _ _ _ ?f (@mbind result _ _ _ ?g ?X)] =>
      let r := eval vm_compute in (@mbind result _ _ _ g X) in
      change (@mbind result _ _ _ g X) with r
  end.




(** ** The parsing loop, whatever the base [unpack] does *)

Section LoopOverBase.

Variable codec_decode : string → bytes → result (list N).
Variable base_unpack : MQOpts → bytes → result MQOpts.





(** With more rounds allowed the loop returns the same. *)
Lemma unpack_loop_over_more (self : PCFCommand) (conv : bool) (fuel : nat) :
  ∀ fuel' st new_buff r, (fuel ≤ fuel')%nat →
    unpack_loop_over codec_decode base_unpack fuel self conv st new_buff = Some r →
    unpack_loop_over codec_decode base_unpack fuel' self conv st new_buff = Some r.
Proof.
  induction fuel as [|fuel IH]; intros fuel' st new_buff r Hle H;
    [discriminate|].
  destruct fuel' as [|fuel']; [lia|]. simpl in *.
  destruct (unpack_parameter_over _ _ _ _ _ _) as [[st' rest]|e]; [|exact H].
  destruct (len rest =? 0); [exact H|]. apply IH; [lia | exact H].
Qed.






End LoopOverBase.

(** With [MQOpts_unpack] for the base, the parser is [unpack_bag]. *)
Lemma unpack_parameter_over_base (codec_decode : string → bytes → result (list N))
    (self : PCFCommand) (conv : bool) (st : bag_state) (new_buff : bytes) :
  unpack_parameter_over codec_decode MQOpts_unpack self conv st new_buff
  = unpack_parameter codec_decode self conv st new_buff.
Proof. reflexivity. Qed.

Lemma unpack_bag_over_base (codec_decode : string → bytes → result (list N))
    (self : PCFCommand) (buff : option bytes) (conv : bool) :
  unpack_bag_over codec_decode MQOpts_unpack self buff conv
  = unpack_bag codec_decode self buff conv.
Proof.
  assert (∀ fuel st new_buff,
            unpack_loop_over codec_decode MQOpts_unpack fuel self conv st new_buff
            = unpack_loop codec_decode fuel self conv st new_buff) as Hloop.
  { induction fuel as [|fuel IH]; intros st new_buff; [reflexivity|].
    cbn [unpack_loop_over unpack_loop]. rewrite unpack_parameter_over_base.
    destruct (unpack_parameter _ _ _ _ _) as [[st' rest]|e]; [|reflexivity].
    rewrite IH. reflexivity. }
  unfold unpack_bag_over, unpack_bag, unpack_bag_run_over, unpack_bag_run.
  destruct buff as [buff|]; [|reflexivity].
  destruct (len buff =? 0); [reflexivity|].
  change (unpack_over MQOpts_unpack) with unpack.
  destruct (_ ≫= _) as [resp_cfh|e]; [|reflexivity].
  destruct (len (slice_from buff 36) =? 0); [reflexivity|].
  rewrite Hloop. reflexivity.
Qed.



(** X7: on a buffer of at least 16 bytes [CFBS.unpack] returns.  The
    structure it leaves has the member [String]: what follows the fixed
    part when the declared [StringLength] is zero, and the bytes that
    length covers otherwise.  Its [StrucLength] is 16 plus the length of
    that [String], whatever [StrucLength] the buffer declares. *)
Theorem CFBS_unpack_length (o : MQOpts) (buff : bytes) (encoding : option Z)
    (n : Z) :
  CFBS [] = Ok o → 16 ≤ len buff →
  long_at (is_big_endian encoding) (slice_to buff MQCFBS_STRUC_LENGTH_FIXED) 3
  = PInt n →
  let s := if n =? 0 then slice_from buff 16 else slice_between buff 16 (16 + n) in
  ∃ o', CFBS_unpack o buff encoding = Ok o'
        ∧ attr_get (attrs o') "String" = Some (PStr s)
        ∧ attr_get (attrs o') "StrucLength" = Some (PInt (16 + len s)).
Proof.
  intros Ho Hlen Hn. unfold CFBS, long, MQLONG_TYPE in Ho. cbn in Ho.
  injection Ho as <-. cbv zeta. unfold CFBS_unpack, declared_payload.
  unpack_fixed_longs 4%nat.
  all: assert ((len (slice_to buff MQCFBS_STRUC_LENGTH_FIXED) =? 16) = true)
         as -> by (rewrite slice_to_exact by (unfold MQCFBS_STRUC_LENGTH_FIXED; lia);
                   reflexivity).
  all: cbn [seq fmap list_fmap]; rewrite Hn; unfold long_at.
  all: abstract_longs.
  all: unfold MQCFBS_STRUC_LENGTH_FIXED.
  all: evaluate_fixed.
  all: run_unpack.
  all: unfold eq_int; cbn [int_value].
  all: destruct (n =? 0); run_unpack.
  all: match goal with
       | |- context [PStr ?v] => generalize v; intros value
       end.
  all: vm_compute.
  all: eexists; split; [reflexivity|].
  all: split; reflexivity.
Qed.

(** The conditions of [CFBS_unpack_length] hold for a byte string of three
    bytes that declares a [StrucLength] of 100. *)
Lemma CFBS_unpack_length_witness :
  ∃ o', (o ← CFBS [];
         CFBS_unpack o (longs false [MQCFT_BYTE_STRING; 100; 7; 3]
                          ++ String.list_byte_of_string "abc") None) = Ok o'
        ∧ attr_get (attrs o') "String" = Some (b "abc")
        ∧ attr_get (attrs o') "StrucLength" = Some (PInt 19).
Proof.
  assert (∃ o, CFBS [] = Ok o) as [o Ho] by (eexists; reflexivity).
  destruct (CFBS_unpack_length o
              (longs false [MQCFT_BYTE_STRING; 100; 7; 3]
                 ++ String.list_byte_of_string "abc") None 3 Ho)
    as (o' & Ho' & Hs & Hl); [vm_compute; discriminate|reflexivity|].
  exists o'. split; [rewrite Ho; exact Ho'|]. split; [exact Hs|exact Hl].
Defined.

(** ** What [pack_bag] refuses *)

Section Refused.

Variable codec_encode : string → list N → result bytes.






End Refused.


(** ** The helper methods on a reply without parameters *)

Section HelperProperties.

Variable codec_decode : string → bytes → result (list N).
Variable codec_encode : string → list N → result bytes.
Variable unicode_isspace : N → bool.
Variable stringified : Type.
Variable executor : Type.
Variable PCFExecute : result executor.
Variable stringifyKeys : executor → gmap Z pyval → result stringified.
Variable zos_mqsc_command : PCFCommand → pyval → transport → option (result pyval).

(** A reply that consists of a header whose control flag is [MQCFC_LAST],
    decoded: the header holds the longs of the reply. *)
Lemma receive_bare_header (self : PCFCommand)
    (type struc_length version command seq comp reason count md : Z) :
  Forall in_range [type; struc_length; version; command; seq; comp; reason; count] →
  ∃ h, receive codec_decode self
         (Delivered (longs (is_big_endian (Some (encoding self)))
                       [type; struc_length; version; command; seq; MQCFC_LAST;
                        comp; reason; count]) md)
       = Some (Ok (true, [h]))
       ∧ attr_get (attrs h) "Type" = Some (PInt type)
       ∧ attr_get (attrs h) "CompCode" = Some (PInt comp)
       ∧ attr_get (attrs h) "Reason" = Some (PInt reason).
Proof.
  intros Hall.
  repeat match goal with
         | H : Forall _ (_ :: _) |- _ => apply Forall_cons in H as [? H]
         end.
  unfold receive, unpack_bag, unpack_bag_run, rounds.
  set (big := is_big_endian (Some (encoding self))).
  set (zs := [type; struc_length; version; command; seq; MQCFC_LAST; comp; reason;
              count]).
  assert ((len (longs big zs) =? 0) = false) as -> by (rewrite len_longs; reflexivity).
  rewrite <- (app_nil_r (longs big zs)).
  rewrite (slice_to_longs big zs [] 36 eq_refl), (slice_from_longs big zs [] 36 eq_refl).
  change (len [] =? 0) with true. cbv iota.
  unfold CFH, long, MQLONG_TYPE, unpack. run_unpack. fold big.
  subst zs. destruct big; run_unpack; unfold MQOpts_unpack; run_unpack.
  - unpack_encoded true [type; struc_length; version; command; seq; MQCFC_LAST;
                         comp; reason; count].
    vm_compute. eexists; split; [reflexivity|repeat split; vm_compute; reflexivity].
  - unpack_encoded false [type; struc_length; version; command; seq; MQCFC_LAST;
                          comp; reason; count].
    vm_compute. eexists; split; [reflexivity|repeat split; vm_compute; reflexivity].
Qed.

(** A command that packs, answered by such a reply whose type is one of
    the four header types: the response has the completion and reason code
    of the reply and no parameter map. *)
Lemma execute_command_bare_header (self : PCFCommand) (t : transport)
    (type struc_length version cmd seq comp reason count md : Z)
    (post : list get_outcome) (command : pyval) (ds : list directive) (body : bytes) :
  open_outcome t = Ok () →
  pack_bag codec_encode self command ds = Ok body →
  put1_outcome t body = Ok () →
  Forall in_range [type; struc_length; version; cmd; seq; comp; reason; count] →
  is_header_type (PInt type) = true →
  get_outcomes t
  = Delivered (longs (is_big_endian (Some (encoding self)))
                 [type; struc_length; version; cmd; seq; MQCFC_LAST;
                  comp; reason; count]) md :: post →
  ∃ r, execute_command codec_decode codec_encode self command ds t = Some (Ok r)
       ∧ comp_code r = Ok (Some (PInt comp))
       ∧ reason_code r = Ok (Some (PInt reason))
       ∧ parms r = [].
Proof.
  intros Hopen Hbody Hput Hall Htype Hgets.
  destruct (receive_bare_header self type struc_length version cmd seq comp reason
              count md Hall) as (h & Hrecv & Hty & Hcomp & Hreason).
  unfold execute_command.
  rewrite Hopen. cbn [mbind result_bind]. rewrite Hbody. cbn [mbind result_bind].
  rewrite Hput, Hgets. cbn [receive_loop]. rewrite Hrecv. cbn [app].
  unfold new_PCFCommandResponse. change (0 <? len [[h]]) with true. cbv iota.
  cbn [classify_all classify]. unfold getitem, getattr. rewrite Hty.
  cbn [mbind result_bind]. rewrite Htype.
  assert (∀ (A : Type) (c : bool) (x : A), (if c then x else x) = x) as Hsame
    by (intros A [|] x; reflexivity).
  cbn [classify]. rewrite Hsame.
  cbn [mbind result_bind classify_all app].
  change (0 <? Z.of_nat (size (∅ : gmap Z pyval))) with false. cbv iota.
  eexists. split; [reflexivity|].
  unfold comp_code, reason_code. cbn [header parms]. unfold getitem, getattr.
  rewrite Hcomp, Hreason. repeat split; reflexivity.
Qed.

(** X13: when the request packs and is put, and the first reply consists
    of a header alone, of one of the four header types and with the control
    flag [MQCFC_LAST], the response has no parameter map.  With the
    completion code [MQCC_FAILED] both inquiries return [None].  With
    another one [inquire_qmgr] raises [IndexError] and [inquire_q] returns
    the empty list; with [stringify_keys] that holds when the call
    [pymqi.PCFExecute(None)] returns. *)
Theorem inquiries_on_bare_header (self : PCFCommand) (stringify : bool)
    (t : transport) (type struc_length version cmd seq comp reason count md : Z)
    (post : list get_outcome) (pcf : executor)
    (qmgr_attrs : option pyval)
    (queue_name name : pyval) (parms_arg : option (list directive))
    (q_attrs : option pyval) :
  open_outcome t = Ok () → (∀ body, put1_outcome t body = Ok ()) →
  Forall in_range [type; struc_length; version; cmd; seq; comp; reason; count] →
  is_header_type (PInt type) = true →
  get_outcomes t
  = Delivered (longs (is_big_endian (Some (encoding self)))
                 [type; struc_length; version; cmd; seq; MQCFC_LAST;
                  comp; reason; count]) md :: post →
  (stringify = true → PCFExecute = Ok pcf) →
  ((∃ body, pack_bag codec_encode self (PInt MQCMD_INQUIRE_Q_MGR)
              (qmgr_parm_list qmgr_attrs) = Ok body) →
   inquire_qmgr codec_decode codec_encode stringified executor PCFExecute
     stringifyKeys self qmgr_attrs stringify t
   = Some (if comp =? MQCC_FAILED then Ok (NoQmgr stringified)
           else Raise IndexError))
  ∧ (encode_if_str codec_encode queue_name = Ok name →
     (∃ body, pack_bag codec_encode self (PInt MQCMD_INQUIRE_Q)
                (queue_parm_list name parms_arg q_attrs) = Ok body) →
     inquire_q codec_decode codec_encode stringified executor PCFExecute
       stringifyKeys self queue_name parms_arg q_attrs stringify t
     = Some (Ok (if comp =? MQCC_FAILED then NoQueues stringified
                 else if stringify then QueueNames stringified []
                 else QueueParms stringified []))).
Proof.
  intros Hopen Hput Hall Htype Hgets Hpcf. split.
  - intros [body Hbody].
    destruct (execute_command_bare_header self t type struc_length version cmd seq
                comp reason count md post _ _ body Hopen Hbody (Hput body) Hall
                Htype Hgets) as (r & Hr & Hcc & _ & Hp).
    unfold inquire_qmgr. rewrite Hr, Hcc. cbn [mbind result_bind].
    unfold is_failed, eq_int. cbn [int_value].
    destruct (comp =? MQCC_FAILED); [reflexivity|].
    unfold stringify_keys. rewrite Hp.
    destruct stringify; [rewrite Hpcf by reflexivity|]; reflexivity.
  - intros Hname [body Hbody].
    destruct (execute_command_bare_header self t type struc_length version cmd seq
                comp reason count md post _ _ body Hopen Hbody (Hput body) Hall
                Htype Hgets) as (r & Hr & Hcc & _ & Hp).
    unfold inquire_q. rewrite Hname, Hr, Hcc. cbn [mbind result_bind].
    unfold is_failed, eq_int. cbn [int_value].
    destruct (comp =? MQCC_FAILED); [reflexivity|].
    unfold stringify_keys. rewrite Hp.
    destruct stringify; [rewrite Hpcf by reflexivity|]; reflexivity.
Qed.

(** X14: for a queue manager that is not z/OS, when the MQSC command packs
    and is put, and the first reply consists of a header alone, of one of
    the four header types and with the control flag [MQCFC_LAST],
    [mqsc_command] returns [None], with and without [one_line] and
    whatever the completion code is. *)
Theorem mqsc_command_on_bare_header (self : PCFCommand) (one_line : bool)
    (t : transport) (type struc_length version cmd seq comp reason count md : Z)
    (post : list get_outcome) (command text : pyval) (body : bytes) :
  open_outcome t = Ok () →
  encode_if_str codec_encode command = Ok text →
  pack_bag codec_encode self (PInt MQCMD_ESCAPE) (escape_parm_list text) = Ok body →
  put1_outcome t body = Ok () →
  Forall in_range [type; struc_length; version; cmd; seq; comp; reason; count] →
  is_header_type (PInt type) = true →
  get_outcomes t
  = Delivered (longs (is_big_endian (Some (encoding self)))
                 [type; struc_length; version; cmd; seq; MQCFC_LAST;
                  comp; reason; count]) md :: post →
  mqsc_command codec_decode codec_encode unicode_isspace zos_mqsc_command self
    false command one_line t = Some (Ok PNone).
Proof.
  intros Hopen Htext Hbody Hput Hall Htype Hgets.
  destruct (execute_command_bare_header self t type struc_length version cmd seq
              comp reason count md post _ _ body Hopen Hbody Hput Hall Htype Hgets)
    as (r & Hr & Hcc & Hrc & Hp).
  unfold mqsc_command. rewrite Htext, Hr, Hcc, Hrc, Hp. cbn [mbind result_bind].
  destruct (is_failed (Some (PInt comp))); reflexivity.
Qed.

End HelperProperties.

(** The conditions of [inquiries_on_bare_header] hold for a queue manager
    of the host's byte order that answers a request for names with a
    header of type [MQCFT_RESPONSE]. *)
Lemma inquiries_on_bare_header_witness :
  let t := mkTransport (Ok ()) (λ _, Ok ())
             [Delivered (reply_header false 1 MQCFC_LAST 0) 819] in
  inquire_qmgr latin1_decode latin1_encode (gmap Z pyval) unit (Ok ()) (λ _, Ok)
    native_cmd None true t
  = Some (Raise IndexError)
  ∧ inquire_q latin1_decode latin1_encode (gmap Z pyval) unit (Ok ()) (λ _, Ok)
      native_cmd (b "Q") None None true t
    = Some (Ok (QueueNames (gmap Z pyval) [])).
Proof.
  cbv zeta.
  destruct (inquiries_on_bare_header latin1_decode latin1_encode (gmap Z pyval) unit
              (Ok ()) (λ _, Ok) native_cmd true
              (mkTransport (Ok ()) (λ _, Ok ())
                 [Delivered (reply_header false 1 MQCFC_LAST 0) 819])
              MQCFT_RESPONSE MQCFH_STRUC_LENGTH 1 MQCMD_INQUIRE_Q_MGR 1 MQCC_OK
              MQRC_NONE 0 819 [] () None (b "Q") (b "Q") None None) as [Hqmgr Hq].
  - reflexivity.
  - intros body. reflexivity.
  - repeat (constructor; [solve_in_range|]). constructor.
  - reflexivity.
  - reflexivity.
  - intros _. reflexivity.
  - split.
    + apply Hqmgr. vm_compute. eexists. reflexivity.
    + apply Hq; [vm_compute; reflexivity|]. vm_compute. eexists. reflexivity.
Defined.

(** The conditions of [mqsc_command_on_bare_header] hold for the same
    queue manager. *)
Lemma mqsc_command_on_bare_header_witness :
  mqsc_command latin1_decode latin1_encode (λ _, false) (λ _ _ _, None) native_cmd
    false (b "DISPLAY QMGR") true
    (mkTransport (Ok ()) (λ _, Ok ())
       [Delivered (reply_header false 1 MQCFC_LAST 0) 819])
  = Some (Ok PNone).
Proof.
  assert (∃ body, pack_bag latin1_encode native_cmd (PInt MQCMD_ESCAPE)
                    (escape_parm_list (b "DISPLAY QMGR")) = Ok body) as [body Hbody]
    by (vm_compute; eexists; reflexivity).
  apply (mqsc_command_on_bare_header latin1_decode latin1_encode (λ _, false)
           (λ _ _ _, None) native_cmd true
           (mkTransport (Ok ()) (λ _, Ok ())
              [Delivered (reply_header false 1 MQCFC_LAST 0) 819])
           MQCFT_RESPONSE MQCFH_STRUC_LENGTH 1 MQCMD_INQUIRE_Q_MGR 1 MQCC_OK
           MQRC_NONE 0 819 [] (b "DISPLAY QMGR") (b "DISPLAY QMGR") body).
  - reflexivity.
  - vm_compute. reflexivity.
  - exact Hbody.
  - reflexivity.
  - repeat (constructor; [solve_in_range|]). constructor.
  - reflexivity.
  - reflexivity.
Defined.
